(** * Voice-cloning front end: a shallow embedding and its verified properties

    The repository is glue code around two third-party libraries (pydub for
    audio, Coqui TTS for synthesis) and the Python runtime.  The embedding
    keeps the control flow of every modelled function as it is written in
    the source and makes the libraries explicit:

    - Python [str] values are [string]s whose characters are the code points
      0..255; [len] is [String.length].
    - [pathlib] pure paths are a record of a root flag and the list of
      components; what the front ends ask of the file system, of the TTS
      model, of the audio player and of the clock are the oracles of the
      [Host.Oracles] interface.
    - A pydub [AudioSegment] is its header and one [chunk] per millisecond
      of audio, the unit in which pydub measures and slices; lengths are
      therefore whole milliseconds, and the rounding pydub does between
      frames and milliseconds is below the resolution of the model.  What
      a chunk holds and how the signal-processing kernels act on it is left
      to the [Pydub.Kernels] interface.
    - Effects are threaded through a state-and-exception monad: the files
      and the terminal for the audio scripts, the trace of observable
      events (lines printed, directories made, synthesis calls) for the
      front ends.

    - What the recording script asks of the sound card and of the sound
      file library are the oracles of [RecordVoice.Devices], and the
      directory listings of the web front end those of
      [WebVoices.Directory].

    The definitions come first, one module per source file, followed by the
    instances used to run them and by the proofs. *)

From stdpp Require Import gmap strings list sorting pretty.
From Stdlib Require Import Ascii.

Local Open Scope Z_scope.

(* ===================================================================== *)
(** * Python runtime *)
(* ===================================================================== *)

(** The exception classes that occur in the modelled code.  Only
    [KeyboardInterrupt] is outside the [Exception] hierarchy. *)
Inductive exn :=
  | ValueError
  | RuntimeError
  | IndexError
  | OSError
  | FileNotFoundError
  | IsADirectoryError
  | CouldntDecodeError
  | TTSError
  | EOFError
  | KeyboardInterrupt.

#[global] Instance exn_eq_dec : EqDecision exn.
Proof. solve_decision. Defined.

(** [except Exception] *)
Definition is_Exception (e : exn) : bool :=
  match e with KeyboardInterrupt => false | _ => true end.

(** How a call ends: it returns, raises, or leaves through [sys.exit]. *)
Inductive outcome (A : Type) :=
  | Return (a : A)
  | Raise (e : exn)
  | SysExit (code : Z).
Arguments Return {A} a.
Arguments Raise {A} e.
Arguments SysExit {A} code.

(** State threaded through a computation that may raise. *)
Definition M (S A : Type) : Type := S → outcome A * S.

Definition ret {S A} (a : A) : M S A := λ s, (Return a, s).

Definition bind {S A B} (c : M S A) (k : A → M S B) : M S B :=
  λ s, match c s with
       | (Return a, s') => k a s'
       | (Raise e, s') => (Raise e, s')
       | (SysExit n, s') => (SysExit n, s')
       end.

Definition raise {S A} (e : exn) : M S A := λ s, (Raise e, s).

Definition sys_exit {S A} (code : Z) : M S A := λ s, (SysExit code, s).

(** [try: c  except <caught>: handler] *)
Definition try_except {S A} (c : M S A) (caught : exn → bool)
    (handler : exn → M S A) : M S A :=
  λ s, match c s with
       | (Raise e, s') => if caught e then handler e s' else (Raise e, s')
       | r => r
       end.

(** A pure call that may raise. *)
Definition lift {S A} (o : outcome A) : M S A := λ s, (o, s).

Declare Scope py_scope.
Delimit Scope py_scope with py.
Notation "x <- c ;; k" := (bind c (λ x, k))
  (at level 100, c at next level, right associativity) : py_scope.
Notation "c ;; k" := (bind c (λ _, k))
  (at level 100, right associativity) : py_scope.
Local Open Scope py_scope.

(** [for x in xs: acc = body(acc, x)] *)
Fixpoint for_each {S A B} (xs : list A) (acc : B) (body : B → A → M S B)
    : M S B :=
  match xs with
  | [] => ret acc
  | x :: xs' => acc' <- body acc x ;; for_each xs' acc' body
  end.

(* --------------------------------------------------------------------- *)
(** ** [str] methods *)
(* --------------------------------------------------------------------- *)

Module PyStr.

(** [str.isspace] on one character, for the code points 0..255. *)
Definition isspace (c : ascii) : bool :=
  let n := nat_of_ascii c in
  ((9 <=? n) && (n <=? 13) || (28 <=? n) && (n <=? 32)
   || (n =? 133) || (n =? 160))%nat.

Fixpoint lstrip (s : string) : string :=
  match s with
  | EmptyString => EmptyString
  | String c s' => if isspace c then lstrip s' else s
  end.

Fixpoint rstrip (s : string) : string :=
  match s with
  | EmptyString => EmptyString
  | String c s' =>
      match rstrip s' with
      | EmptyString => if isspace c then EmptyString else String c EmptyString
      | r => String c r
      end
  end.

Definition strip (s : string) : string := rstrip (lstrip s).

(** [str.lower] on one character, for the code points 0..255. *)
Definition lower_char (c : ascii) : ascii :=
  let n := nat_of_ascii c in
  if ((65 <=? n) && (n <=? 90)
      || (192 <=? n) && (n <=? 222) && negb (n =? 215))%nat
  then ascii_of_nat (n + 32) else c.

Fixpoint lower (s : string) : string :=
  match s with
  | EmptyString => EmptyString
  | String c s' => String (lower_char c) (lower s')
  end.

Definition startswith (s pre : string) : bool := String.prefix pre s.

(** Truth value of a string: [if s:] *)
Definition truthy (s : string) : bool :=
  match s with EmptyString => false | _ => true end.

Definition flush (acc : list ascii) : list string :=
  match acc with
  | [] => []
  | _ => [String.string_of_list_ascii (rev acc)]
  end.

(** [s.split()]: the maximal runs of non-space characters. *)
Fixpoint split_from (acc : list ascii) (s : string) : list string :=
  match s with
  | EmptyString => flush acc
  | String c s' =>
      if isspace c then flush acc ++ split_from [] s'
      else split_from (c :: acc) s'
  end.

Definition split (s : string) : list string := split_from [] s.

(** [s.split(sep)] for a one-character separator: empty fields are kept. *)
Fixpoint split_on_from (sep : ascii) (acc : list ascii) (s : string)
    : list string :=
  match s with
  | EmptyString => [String.string_of_list_ascii (rev acc)]
  | String c s' =>
      if bool_decide (c = sep)
      then String.string_of_list_ascii (rev acc) :: split_on_from sep [] s'
      else split_on_from sep (c :: acc) s'
  end.

Definition split_on (sep : ascii) (s : string) : list string :=
  split_on_from sep [] s.

(** [sep.join(xs)] *)
Fixpoint join (sep : string) (xs : list string) : string :=
  match xs with
  | [] => EmptyString
  | [x] => x
  | x :: xs' => x +:+ sep +:+ join sep xs'
  end.

(** [s.rfind(c)] for one character. *)
Fixpoint rfind (c : ascii) (s : string) : option nat :=
  match s with
  | EmptyString => None
  | String a s' =>
      match rfind c s' with
      | Some i => Some (S i)
      | None => if bool_decide (a = c) then Some 0%nat else None
      end
  end.

Definition endswith (s suf : string) : bool :=
  let n := String.length s in
  let k := String.length suf in
  (k <=? n)%nat && bool_decide (String.substring (n - k) k s = suf).

(** [xs[i]] for a non-negative index. *)
Definition item {A} (xs : list A) (i : nat) : outcome A :=
  match xs !! i with
  | Some x => Return x
  | None => Raise IndexError
  end.

(** A string that is empty or consists of whitespace only. *)
Definition only_whitespace (s : string) : Prop :=
  Forall (λ c, Is_true (isspace c)) (String.list_ascii_of_string s).

End PyStr.

(* --------------------------------------------------------------------- *)
(** ** [pathlib] pure paths (POSIX flavour) *)
(* --------------------------------------------------------------------- *)

Module Pathlib.

Record PurePath := mkPath { root : bool; parts : list string }.

#[global] Instance PurePath_eq_dec : EqDecision PurePath.
Proof. solve_decision. Defined.

Definition keep_part (c : string) : bool :=
  negb (bool_decide (c = "")) && negb (bool_decide (c = ".")).

(** [Path(s)]: empty and [.] components are dropped, [..] is kept. *)
Definition Path (s : string) : PurePath :=
  {| root := PyStr.startswith s "/";
     parts := filter (λ c, Is_true (keep_part c)) (PyStr.split_on "/" s) |}.

(** [str(p)] *)
Definition str (p : PurePath) : string :=
  match root p, parts p with
  | false, [] => "."
  | r, ps => (if r then "/" else "") +:+ PyStr.join "/" ps
  end.

(** [p / q]: an absolute right operand replaces the left one. *)
Definition truediv (p q : PurePath) : PurePath :=
  if root q then q
  else {| root := root p; parts := parts p ++ parts q |}.

(** [p.name] *)
Definition name (p : PurePath) : string := List.last (parts p) "".

(** [p.parent] *)
Definition parent (p : PurePath) : PurePath :=
  {| root := root p; parts := removelast (parts p) |}.

(** The suffix of a file name: from its last dot, unless that dot is the
    first or the last character. *)
Definition name_suffix (n : string) : string :=
  match PyStr.rfind "." n with
  | Some i =>
      if ((0 <? i) && (i <? String.length n - 1))%nat
      then String.substring i (String.length n - i) n
      else ""
  | None => ""
  end.

(** [p.suffix] *)
Definition suffix (p : PurePath) : string := name_suffix (name p).

(** [p.with_suffix(suf)] for a well-formed suffix [suf]. *)
Definition with_suffix (p : PurePath) (suf : string) : outcome PurePath :=
  let n := name p in
  if bool_decide (n = "") then Raise ValueError
  else
    let old := name_suffix n in
    let stem := String.substring 0 (String.length n - String.length old) n in
    Return {| root := root p;
              parts := removelast (parts p) ++ [stem +:+ suf] |}.

(** The parts [relative_to] compares: the root counts as a component. *)
Definition abs_parts (p : PurePath) : list string :=
  (if root p then ["/"] else []) ++ parts p.

(** [p.relative_to(q)] *)
Definition relative_to (p q : PurePath) : outcome PurePath :=
  let n := length (abs_parts q) in
  if (if bool_decide (n = 0%nat) then root p
      else negb (bool_decide (take n (abs_parts p) = abs_parts q)))
  then Raise ValueError
  else Return {| root := false; parts := drop n (abs_parts p) |}.

End Pathlib.

(* ===================================================================== *)
(** * pydub: audio segments at millisecond granularity *)
(* ===================================================================== *)

Module Pydub.

(** The header of a segment. *)
Record format := mkFormat {
  fmt_channels : Z;
  fmt_frame_rate : Z;
  fmt_sample_width : Z
}.

#[global] Instance format_eq_dec : EqDecision format.
Proof. solve_decision. Defined.

(** What the embedding leaves to the library: the content of one
    millisecond of audio and the signal-processing kernels.
    - [silence_chunk]: one millisecond of what [AudioSegment.silent] makes;
    - [convert_chunk f g]: re-encode from header [f] to header [g];
    - [normalize_chunks]: the data after [normalize()] (peak normalisation);
    - [detect_nonsilent_ranges f d min_silence_len silence_thresh]: the
      list of [[start, end]] pairs of [pydub.silence.detect_nonsilent]. *)
Class Kernels := {
  chunk : Type;
  silence_chunk : chunk;
  convert_chunk : format → format → chunk → chunk;
  normalize_chunks : format → list chunk → list chunk;
  detect_nonsilent_ranges : format → list chunk → Z → Z → list (Z * Z)
}.

Section segments.
Context `{Kernels}.

Record AudioSegment := mkSegment { fmt : format; data : list chunk }.

Definition channels (a : AudioSegment) : Z := fmt_channels (fmt a).
Definition frame_rate (a : AudioSegment) : Z := fmt_frame_rate (fmt a).
Definition sample_width (a : AudioSegment) : Z := fmt_sample_width (fmt a).

(** [len(a)]: the duration in milliseconds. *)
Definition len (a : AudioSegment) : nat := length (data a).

(** Re-encode a whole segment; each setter below returns the segment
    itself when the header already has the requested value. *)
Definition reencode (g : format) (a : AudioSegment) : AudioSegment :=
  {| fmt := g; data := convert_chunk (fmt a) g <$> data a |}.

Definition set_channels (n : Z) (a : AudioSegment) : AudioSegment :=
  if decide (n = channels a) then a
  else reencode (mkFormat n (frame_rate a) (sample_width a)) a.

Definition set_frame_rate (r : Z) (a : AudioSegment) : AudioSegment :=
  if decide (r = frame_rate a) then a
  else reencode (mkFormat (channels a) r (sample_width a)) a.

Definition set_sample_width (w : Z) (a : AudioSegment) : AudioSegment :=
  if decide (w = sample_width a) then a
  else reencode (mkFormat (channels a) (frame_rate a) w) a.

(** [a.normalize()] keeps the header. *)
Definition normalize (a : AudioSegment) : AudioSegment :=
  {| fmt := fmt a; data := normalize_chunks (fmt a) (data a) |}.

Definition detect_nonsilent (a : AudioSegment)
    (min_silence_len silence_thresh : Z) : list (Z * Z) :=
  detect_nonsilent_ranges (fmt a) (data a) min_silence_len silence_thresh.

(** [AudioSegment.empty()] *)
Definition empty : AudioSegment := {| fmt := mkFormat 1 1 1; data := [] |}.

(** [AudioSegment.silent(duration)]: mono, 16 bit, 11025 Hz. *)
Definition silent (duration : nat) : AudioSegment :=
  {| fmt := mkFormat 1 11025 2; data := replicate duration silence_chunk |}.

(** Both operands of a concatenation are first brought to the larger
    channel count, frame rate and sample width of the two. *)
Definition sync_format (f g : format) : format :=
  mkFormat (Z.max (fmt_channels f) (fmt_channels g))
           (Z.max (fmt_frame_rate f) (fmt_frame_rate g))
           (Z.max (fmt_sample_width f) (fmt_sample_width g)).

Definition to_format (g : format) (a : AudioSegment) : AudioSegment :=
  set_sample_width (fmt_sample_width g)
    (set_frame_rate (fmt_frame_rate g) (set_channels (fmt_channels g) a)).

(** [a + b] *)
Definition add (a b : AudioSegment) : AudioSegment :=
  let g := sync_format (fmt a) (fmt b) in
  let a' := to_format g a in
  let b' := to_format g b in
  {| fmt := fmt a'; data := data a' ++ data b' |}.

(** Python's index normalisation for [xs[i:j]] on a sequence of length [n]. *)
Definition slice_index (n i : Z) : Z :=
  if i <? 0 then Z.max (i + n) 0 else Z.min i n.

(** [xs[i:j]] *)
Definition py_slice {A} (xs : list A) (i j : Z) : list A :=
  let n := Z.of_nat (length xs) in
  let i' := slice_index n i in
  let j' := slice_index n j in
  take (Z.to_nat (j' - i')) (drop (Z.to_nat i') xs).

(** A negative millisecond position counts from the end. *)
Definition parse_position (n v : Z) : Z :=
  if v <? 0 then n - Z.abs v else v.

(** [a[start:stop]] with millisecond positions; a missing bound is [None]. *)
Definition getitem_slice (a : AudioSegment) (start stop : option Z)
    : AudioSegment :=
  let n := Z.of_nat (len a) in
  let s := Z.min (default 0 start) n in
  let e := Z.min (default n stop) n in
  {| fmt := fmt a;
     data := py_slice (data a) (parse_position n s) (parse_position n e) |}.

(** The content of a path: a decodable audio file or anything else. *)
Inductive file :=
  | Wav (a : AudioSegment)
  | Undecodable.

End segments.

Arguments AudioSegment {_}.
Arguments file {_}.

End Pydub.

(* ===================================================================== *)
(** * scripts/prepare_audio.py *)
(* ===================================================================== *)

Module PrepareAudio.
Import Pathlib Pydub.

(** What the script prints, one constructor per [print] call (numbers that
    the source formats as seconds or kilobytes are kept as the values they
    are computed from). *)
Inductive message :=
  | Processing (name : string)
  | ErrorLoadingAudio (e : exn)
  | ConvertingToMono
  | ConvertingSampleRate (from : Z)
  | NormalizingVolume
  | RemovingSilence
  | WarnNoNonSilent
  | SavedTo (name : string)
  | Duration (original_ms processed_ms : nat)
  | Size (path : string)
  | Blank
  | NoSamplesFound (dir : string)
  | ExpectedFiles
  | Combining (n : nat)
  | SampleProgress (i n : nat) (name : string)
  | WarnFailedToLoad (sample : string) (e : exn)
  | CombinedSaved
  | CombinedFile (path : string)
  | CombinedDuration (ms : nat)
  | CombinedSize (path : string).

Section script.
Context `{Kernels}.

(** The files on disk, keyed by their normalised path, and the terminal. *)
Record world := mkWorld {
  files : gmap string file;
  stdout : list message
}.

Definition print (m : message) : M world unit :=
  λ w, (Return tt, {| files := files w; stdout := stdout w ++ [m] |}).

Definition key (path : string) : string := str (Path path).

(** [AudioSegment.from_file(path)]; a path without a final component
    ([.] or [/]) names a directory, and a stream that declares no channel
    does not decode. *)
Definition from_file (path : string) : M world AudioSegment :=
  λ w, if bool_decide (name (Path path) = "") then (Raise IsADirectoryError, w)
       else match files w !! key path with
            | Some (Wav a) =>
                if 1 <=? channels a then (Return a, w)
                else (Raise CouldntDecodeError, w)
            | Some Undecodable => (Raise CouldntDecodeError, w)
            | None => (Raise FileNotFoundError, w)
            end.

(** [AudioSegment.from_wav(path)] *)
Definition from_wav (path : string) : M world AudioSegment := from_file path.

(** [a.export(path, format="wav")]; the target is taken to be writable. *)
Definition export (a : AudioSegment) (path : string) : M world unit :=
  λ w, (Return tt, {| files := <[key path := Wav a]> (files w);
                      stdout := stdout w |}).

(** [fnmatch] against a pattern [pre*suf]. *)
Definition fnmatch_star (pre suf n : string) : bool :=
  PyStr.startswith n pre && PyStr.endswith n suf
  && (String.length pre + String.length suf <=? String.length n)%nat.

(** [glob.glob(str(dir / "pre*suf"))]: the matching entries of [dir], in
    the order the directory lists them. *)
Definition glob_star (dir : PurePath) (pre suf : string)
    : M world (list string) :=
  λ w, (Return
          (filter (λ k, parent (Path k) = dir ∧ parts (Path k) ≠ []
                        ∧ Is_true (fnmatch_star pre suf (name (Path k))))
                  (map_to_list (files w)).*1), w).

(** [sorted(xs)] on strings *)
Definition sorted (xs : list string) : list string :=
  merge_sort String.le xs.

(** [enumerate(xs, 1)] *)
Definition enumerate1 {A} (xs : list A) : list (nat * A) :=
  imap (λ i x, (S i, x)) xs.

Definition prepare_audio (input_path : string) (output_path : option string)
    : M world (option string) :=
  print (Processing (name (Path input_path))) ;;
  (* Load audio *)
  loaded <- try_except (audio <- from_file input_path ;; ret (Some audio))
              is_Exception
              (λ e, print (ErrorLoadingAudio e) ;; ret None) ;;
  match loaded with
  | None => ret None
  | Some audio =>
      let original_duration := len audio in
      (* Convert to mono *)
      audio <- (if 1 <? channels audio
                then print ConvertingToMono ;; ret (set_channels 1 audio)
                else ret audio) ;;
      (* Set sample rate to 22050 Hz *)
      audio <- (if negb (frame_rate audio =? 22050)
                then print (ConvertingSampleRate (frame_rate audio)) ;;
                     ret (set_frame_rate 22050 audio)
                else ret audio) ;;
      (* Normalize volume *)
      print NormalizingVolume ;;
      let audio := normalize audio in
      (* Remove leading/trailing silence *)
      print RemovingSilence ;;
      let nonsilent_ranges := detect_nonsilent audio 500 (-40) in
      audio <- match nonsilent_ranges with
               | r0 :: _ =>
                   let start := r0.1 in
                   let end_ := (List.last nonsilent_ranges r0).2 in
                   ret (getitem_slice audio (Some start) (Some end_))
               | [] => print WarnNoNonSilent ;; ret audio
               end ;;
      (* Generate output path if not provided *)
      output_path <- match output_path with
                     | None =>
                         p <- lift (with_suffix (Path input_path)
                                                ".processed.wav") ;;
                         ret (str p)
                     | Some p => ret p
                     end ;;
      (* Export as WAV *)
      export audio output_path ;;
      let processed_duration := len audio in
      print (SavedTo (name (Path output_path))) ;;
      print (Duration original_duration processed_duration) ;;
      print (Size output_path) ;;
      print Blank ;;
      ret (Some output_path)
  end.

(** The loop body of [combine_samples]: one sample is appended, followed
    by the 500 ms pause, unless loading it raises. *)
Definition combine_step (n : nat) (combined : AudioSegment)
    (entry : nat * string) : M world AudioSegment :=
  let '(i, sample) := entry in
  print (SampleProgress i n (name (Path sample))) ;;
  try_except
    (audio <- from_wav sample ;;
     let combined := add combined audio in
     (* Add 500ms pause between samples *)
     let combined := add combined (silent 500) in
     ret combined)
    is_Exception
    (λ e, print (WarnFailedToLoad sample e) ;; ret combined).

Definition combine_samples (voice_dir : string) (output_name : string)
    : M world (option PurePath) :=
  let voice_dir := Path voice_dir in
  (* Find all sample files *)
  found <- glob_star voice_dir "sample_" ".wav" ;;
  let samples := sorted found in
  match samples with
  | [] =>
      print (NoSamplesFound (str voice_dir)) ;;
      print ExpectedFiles ;;
      ret None
  | _ =>
      print (Combining (length samples)) ;;
      print Blank ;;
      combined <- for_each (enumerate1 samples) empty
                    (combine_step (length samples)) ;;
      (* Remove trailing silence *)
      let combined := getitem_slice combined None (Some (-500)) in
      (* Save combined audio *)
      let output_path := truediv voice_dir (Path output_name) in
      export combined (str output_path) ;;
      print Blank ;;
      print CombinedSaved ;;
      print (CombinedFile (str output_path)) ;;
      print (CombinedDuration (len combined)) ;;
      print (CombinedSize (str output_path)) ;;
      print Blank ;;
      ret (Some output_path)
  end.

(** ** The pipeline in the words of the specification

    load, convert to mono, resample to 22050 Hz, normalise loudness, trim
    leading and trailing silence, export: each stage applied to the result
    of the one before. *)

(** Silence trimming: the slice from the start of the first nonsilent
    range to the end of the last one, or the audio as it is when there is
    no such range. *)
Definition trim_silence (a : AudioSegment) : AudioSegment :=
  match detect_nonsilent a 500 (-40) with
  | [] => a
  | r0 :: rs =>
      getitem_slice a (Some r0.1) (Some (List.last (r0 :: rs) r0).2)
  end.

Definition pipeline (a : AudioSegment) : AudioSegment :=
  trim_silence (normalize (set_frame_rate 22050 (set_channels 1 a))).

(** What [prepare_audio] prints for an input that loads as [a] and is
    saved as [out]. *)
Definition prepare_log (input_path out : string) (a : AudioSegment)
    : list message :=
  let mono := set_channels 1 a in
  let normalized := normalize (set_frame_rate 22050 mono) in
  [Processing (name (Path input_path))]
  ++ (if 1 <? channels a then [ConvertingToMono] else [])
  ++ (if negb (frame_rate mono =? 22050)
      then [ConvertingSampleRate (frame_rate mono)] else [])
  ++ [NormalizingVolume; RemovingSilence]
  ++ (match detect_nonsilent normalized 500 (-40) with
      | [] => [WarnNoNonSilent]
      | _ => []
      end)
  ++ [SavedTo (name (Path out)); Duration (len a) (len (pipeline a));
      Size out; Blank].

(** ** The combined voice file in the words of the specification *)

(** The segment a sample path loads as, if it loads. *)
Definition load_result (w : world) (sample : string) : option AudioSegment :=
  match from_wav sample w with
  | (Return a, _) => Some a
  | _ => None
  end.

(** The exception a sample path fails with, if it fails. *)
Definition load_failure (w : world) (sample : string) : option exn :=
  match from_wav sample w with
  | (Raise e, _) => Some e
  | _ => None
  end.







(** A path is an entry of [dir] that matches [sample_*.wav]. *)
Definition sample_of (dir : PurePath) (k : string) : Prop :=
  parent (Path k) = dir ∧ parts (Path k) ≠ []
  ∧ Is_true (fnmatch_star "sample_" ".wav" (name (Path k))).

#[global] Instance sample_of_dec dir k : Decision (sample_of dir k).
Proof. unfold sample_of. apply _. Defined.

(** The sample files of [dir] in the order [combine_samples] takes them. *)
Definition sample_paths (w : world) (dir : PurePath) : list string :=
  sorted (filter (sample_of dir) (map_to_list (files w)).*1).

(** The path [prepare_audio] saves to. *)
Definition saved_as (input_path : string) (output_path : option string)
    (out : string) : Prop :=
  match output_path with
  | Some p => out = p
  | None => ∃ q, with_suffix (Path input_path) ".processed.wav" = Return q
                 ∧ out = str q
  end.

End script.

Arguments world {_}.

End PrepareAudio.

(* ===================================================================== *)
(** * The host of the front ends *)
(* ===================================================================== *)

Module Host.
Import Pathlib.

(** What the front ends ask of the operating system and of the TTS
    library.  [path_resolve] is [Path.resolve()] (it depends on the working
    directory and on symbolic links) and gives the resolved path or the
    exception raised; [tts_load] is the outcome of
    constructing the model and [tts_to_file] of one synthesis, [None]
    meaning success; [ffplay] is the exit status of the audio player, or
    the exception raised by starting it; [clock n] is the formatted time read after [n]
    effects. *)
Class Oracles := {
  path_exists : PurePath → bool;
  path_is_dir : PurePath → bool;
  path_glob : PurePath → string → list PurePath;
  path_resolve : PurePath → exn + PurePath;
  tts_load : option exn;
  tts_to_file : string → string → string → string → option exn;
  ffplay : string → exn + Z;
  clock : nat → string
}.

(** Everything the front ends print, one constructor per message or block
    of consecutive [print] calls. *)
Inductive message :=
  (* src/voice_cloner.py *)
  | ClonerInitialized
  | Generating (text_preview : string)
  | Reference (name : string)
  | Language (language : string)
  | ProcessingDots
  | AudioSavedTo (output_path : string)
  | ErrorGeneratingAudio (e : exn)
  (* cli.py *)
  | VoiceList
  | InteractiveBanner
  | Goodbye
  | Help
  | LanguageChanged (language : string)
  | UnsupportedLanguage (new_lang : string)
  | SupportedLanguages (supported : list string)
  | Saved (name : string)
  | ErrorMsg (e : exn)
  | VoiceProfileNotFound (voice : string)
  | CreateProfileHint
  | UsingVoice (voice_file : string)
  | ErrorInitializing (e : exn)
  | InstallHint
  | TextRequired
  | ParserHelp
  | TextExceedsMaximum (max_text_length : Z)
  | OutputPathOutside
  | Success (output_path : string)
  | ErrorGeneratingSpeech (e : exn)
  (* quick_clone.py *)
  | Usage
  | TextCannotBeEmpty
  | VoiceFileNotFound (expected : string)
  | QuickBanner
  | Troubleshooting
  | PlayingAudio
  | CouldNotAutoPlay
  | InstallFfplayTip
  | GenerateMore.

(** Observable effects, in the order they happen. *)
Inductive event :=
  | Print (m : message)
  | Prompt (counter : nat) (current_language : string)
  | Mkdir (p : PurePath)
  | TtsToFile (text file_path speaker_wav language : string)
  | Ffplay (file : string).

Definition trace := list event.

(** The arguments of the synthesis calls of a trace, in order. *)
Definition tts_calls (t : trace) : list (string * string * string * string) :=
  omap (λ e, match e with
             | TtsToFile text file_path speaker_wav language =>
                 Some (text, file_path, speaker_wav, language)
             | _ => None
             end) t.

(** A program run that ends in an error: [sys.exit] with a non-zero
    status, or an exception nobody caught. *)
Definition exits_with_error {A} (o : outcome A) : Prop :=
  match o with
  | SysExit code => code ≠ 0
  | Raise _ => True
  | Return _ => False
  end.

Definition emit (e : event) : M trace unit := λ t, (Return tt, t ++ [e]).

Definition print (m : message) : M trace unit := emit (Print m).

(** ** Judgements on computations over traces *)

(** From every trace, [c] only appends events, each of them satisfies
    [Q], and a returned value satisfies [R]. *)
Definition emits (Q : event → Prop) {A} (c : M trace A) (R : A → Prop)
    : Prop :=
  ∀ t, ∃ new, (c t).2 = t ++ new ∧ Forall Q new
              ∧ ∀ a, (c t).1 = Return a → R a.

(** From every trace, the first thing [c] does is [e]. *)
Definition starts_with (e : event) {A} (c : M trace A) : Prop :=
  ∀ t, ∃ rest, (c t).2 = t ++ e :: rest.

Definition any_event (e : event) : Prop := True.

Definition any_value {A} (a : A) : Prop := True.


(** An event other than printing [m]. *)
Definition not_printing (m : message) (e : event) : Prop := e ≠ Print m.

Section host.
Context `{Oracles}.

(** [os.path.exists(s)] *)
Definition os_path_exists (s : string) : bool :=
  PyStr.truthy s && path_exists (Path s).

(** [datetime.now().strftime("%Y%m%d_%H%M%S")] *)
Definition now_timestamp : M trace string := λ t, (Return (clock (length t)), t).

(** [p.resolve()] *)
Definition resolve (p : PurePath) : M trace PurePath :=
  match path_resolve p with
  | inr resolved => ret resolved
  | inl e => raise e
  end.

(** [subprocess.run(["ffplay", "-nodisp", "-autoexit", file], ...)] and
    its [returncode]. *)
Definition run_ffplay (file : string) : M trace Z :=
  emit (Ffplay file) ;;
  match ffplay file with
  | inr returncode => ret returncode
  | inl e => raise e
  end.

(** [p.mkdir(...)], taken to succeed. *)
Definition mkdir (p : PurePath) : M trace unit := emit (Mkdir p).

End host.
End Host.

(* ===================================================================== *)
(** * src/voice_cloner.py *)
(* ===================================================================== *)

Module VoiceCloner.
Import Pathlib Host.

Section voice_cloner.
Context `{Oracles}.

Definition validate_path (path allowed_parent : string) : M trace PurePath :=
  try_except
    (resolved <- resolve (Path path) ;;
     allowed <- resolve (Path allowed_parent) ;;
     lift (relative_to resolved allowed) ;;
     ret resolved)
    (λ e, bool_decide (e = ValueError ∨ e = RuntimeError))
    (λ _, raise ValueError).

(** [VoiceCloner()] *)
Definition init : M trace unit :=
  match tts_load with
  | Some e => raise e
  | None => print ClonerInitialized
  end.

(** [self.tts.tts_to_file(...)] *)
Definition call_tts_to_file (text file_path speaker_wav language : string)
    : M trace unit :=
  emit (TtsToFile text file_path speaker_wav language) ;;
  match tts_to_file text file_path speaker_wav language with
  | Some e => raise e
  | None => ret tt
  end.

Definition clone_voice (text reference_audio output_path language : string)
    : M trace string :=
  (* Validate inputs *)
  if negb (os_path_exists reference_audio) then raise FileNotFoundError
  else if negb (PyStr.truthy text) || negb (PyStr.truthy (PyStr.strip text))
  then raise ValueError
  else
    (* Create output directory if needed *)
    mkdir (parent (Path output_path)) ;;
    (* Display generation info *)
    let text_preview :=
      if (60 <? String.length text)%nat
      then String.substring 0 60 text +:+ "..." else text in
    print (Generating text_preview) ;;
    print (Reference (name (Path reference_audio))) ;;
    print (Language language) ;;
    print ProcessingDots ;;
    (* Generate audio *)
    try_except
      (call_tts_to_file text output_path reference_audio language ;;
       print (AudioSavedTo output_path) ;;
       ret output_path)
      is_Exception
      (λ e, print (ErrorGeneratingAudio e) ;; raise e).

Definition get_supported_languages : list string :=
  ["en"; "es"; "fr"; "de"; "it"; "pt"; "pl"; "tr";
   "ru"; "nl"; "cs"; "ar"; "zh-cn"; "ja"; "hu"; "ko"].

(** What [clone_voice] does before the synthesis call returns. *)
Definition generation_events (text reference_audio output_path language : string)
    : trace :=
  [Mkdir (parent (Path output_path));
   Print (Generating (if (60 <? String.length text)%nat
                      then String.substring 0 60 text +:+ "..." else text));
   Print (Reference (name (Path reference_audio)));
   Print (Language language);
   Print ProcessingDots;
   TtsToFile text output_path reference_audio language].

(** ** Containment in the words of the specification *)

(** A resolved path [r] is [a] itself or lies inside the directory [a]:
    the components of [a] are the leading components of [r]. *)
Definition within (r a : PurePath) : Prop :=
  root r = root a ∧ parts a `prefix_of` parts r.

#[global] Instance within_dec r a : Decision (within r a).
Proof. unfold within. apply _. Defined.

(** The comparison a string-prefix check would make. *)
Definition str_prefix_check (r a : PurePath) : bool :=
  PyStr.startswith (str r) (str a).

End voice_cloner.
End VoiceCloner.

(* ===================================================================== *)
(** * cli.py *)
(* ===================================================================== *)

Module Cli.
Import Pathlib Host VoiceCloner.

(** [f"{n:03d}"] *)
Definition pad3 (n : nat) : string :=
  let d := pretty n in
  String.string_of_list_ascii
    (replicate (3 - String.length d) "0"%char) +:+ d.

(** The parsed command line of [cli.py]. *)
Record args := mkArgs {
  text : option string;
  voice : string;
  output : option string;
  language : string;
  interactive : bool;
  list_voices_flag : bool
}.

(** One answer of the terminal to [input()]: a line, Ctrl-C, or the end
    of the input. *)
Inductive keyboard :=
  | Line (s : string)
  | CtrlC
  | EndOfInput.

(** The variables of the interactive loop. *)
Record locals := mkLocals { counter : nat; current_language : string }.

Inductive control := Continue | Break.

(** The language an event shows or uses is a supported one. *)
Definition event_lang_ok (e : event) : Prop :=
  match e with
  | Prompt _ current_language => current_language ∈ get_supported_languages
  | TtsToFile _ _ _ language => language ∈ get_supported_languages
  | _ => True
  end.

Section cli.
Context `{Oracles}.

Definition find_voice_file (voice_name : string) : M trace (option PurePath) :=
  (* If it's a direct path to a file, validate it's in voices directory *)
  direct <- (if path_exists (Path voice_name)
                && bool_decide (suffix (Path voice_name) = ".wav")
             then try_except
                    (validated_path <- validate_path voice_name "voices" ;;
                     ret (Some validated_path))
                    (λ e, bool_decide (e = ValueError))
                    (λ _, ret None)
             else ret None) ;;
  match direct with
  | Some validated_path => ret (Some validated_path)
  | None =>
      (* Look in voices directory *)
      let voices_dir := Path "voices" in
      (* Try combined.wav in voice directory *)
      let combined_path :=
        truediv (truediv voices_dir (Path voice_name)) (Path "combined.wav") in
      if path_exists combined_path then ret (Some combined_path)
      else
        (* Try to find any wav file in voice directory *)
        let voice_dir := truediv voices_dir (Path voice_name) in
        if path_exists voice_dir && path_is_dir voice_dir
        then match path_glob voice_dir "*.wav" with
             | wav :: _ => ret (Some wav)
             | [] => ret None
             end
        else ret None
  end.

Definition list_voices : M trace unit := print VoiceList.

(** [input(prompt)] answered by [k]. *)
Definition input (l : locals) (k : keyboard) : M trace string :=
  emit (Prompt (counter l) (current_language l)) ;;
  match k with
  | Line s => ret s
  | CtrlC => raise KeyboardInterrupt
  | EndOfInput => raise EOFError
  end.

(** One pass through the body of [while True:] in [interactive_mode]. *)
Definition iteration (voice_file : PurePath) (output_dir : PurePath)
    (l : locals) (k : keyboard) : M trace (control * locals) :=
  try_except
    (raw <- input l k ;;
     let user_input := PyStr.strip raw in
     (* Handle empty input *)
     if negb (PyStr.truthy user_input) then ret (Continue, l)
     (* Handle commands *)
     else if bool_decide (PyStr.lower user_input ∈ ["quit"; "exit"; "q"])
     then print Goodbye ;; ret (Break, l)
     else if bool_decide (PyStr.lower user_input = "help")
     then print Help ;; ret (Continue, l)
     else if PyStr.startswith (PyStr.lower user_input) "lang "
     then
       second <- lift (PyStr.item (PyStr.split user_input) 1) ;;
       let new_lang := PyStr.lower second in
       let supported := get_supported_languages in
       if bool_decide (new_lang ∈ supported)
       then
         let l := {| counter := counter l; current_language := new_lang |} in
         print (LanguageChanged (current_language l)) ;;
         ret (Continue, l)
       else
         print (UnsupportedLanguage new_lang) ;;
         print (SupportedLanguages supported) ;;
         ret (Continue, l)
     else
       (* Generate speech *)
       timestamp <- now_timestamp ;;
       let output_file :=
         truediv output_dir
           (Path ("interactive_" +:+ timestamp +:+ "_" +:+ pad3 (counter l)
                  +:+ ".wav")) in
       try_except
         (clone_voice user_input (str voice_file) (str output_file)
                      (current_language l) ;;
          print (Saved (name output_file)) ;;
          (* Try to play audio *)
          try_except (run_ffplay (str output_file) ;; ret tt)
            (λ _, true) (λ _, ret tt) ;;
          ret (Continue, {| counter := S (counter l);
                            current_language := current_language l |}))
         is_Exception
         (λ e, print (ErrorMsg e) ;; ret (Continue, l)))
    (λ e, bool_decide (e = KeyboardInterrupt ∨ e = EOFError))
    (λ _, print Goodbye ;; ret (Break, l)).

(** [while True:] over the answers of the terminal; when they run out,
    [input()] meets the end of the input. *)
Fixpoint interactive_loop (voice_file output_dir : PurePath)
    (keys : list keyboard) (l : locals) : M trace locals :=
  match keys with
  | [] => r <- iteration voice_file output_dir l EndOfInput ;; ret r.2
  | k :: keys' =>
      r <- iteration voice_file output_dir l k ;;
      match r.1 with
      | Break => ret r.2
      | Continue => interactive_loop voice_file output_dir keys' r.2
      end
  end.

Definition interactive_mode (voice_file : PurePath) (keys : list keyboard)
    : M trace locals :=
  print InteractiveBanner ;;
  let output_dir := Path "outputs" in
  mkdir output_dir ;;
  let l := {| counter := 1; current_language := "en" |} in
  interactive_loop voice_file output_dir keys l.

Definition MAX_TEXT_LENGTH : Z := 10000.

Definition main (a : args) (keys : list keyboard) : M trace unit :=
  (* List voices *)
  if list_voices_flag a then list_voices
  else
    (* Find voice file *)
    found <- find_voice_file (voice a) ;;
    match found with
    | None =>
        print (VoiceProfileNotFound (voice a)) ;;
        list_voices ;;
        print CreateProfileHint ;;
        sys_exit 1
    | Some voice_file =>
        print (UsingVoice (str voice_file)) ;;
        (* Initialize voice cloner *)
        try_except init is_Exception
          (λ e, print (ErrorInitializing e) ;; print InstallHint ;;
                sys_exit 1) ;;
        (* Interactive mode *)
        if interactive a then interactive_mode voice_file keys ;; ret tt
        else
          (* Single generation mode *)
          match text a with
          | None | Some EmptyString =>
              print TextRequired ;; print ParserHelp ;; sys_exit 1
          | Some text =>
              (* Validate text length *)
              if Z.of_nat (String.length text) >? MAX_TEXT_LENGTH
              then print (TextExceedsMaximum MAX_TEXT_LENGTH) ;; sys_exit 1
              else
                (* Generate output path *)
                output_path <-
                  match output a with
                  | None | Some EmptyString =>
                      let output_dir := Path "outputs" in
                      mkdir output_dir ;;
                      timestamp <- now_timestamp ;;
                      ret (truediv output_dir
                             (Path ("output_" +:+ timestamp +:+ ".wav")))
                  | Some out =>
                      try_except (validate_path out "outputs")
                        (λ e, bool_decide (e = ValueError))
                        (λ _, print OutputPathOutside ;; sys_exit 1)
                  end ;;
                (* Ensure output directory exists *)
                mkdir (parent output_path) ;;
                (* Generate speech *)
                try_except
                  (clone_voice text (str voice_file) (str output_path)
                               (language a) ;;
                   print (Success (str output_path)))
                  is_Exception
                  (λ e, print (ErrorGeneratingSpeech e) ;; sys_exit 1)
          end
    end.

End cli.
End Cli.

(* ===================================================================== *)
(** * quick_clone.py *)
(* ===================================================================== *)

Module QuickClone.
Import Pathlib Host VoiceCloner.

Section quick_clone.
Context `{Oracles}.

(** [script_dir] is [Path(__file__).parent]. *)
Variable script_dir : PurePath.

Definition VOICE_DIR : PurePath :=
  truediv (truediv script_dir (Path "voices")) (Path "my_voice").
Definition OUTPUT_DIR : PurePath := truediv script_dir (Path "outputs").
Definition DEFAULT_VOICE : PurePath := truediv VOICE_DIR (Path "combined.wav").

Definition print_usage : M trace unit := print Usage.

Definition MAX_TEXT_LENGTH : Z := 10000.

(** [argv] is [sys.argv], the script name first. *)
Definition main (argv : list string) : M trace unit :=
  (* Check for text argument *)
  if (length argv <? 2)%nat then print_usage ;; sys_exit 1
  else
    (* Get text from command line *)
    let text := PyStr.join " " (drop 1 argv) in
    (* Validate text *)
    if negb (PyStr.truthy (PyStr.strip text))
    then print TextCannotBeEmpty ;; print_usage ;; sys_exit 1
    else if Z.of_nat (String.length text) >? MAX_TEXT_LENGTH
    then print (TextExceedsMaximum MAX_TEXT_LENGTH) ;; sys_exit 1
    (* Check if voice file exists *)
    else if negb (path_exists DEFAULT_VOICE)
    then print (VoiceFileNotFound (str DEFAULT_VOICE)) ;; sys_exit 1
    else
      (* Create output directory *)
      mkdir OUTPUT_DIR ;;
      (* Generate unique output filename *)
      timestamp <- now_timestamp ;;
      let output_file :=
        truediv OUTPUT_DIR (Path ("cloned_" +:+ timestamp +:+ ".wav")) in
      print QuickBanner ;;
      (* Initialize voice cloner *)
      try_except init is_Exception
        (λ e, print (ErrorInitializing e) ;; print Troubleshooting ;;
              sys_exit 1) ;;
      (* Clone voice *)
      try_except
        (clone_voice text (str DEFAULT_VOICE) (str output_file) "en" ;; ret tt)
        is_Exception
        (λ e, print (ErrorGeneratingSpeech e) ;; sys_exit 1) ;;
      print (Success (str output_file)) ;;
      (* Try to play audio with ffplay *)
      try_except
        (print PlayingAudio ;;
         returncode <- run_ffplay (str output_file) ;;
         if negb (returncode =? 0) then print CouldNotAutoPlay else ret tt)
        (λ e, bool_decide (e = FileNotFoundError))
        (λ _, print InstallFfplayTip) ;;
      print GenerateMore.

End quick_clone.
End QuickClone.

(* ===================================================================== *)
(** * web_ui.py *)
(* ===================================================================== *)

Module WebUi.
Import Pathlib Host VoiceCloner.

(** The status line shown next to the audio player. *)
Inductive status :=
  | PleaseEnterText
  | TextTooLong (max_text_length : Z)
  | PleaseSelectVoice
  | VoiceFileMissing (voice_file : string)
  | ErrorStatus (e : exn)
  | GeneratedSuccessfully.

Section web_ui.
Context `{Oracles}.

(** [generate_speech], the handler of the Generate button; the voice
    dropdown may be unset. *)
Definition generate_speech (text : string) (voice_file : option string)
    (language : string) : M trace (option string * status) :=
  (* Validate inputs *)
  let MAX_TEXT_LENGTH := 10000 in
  if negb (PyStr.truthy text) || negb (PyStr.truthy (PyStr.strip text))
  then ret (None, PleaseEnterText)
  else if Z.of_nat (String.length text) >? MAX_TEXT_LENGTH
  then ret (None, TextTooLong MAX_TEXT_LENGTH)
  else
    match voice_file with
    | None | Some EmptyString => ret (None, PleaseSelectVoice)
    | Some voice_file =>
        (* Validate voice file path *)
        checked <- try_except
                     (voice_path <- validate_path voice_file "voices" ;;
                      if negb (path_exists voice_path)
                      then ret (Some (VoiceFileMissing voice_file))
                      else ret None)
                     (λ e, bool_decide (e = ValueError))
                     (λ e, ret (Some (ErrorStatus e))) ;;
        match checked with
        | Some failure => ret (None, failure)
        | None =>
            (* Create output directory *)
            let output_dir := Path "outputs" in
            mkdir output_dir ;;
            (* Generate unique filename *)
            timestamp <- now_timestamp ;;
            let output_path :=
              truediv output_dir
                (Path ("web_ui_" +:+ timestamp +:+ ".wav")) in
            (* Generate speech *)
            try_except
              (clone_voice text voice_file (str output_path) language ;;
               ret (Some (str output_path), GeneratedSuccessfully))
              is_Exception
              (λ e, ret (None, ErrorStatus e))
        end
    end.

End web_ui.
End WebUi.

(* ===================================================================== *)
(** * Concrete instances of the interfaces *)
(* ===================================================================== *)

Module Demo.
Import Pathlib.

(** ** A pydub kernel set on peak amplitudes

    A chunk is the peak amplitude of its millisecond; re-encoding and
    normalisation keep it, and the nonsilent range runs from the first to
    the last millisecond that is not digital silence. *)

Fixpoint first_loud (d : list Z) : option nat :=
  match d with
  | [] => None
  | x :: d' => if x =? 0 then S <$> first_loud d' else Some 0%nat
  end.

Definition loud_span (d : list Z) : list (Z * Z) :=
  match first_loud d, first_loud (rev d) with
  | Some i, Some j => [(Z.of_nat i, Z.of_nat (length d - j))]
  | _, _ => []
  end.

Definition amplitude_kernels : Pydub.Kernels :=
  {| Pydub.chunk := Z;
     Pydub.silence_chunk := 0;
     Pydub.convert_chunk := λ _ _ x, x;
     Pydub.normalize_chunks := λ _ d, d;
     Pydub.detect_nonsilent_ranges := λ _ d _ _, loud_span d |}.

(** ** A host without symbolic links *)

(** [..] removes the component before it; at the root it is dropped. *)
Fixpoint collapse (above : list string) (ps : list string) : list string :=
  match ps with
  | [] => rev above
  | p :: ps' =>
      if bool_decide (p = "..") then collapse (tail above) ps'
      else collapse (p :: above) ps'
  end.

(** [Path.resolve()] from the working directory [cwd] when no component
    is a symbolic link. *)
Definition resolve_from (cwd : list string) (p : PurePath) : PurePath :=
  {| root := true;
     parts := collapse [] (if root p then parts p else cwd ++ parts p) |}.

Definition cwd : list string := ["srv"; "app"].

(** The files and the directories of the demo host, resolved. *)
Definition demo_files : list (list string) :=
  [ ["srv"; "app"; "voices"; "my_voice"; "combined.wav"];
    ["srv"; "app"; "voices"; "my_voice"; "sample_1.wav"];
    ["srv"; "app"; "voices"; "guest"; "take.wav"];
    ["srv"; "app"; "voices_evil"; "x.wav"] ].

Definition demo_dirs : list (list string) :=
  [ []; ["srv"]; ["srv"; "app"]; ["srv"; "app"; "voices"];
    ["srv"; "app"; "voices"; "my_voice"]; ["srv"; "app"; "voices"; "guest"];
    ["srv"; "app"; "voices_evil"]; ["srv"; "app"; "outputs"] ].

Definition demo_host : Host.Oracles :=
  {| Host.path_exists := λ p,
       bool_decide (parts (resolve_from cwd p) ∈ demo_files ++ demo_dirs);
     Host.path_is_dir := λ p,
       bool_decide (parts (resolve_from cwd p) ∈ demo_dirs);
     Host.path_glob := λ p pat,
       if bool_decide (parts (resolve_from cwd p)
                       = ["srv"; "app"; "voices"; "guest"])
       then [truediv p (Path "take.wav")] else [];
     Host.path_resolve := λ p, inr (resolve_from cwd p);
     Host.tts_load := None;
     Host.tts_to_file := λ _ _ _ _, None;
     Host.ffplay := λ _, inr 0;
     Host.clock := λ _, "20240101_120000" |}.

(** A host on which no path exists. *)
Definition bare_host : Host.Oracles :=
  {| Host.path_exists := λ _, false;
     Host.path_is_dir := λ _, false;
     Host.path_glob := λ _ _, [];
     Host.path_resolve := λ p, inr (resolve_from cwd p);
     Host.tts_load := None;
     Host.tts_to_file := λ _ _ _ _, None;
     Host.ffplay := λ _, inr 0;
     Host.clock := λ _, "20240101_120000" |}.

(** A text of 10001 characters. *)
Definition long_text : string :=
  String.string_of_list_ascii (replicate (Z.to_nat 10001) "a"%char).

(** Two recordings and an unreadable file in a voice directory. *)
Definition take_a : @Pydub.AudioSegment amplitude_kernels :=
  @Pydub.mkSegment amplitude_kernels (Pydub.mkFormat 2 44100 2)
    [0; 0; 7; 9; 0; 3; 0].

Definition take_b : @Pydub.AudioSegment amplitude_kernels :=
  @Pydub.mkSegment amplitude_kernels (Pydub.mkFormat 1 22050 2) [5; 6].

Definition demo_world : @PrepareAudio.world amplitude_kernels :=
  {| PrepareAudio.files :=
       {[ "voices/my_voice/sample_1.wav" := Pydub.Wav take_a;
          "voices/my_voice/sample_2.wav" := Pydub.Undecodable;
          "voices/my_voice/sample_3.wav" := Pydub.Wav take_b;
          "voices/my_voice/notes.txt" := Pydub.Undecodable ]};
     PrepareAudio.stdout := [] |}.

End Demo.

(* ===================================================================== *)
(** * scripts/prepare_audio.py: the command line *)
(* ===================================================================== *)

Module PrepareAudioMain.
Import Pathlib Pydub PrepareAudio.

(** [sub in s] on strings *)
Fixpoint contains (sub s : string) : bool :=
  String.prefix sub s
  || match s with
     | EmptyString => false
     | String _ s' => contains sub s'
     end.

(** The parsed command line of [prepare_audio.py]. *)
Record args := mkArgs {
  input : option string;
  output : option string;
  voice_dir : string;
  process_all : bool
}.

(** What [main] itself prints, one constructor per message or block of
    consecutive [print] calls. *)
Inductive notice :=
  | VoiceDirNotFound (dir : string)
  | ProcessingSingleFile
  | ProcessingAllSamples
  | NoSamplesIn (dir : string)
  | AllSamplesProcessed
  | CombiningVoiceSamples
  | VoiceReady.

(** A line of the terminal: printed by [main], or by a function it
    calls. *)
Inductive line :=
  | Notice (n : notice)
  | Output (m : message).

Section script.
Context `{Kernels}.

(** The files and the directories on disk, keyed by their normalised
    path, and the terminal. *)
Record state := mkState {
  disk : gmap string file;
  dirs : gset string;
  console : list line
}.

Definition say (n : notice) : M state unit :=
  λ s, (Return tt, {| disk := disk s; dirs := dirs s;
                      console := console s ++ [Notice n] |}).

(** A call of one of the functions of the script: it works on the files
    and its lines follow those already on the terminal. *)
Definition call {A} (c : M world A) : M state A :=
  λ s, let r := c {| files := disk s; stdout := [] |} in
       (r.1, {| disk := files r.2; dirs := dirs s;
                console := console s ++ (Output <$> stdout r.2) |}).

(** [p.exists()] *)
Definition exists_ (p : PurePath) : M state bool :=
  λ s, (Return (bool_decide (str p ∈ dirs s)
                || bool_decide (is_Some (disk s !! str p))), s).

(** The body of [for sample in samples:] when all samples are processed
    individually. *)
Definition process_sample (_ : unit) (sample : string) : M state unit :=
  (* Skip already processed files *)
  if contains ".processed" sample then ret tt
  else call (prepare_audio sample None) ;; ret tt.

Definition main (a : args) : M state unit :=
  let voice_dir := Path (voice_dir a) in
  (* Check if voice directory exists *)
  present <- exists_ voice_dir ;;
  if negb present then say (VoiceDirNotFound (str voice_dir))
  else
    match input a with
    | Some (String _ _ as input_path) =>
        (* Process specific file *)
        say ProcessingSingleFile ;;
        call (prepare_audio input_path (output a)) ;;
        ret tt
    | _ =>
        (* Process all files individually *)
        proceed <-
          (if process_all a then
             say ProcessingAllSamples ;;
             found <- call (glob_star voice_dir "sample_" ".wav") ;;
             let samples := sorted found in
             match samples with
             | [] => say (NoSamplesIn (str voice_dir)) ;; ret false
             | _ =>
                 for_each samples tt process_sample ;;
                 say AllSamplesProcessed ;;
                 ret true
             end
           else ret true) ;;
        if proceed then
          (* Combine samples *)
          say CombiningVoiceSamples ;;
          combined_path <- call (combine_samples (str voice_dir)
                                                 "combined.wav") ;;
          match combined_path with
          | Some _ => say VoiceReady
          | None => ret tt
          end
        else ret tt
    end.

End script.

Arguments state {_}.

End PrepareAudioMain.

(* ===================================================================== *)
(** * Normal forms of paths *)
(* ===================================================================== *)

Module Normal.
Import Pathlib.

(** The character [c] does not occur in [s]. *)
Definition free_of (c : ascii) (s : string) : Prop :=
  c ∉ String.list_ascii_of_string s.

(** A path as [Path] builds it: no component is empty, [.] or contains a
    slash. *)
Definition well_formed (p : PurePath) : Prop :=
  Forall (λ c, Is_true (keep_part c) ∧ free_of "/" c) (parts p).

End Normal.

(* ===================================================================== *)
(** * The files a run may write *)
(* ===================================================================== *)

Module Footprint.
Import Pathlib Pydub.



Section footprint.
Context `{Kernels}.


End footprint.

End Footprint.

(* ===================================================================== *)
(** * Reading a session off its trace *)
(* ===================================================================== *)

Module Session.
Import Host.

(** The names of the files an interactive session reports as saved. *)
Definition saved_names (t : trace) : list string :=
  omap (λ e, match e with Print (Saved name) => Some name | _ => None end) t.

(** Every prompt of [t] shows [n] plus the number of files reported as
    saved before it. *)
Fixpoint prompts_numbered (n : nat) (t : trace) : Prop :=
  match t with
  | [] => True
  | Prompt k _ :: rest => k = n ∧ prompts_numbered n rest
  | Print (Saved _) :: rest => prompts_numbered (S n) rest
  | _ :: rest => prompts_numbered n rest
  end.

(** An event that is not a prompt. *)
Definition not_prompt (e : event) : Prop :=
  match e with Prompt _ _ => False | _ => True end.

End Session.

(* ===================================================================== *)
(** * What reaches the synthesiser *)
(* ===================================================================== *)

Module Requests.
Import Pathlib Host VoiceCloner.

Section requests.
Context `{Oracles}.

(** [validate_path path allowed_parent] returns [resolved]. *)
Definition validated (path allowed_parent : string) (resolved : PurePath)
    : Prop :=
  validate_path path allowed_parent [] = (Return resolved, []).

(** A synthesis call as the web handler may make it for the request
    [(text, voice_file, language)]. *)
Definition web_request_ok (text : string) (voice_file : option string)
    (language : string) (e : event) : Prop :=
  match e with
  | TtsToFile text' file_path speaker_wav language' =>
      text' = text ∧ ¬ PyStr.only_whitespace text
      ∧ Z.of_nat (String.length text) ≤ 10000
      ∧ voice_file = Some speaker_wav ∧ speaker_wav ≠ ""
      ∧ (∃ voice_path, validated speaker_wav "voices" voice_path
                       ∧ path_exists voice_path = true)
      ∧ language' = language
      ∧ ∃ timestamp,
          file_path = str (truediv (Path "outputs")
                             (Path ("web_ui_" +:+ timestamp +:+ ".wav")))
  | _ => True
  end.

(** The file a run of [cli.py] in single-generation mode writes for the
    [--output] it was given. *)
Definition cli_writes_to (output : option string) (file_path : string)
    : Prop :=
  match output with
  | None | Some EmptyString =>
      ∃ timestamp,
        file_path = str (truediv (Path "outputs")
                           (Path ("output_" +:+ timestamp +:+ ".wav")))
  | Some out => ∃ resolved, validated out "outputs" resolved
                            ∧ file_path = str resolved
  end.

(** A synthesis call as [cli.py] may make it in single-generation mode. *)
Definition cli_request_ok (a : Cli.args) (e : event) : Prop :=
  match e with
  | TtsToFile text file_path speaker_wav language =>
      Cli.text a = Some text ∧ text ≠ ""
      ∧ Z.of_nat (String.length text) ≤ 10000
      ∧ language = Cli.language a
      ∧ cli_writes_to (Cli.output a) file_path
  | _ => True
  end.

End requests.

End Requests.

(* ===================================================================== *)
(** * The scripts as processes *)
(* ===================================================================== *)

Module Scripts.
Import Pathlib Host.

(** What the [__main__] block of a script adds when [main] raises: the
    line for Ctrl-C, the line for any other exception it catches, or
    the traceback the interpreter prints for an exception nobody caught. *)
Inductive last_words :=
  | Quiet
  | CancelledByUser
  | UnexpectedError (e : exn)
  | Traceback (e : exn).

(** A finished process: its exit status, what [main] did, and what
    followed. *)
Record finished := mkFinished {
  status : Z;
  events : trace;
  closing : last_words
}.

Section scripts.
Context `{Oracles}.

(** [python quick_clone.py ...]: the [__main__] block catches
    [KeyboardInterrupt] and [Exception] and exits with status 1. *)
Definition quick_clone (script_dir : PurePath) (argv : list string)
    : finished :=
  match QuickClone.main script_dir argv [] with
  | (Return _, t) => mkFinished 0 t Quiet
  | (SysExit code, t) => mkFinished code t Quiet
  | (Raise e, t) =>
      if bool_decide (e = KeyboardInterrupt) then mkFinished 1 t CancelledByUser
      else if is_Exception e then mkFinished 1 t (UnexpectedError e)
      else mkFinished 1 t (Traceback e)
  end.


End scripts.

End Scripts.

(* ===================================================================== *)
(** * scripts/record_voice.py *)
(* ===================================================================== *)

Module RecordVoice.
Import Pathlib.

(** Recording configuration *)
Definition SAMPLE_RATE : Z := 22050.
Definition CHANNELS : Z := 1.
Definition DEFAULT_DURATION : Z := 120.

(** What the script asks of the sound libraries and of the clock:
    [recording] is the array that [sd.rec] fills, [sd_rec frames
    samplerate channels device] gives it or the exception raised,
    [sd_wait] the outcome of waiting for the end of the recording,
    [is_quiet audio] the test [np.max(np.abs(audio)) < 0.001] or the
    exception raised by computing it, [sf_write] the outcome of writing
    the file, [None] meaning success, and [clock n] the formatted time
    read after [n] effects. *)
Class Devices := {
  recording : Type;
  sd_rec : Z → Z → Z → option Z → exn + recording;
  sd_wait : recording → option exn;
  is_quiet : recording → exn + bool;
  sf_write : string → recording → Z → option exn;
  clock : nat → string
}.

(** The parsed command line. *)
Record args := mkArgs {
  duration : Z;
  output : option string;
  device : option Z;
  list_devices : bool
}.

(** What the script prints, one constructor per message or block of
    consecutive [print] calls. *)
Inductive message :=
  | AvailableDevices
  | RecordingHeader (duration_seconds : Z)
  | RecordingTips
  | RecordingStartsIn
  | Count (i : Z)
  | RecordingNow (duration_seconds : Z)
  | RecordingComplete
  | SilentWarning
  | SavedReport (output_path : string)
  | ErrorRecording (e : exn)
  | DurationTooShort
  | LongRecordingWarning
  | Cancelled
  | Success.

Section script.
Context `{Devices}.

(** Observable effects, in the order they happen. *)
Inductive event :=
  | Print (m : message)
  | Mkdir (p : PurePath)
  | Sleep (seconds : Z)
  | Rec (frames samplerate channels : Z) (device : option Z)
  | Write (file : string) (audio : recording) (samplerate : Z)
  | Input (prompt : string).

Definition trace := list event.

Definition emit (e : event) : M trace unit := λ t, (Return tt, t ++ [e]).
Definition print (m : message) : M trace unit := emit (Print m).

(** [datetime.now().strftime("%Y%m%d_%H%M%S")] *)
Definition now_timestamp : M trace string :=
  λ t, (Return (clock (length t)), t).

(** [sd.rec(...)] *)
Definition rec (frames samplerate channels : Z) (device : option Z)
    : M trace recording :=
  emit (Rec frames samplerate channels device) ;;
  match sd_rec frames samplerate channels device with
  | inr audio => ret audio
  | inl e => raise e
  end.

(** [sd.wait()] *)
Definition wait (audio : recording) : M trace unit :=
  match sd_wait audio with
  | None => ret tt
  | Some e => raise e
  end.

(** [np.max(np.abs(audio)) < 0.001] *)
Definition quiet (audio : recording) : M trace bool :=
  match is_quiet audio with
  | inr b => ret b
  | inl e => raise e
  end.

(** [sf.write(file, audio, samplerate)] *)
Definition write (file : string) (audio : recording) (samplerate : Z)
    : M trace unit :=
  emit (Write file audio samplerate) ;;
  match sf_write file audio samplerate with
  | None => ret tt
  | Some e => raise e
  end.

(** [input(prompt)] answered by [k]. *)
Definition input (prompt : string) (k : Cli.keyboard) : M trace string :=
  emit (Input prompt) ;;
  match k with
  | Cli.Line s => ret s
  | Cli.CtrlC => raise KeyboardInterrupt
  | Cli.EndOfInput => raise EOFError
  end.

(** [project_dir] is [Path(__file__).parent.parent]. *)
Variable project_dir : PurePath.

Definition list_audio_devices : M trace unit := print AvailableDevices.

Definition record_audio (duration_seconds : Z) (output_path : option string)
    (device : option Z) : M trace (option PurePath) :=
  print (RecordingHeader duration_seconds) ;;
  (* Generate output path if not provided *)
  output_path <-
    match output_path with
    | None =>
        (* Create voices/my_voice directory if it doesn't exist *)
        let voices_dir :=
          truediv (truediv project_dir (Path "voices")) (Path "my_voice") in
        emit (Mkdir voices_dir) ;;
        timestamp <- now_timestamp ;;
        ret (truediv voices_dir (Path ("sample_" +:+ timestamp +:+ ".wav")))
    | Some p => ret (Path p)
    end ;;
  (* Recording tips *)
  print RecordingTips ;;
  (* Countdown *)
  print RecordingStartsIn ;;
  for_each [3; 2; 1] tt (λ _ i, print (Count i) ;; emit (Sleep 1)) ;;
  print (RecordingNow duration_seconds) ;;
  (* Record audio *)
  try_except
    (audio <- rec (duration_seconds * SAMPLE_RATE) SAMPLE_RATE CHANNELS
                  device ;;
     wait audio ;;
     print RecordingComplete ;;
     (* Check if audio is not silent *)
     silent <- quiet audio ;;
     if silent then print SilentWarning ;; ret None
     else
       (* Save audio *)
       write (str output_path) audio SAMPLE_RATE ;;
       print (SavedReport (str output_path)) ;;
       ret (Some output_path))
    is_Exception
    (λ e, print (ErrorRecording e) ;; ret None).

(** [main]; [answer] is what the terminal gives to the one [input()]. *)
Definition main (a : args) (answer : Cli.keyboard) : M trace unit :=
  (* List devices and exit *)
  if list_devices a then list_audio_devices
  (* Validate duration *)
  else if duration a <? 5 then print DurationTooShort
  else
    proceed <-
      (if duration a >? 600
       then
         print LongRecordingWarning ;;
         response <- input "Continue? [y/N]: " answer ;;
         if negb (bool_decide (PyStr.lower response = "y"))
         then print Cancelled ;; ret false
         else ret true
       else ret true) ;;
    if proceed then
      (* Record audio *)
      output_path <- record_audio (duration a) (output a) (device a) ;;
      match output_path with
      | Some _ => print Success
      | None => ret tt
      end
    else ret tt.

End script.

Arguments event {_}.
Arguments trace {_}.

End RecordVoice.

(* ===================================================================== *)
(** * What a recording run does *)
(* ===================================================================== *)

Module Recordings.
Import Pathlib RecordVoice.

Section recordings.
Context `{Devices}.
Variable project_dir : PurePath.

(** The directory of the default voice. *)
Definition voices_dir : PurePath :=
  truediv (truediv project_dir (Path "voices")) (Path "my_voice").

(** The path [record_audio] saves to. *)
Definition saves_to (output_path : option string) (p : PurePath) : Prop :=
  match output_path with
  | Some given => p = Path given
  | None => ∃ timestamp,
      p = truediv voices_dir (Path ("sample_" +:+ timestamp +:+ ".wav"))
  end.

(** A recording or a write as [record_audio] makes it for
    [duration_seconds] and [device]: mono at 22050 Hz for the whole
    duration, and only audio that was recorded and is not silent is
    written. *)
Definition recorded (duration_seconds : Z) (device : option Z) (e : event)
    : Prop :=
  match e with
  | Rec frames samplerate channels device' =>
      frames = duration_seconds * 22050 ∧ samplerate = 22050
      ∧ channels = 1 ∧ device' = device
  | Write _ audio samplerate =>
      samplerate = 22050 ∧ is_quiet audio = inr false
      ∧ sd_rec (duration_seconds * 22050) 22050 1 device = inr audio
  | _ => True
  end.

(** How [record_audio] may end. *)
Definition record_result (duration_seconds : Z) (output_path : option string)
    (device : option Z) (o : outcome (option PurePath)) : Prop :=
  match o with
  | Return (Some p) =>
      saves_to output_path p
      ∧ ∃ audio,
          sd_rec (duration_seconds * 22050) 22050 1 device = inr audio
          ∧ is_quiet audio = inr false
          ∧ sf_write (str p) audio 22050 = None
  | Return None => True
  | Raise e => e = KeyboardInterrupt
  | SysExit _ => False
  end.

(** What [main] lets through to the sound card. *)
Definition admitted (a : args) (answer : Cli.keyboard) (e : event) : Prop :=
  match e with
  | Rec _ _ _ _ | Write _ _ _ | Sleep _ | Mkdir _ =>
      list_devices a = false ∧ 5 ≤ duration a
      ∧ (600 < duration a →
         ∃ response, answer = Cli.Line response
                     ∧ PyStr.lower response = "y")
      ∧ recorded (duration a) (device a) e
  | _ => True
  end.

End recordings.

End Recordings.

(* ===================================================================== *)
(** * web_ui.py: the voices on offer *)
(* ===================================================================== *)

Module WebVoices.
Import Pathlib Host.

(** [os.listdir]: the names of the entries of a directory. *)
Class Directory := { listdir : PurePath → list string }.

(** [a <= b] on lists of strings, as Python compares lists. *)
Fixpoint parts_leb (a b : list string) : bool :=
  match a, b with
  | [], _ => true
  | _ :: _, [] => false
  | x :: a', y :: b' =>
      if bool_decide (x = y) then parts_leb a' b'
      else bool_decide (String.le x y)
  end.

(** [p <= q] on paths: the components of their strings are compared. *)
Definition path_le (p q : PurePath) : Prop :=
  Is_true (parts_leb (PyStr.split_on "/" (str p))
                     (PyStr.split_on "/" (str q))).

#[global] Instance path_le_dec : RelDecision path_le.
Proof. intros p q. unfold path_le. apply _. Defined.

(** [sorted(ps)] on paths *)
Definition sorted_paths (ps : list PurePath) : list PurePath :=
  merge_sort path_le ps.

(** The entry [n] of the directory [p]. *)
Definition child (p : PurePath) (n : string) : PurePath :=
  {| root := root p; parts := parts p ++ [n] |}.

(** A name an entry of a directory can have. *)
Definition entry_name (n : string) : Prop :=
  Normal.free_of "/" n ∧ n ≠ "" ∧ n ≠ "." ∧ n ≠ "..".

Section web_voices.
Context `{Oracles} `{Directory}.

(** [p.iterdir()], taken to succeed. *)
Definition iterdir (p : PurePath) : list PurePath := child p <$> listdir p.

(** The body of [for voice_dir in sorted(voices_dir.iterdir()):], with
    the entries it appends. *)
Definition voice_entries (voice_dir : PurePath) : list (string * string) :=
  if path_is_dir voice_dir
     && negb (PyStr.startswith (name voice_dir) ".")
  then
    (* Look for combined.wav first *)
    let combined := truediv voice_dir (Path "combined.wav") in
    (if path_exists combined
     then [(name voice_dir +:+ "/combined.wav", str combined)]
     else [])
    (* Also add individual samples *)
    ++ ((λ wav_file,
           (name voice_dir +:+ "/" +:+ name wav_file, str wav_file))
          <$> sorted_paths (path_glob voice_dir "sample_*.wav"))
  else [].

Definition list_voice_files : list (string * string) :=
  let voices_dir := Path "voices" in
  if negb (path_exists voices_dir) then []
  else concat (voice_entries <$> sorted_paths (iterdir voices_dir)).

(** A host whose [resolve()] meets no symbolic link: from the working
    directory [cwd] it only removes [..] components. *)
Definition no_links (cwd : list string) : Prop :=
  (".." ∉ cwd) ∧ ∀ p, path_resolve p = inr (Demo.resolve_from cwd p).

(** Listings name entries: [listdir] gives names, and [glob] gives
    entries of the directory it is asked about. *)
Definition lists_entries : Prop :=
  (∀ d n, n ∈ listdir d → entry_name n)
  ∧ ∀ d pattern w, w ∈ path_glob d pattern →
                   ∃ n, w = child d n ∧ entry_name n.

End web_voices.

End WebVoices.

(* ===================================================================== *)
(** * Further instances to run the definitions on *)
(* ===================================================================== *)

Module Scenarios.
Import Pathlib.


(** The demonstration files in their directories, and a silent terminal. *)
Definition studio : @PrepareAudioMain.state Demo.amplitude_kernels :=
  {| PrepareAudioMain.disk := PrepareAudio.files Demo.demo_world;
     PrepareAudioMain.dirs := {[ "voices"; "voices/my_voice" ]};
     PrepareAudioMain.console := [] |}.

(** The demonstration host with a synthesiser that fails. *)
Definition failing_host : Host.Oracles :=
  {| Host.path_exists := @Host.path_exists Demo.demo_host;
     Host.path_is_dir := @Host.path_is_dir Demo.demo_host;
     Host.path_glob := @Host.path_glob Demo.demo_host;
     Host.path_resolve := @Host.path_resolve Demo.demo_host;
     Host.tts_load := None;
     Host.tts_to_file := λ _ _ _ _, Some TTSError;
     Host.ffplay := λ _, inr 0;
     Host.clock := λ _, "20240101_120000" |}.

(** A microphone that hears a short sound, and a disk that accepts it. *)
Definition microphone : RecordVoice.Devices :=
  {| RecordVoice.recording := list Z;
     RecordVoice.sd_rec := λ _ _ _ _, inr [0; 4; 2];
     RecordVoice.sd_wait := λ _, None;
     RecordVoice.is_quiet := λ audio, inr (forallb (Z.eqb 0) audio);
     RecordVoice.sf_write := λ _ _ _, None;
     RecordVoice.clock := λ _, "20240101_120000" |}.

(** The entries of the demonstration host: two voices and a hidden
    directory. *)
Definition demo_listing : WebVoices.Directory :=
  {| WebVoices.listdir := λ p,
       if bool_decide (parts (Demo.resolve_from Demo.cwd p)
                       = ["srv"; "app"; "voices"])
       then ["my_voice"; "guest"; ".cache"] else [] |}.

End Scenarios.

(* ===================================================================== *)
(** * Properties of the audio preparation *)
(* ===================================================================== *)

Module PrepareAudioProofs.
Import Pathlib Pydub PrepareAudio.

Section proofs.
Context `{Kernels}.

(** ** Headers and lengths under the pydub operations *)

Lemma set_channels_same (a : AudioSegment) : set_channels (channels a) a = a.
Proof. unfold set_channels. by case_decide. Qed.

Lemma set_frame_rate_same (a : AudioSegment) :
  set_frame_rate (frame_rate a) a = a.
Proof. unfold set_frame_rate. by case_decide. Qed.


Lemma fmt_set_channels n (a : AudioSegment) :
  fmt (set_channels n a) = mkFormat n (frame_rate a) (sample_width a).
Proof.
  unfold set_channels. case_decide as E; [|done].
  rewrite E. by destruct a as [[]].
Qed.

Lemma fmt_set_frame_rate r (a : AudioSegment) :
  fmt (set_frame_rate r a) = mkFormat (channels a) r (sample_width a).
Proof.
  unfold set_frame_rate. case_decide as E; [|done].
  rewrite E. by destruct a as [[]].
Qed.

Lemma fmt_set_sample_width w (a : AudioSegment) :
  fmt (set_sample_width w a) = mkFormat (channels a) (frame_rate a) w.
Proof.
  unfold set_sample_width. case_decide as E; [|done].
  rewrite E. by destruct a as [[]].
Qed.

Lemma fmt_to_format g (a : AudioSegment) : fmt (to_format g a) = g.
Proof.
  unfold to_format. rewrite fmt_set_sample_width.
  unfold channels, frame_rate.
  rewrite fmt_set_frame_rate. unfold channels. rewrite fmt_set_channels.
  by destruct g.
Qed.










Lemma fmt_add (a b : AudioSegment) :
  fmt (add a b) = sync_format (fmt a) (fmt b).
Proof. unfold add. simpl. apply fmt_to_format. Qed.

(** ** Millisecond slices *)

Lemma py_slice_in_range {A} (xs : list A) (i j : Z) :
  0 ≤ i → i ≤ j → j ≤ Z.of_nat (length xs) →
  py_slice xs i j = take (Z.to_nat (j - i)) (drop (Z.to_nat i) xs).
Proof.
  intros Hi Hij Hj. unfold py_slice, slice_index.
  destruct (Z.ltb_spec i 0); [lia|].
  destruct (Z.ltb_spec j 0); [lia|].
  by rewrite !Z.min_l by lia.
Qed.

Lemma getitem_slice_in_range (a : AudioSegment) (s e : Z) :
  0 ≤ s → s ≤ e → e ≤ Z.of_nat (len a) →
  data (getitem_slice a (Some s) (Some e))
  = take (Z.to_nat (e - s)) (drop (Z.to_nat s) (data a)).
Proof.
  intros Hs Hse He. unfold getitem_slice, parse_position. simpl.
  rewrite !Z.min_l by lia.
  destruct (Z.ltb_spec s 0); [lia|].
  destruct (Z.ltb_spec e 0); [lia|].
  apply py_slice_in_range; unfold len in He; lia.
Qed.



(** ** One run of [prepare_audio] *)

Lemma from_file_inv path (w w' : world) a :
  from_file path w = (Return a, w') →
  w' = w ∧ name (Path path) ≠ ""
  ∧ files w !! key path = Some (Wav a) ∧ 1 ≤ channels a.
Proof.
  unfold from_file. case_bool_decide as Hn; [done|].
  destruct (files w !! key path) as [[b|]|]; [|done..].
  destruct (Z.leb_spec 1 (channels b)); [|done].
  intros [= -> ->]. done.
Qed.

(** Loading looks at the files only. *)
Lemma from_file_stdout path (w : world) out :
  from_file path {| files := files w; stdout := out |}
  = ((from_file path w).1, {| files := files w; stdout := out |}).
Proof.
  unfold from_file. simpl. case_bool_decide; [done|].
  destruct (files w !! key path) as [[b|]|]; [|done..].
  by destruct (1 <=? channels b).
Qed.

Lemma from_file_state path (w : world) : (from_file path w).2 = w.
Proof.
  unfold from_file. case_bool_decide; [done|].
  destruct (files w !! key path) as [[b|]|]; [|done..].
  by destruct (1 <=? channels b).
Qed.

Lemma from_file_is_Exception path (w w' : world) e :
  from_file path w = (Raise e, w') → is_Exception e = true.
Proof.
  unfold from_file. case_bool_decide; [by intros [= <- _]|].
  destruct (files w !! key path) as [[b|]|]; [| by intros [= <- _]..].
  destruct (1 <=? channels b); [done | by intros [= <- _]].
Qed.

Lemma from_file_no_exit path (w w' : world) code :
  from_file path w ≠ (SysExit code, w').
Proof.
  unfold from_file. case_bool_decide; [done|].
  destruct (files w !! key path) as [[b|]|]; [|done..].
  by destruct (1 <=? channels b).
Qed.

Lemma with_suffix_named p suf :
  name p ≠ "" → ∃ q, with_suffix p suf = Return q.
Proof. intros Hn. unfold with_suffix. rewrite bool_decide_false by done. eauto. Qed.

Lemma prepare_audio_run input output (w : world) a :
  from_file input w = (Return a, w) →
  ∃ out, saved_as input output out
    ∧ prepare_audio input output w
      = (Return (Some out),
         {| files := <[key out := Wav (pipeline a)]> (files w);
            stdout := stdout w ++ prepare_log input out a |}).
Proof.
  intros Hload. pose proof (from_file_inv _ _ _ _ Hload) as (_ & Hname & _ & Hch).
  destruct (with_suffix_named (Path input) ".processed.wav" Hname) as [q Hq].
  exists (match output with Some p => p | None => str q end). split.
  { destruct output; simpl; eauto. }
  unfold prepare_audio, prepare_log, pipeline, trim_silence.
  unfold bind at 1. unfold print at 1. unfold bind at 1, try_except at 1.
  unfold bind at 1. rewrite from_file_stdout, Hload. cbn [fst ret].
  destruct (Z.ltb_spec 1 (channels a)) as [Hlt|Hge];
    [| assert (set_channels 1 a = a) as ->
         by (replace 1 with (channels a) by lia; apply set_channels_same) ].
  all: unfold bind, print, ret, export, lift; simpl.
  all: match goal with
       | |- context [frame_rate ?m =? 22050] =>
           destruct (Z.eqb_spec (frame_rate m) 22050) as [E|E];
           [ assert (set_frame_rate 22050 m = m) as ->
               by (rewrite <- E; apply set_frame_rate_same) |];
           set (r := m) in *
       end; simpl.
  all: match goal with
       | |- context [detect_nonsilent ?x 500 (-40)] =>
           destruct (detect_nonsilent x 500 (-40)) as [|r0 rs]
       end.
  all: destruct output as [p|];
       unfold bind, print, ret, export, lift; simpl; rewrite ?Hq; simpl;
       rewrite <- ?app_assoc; reflexivity.
Qed.





(** C6. With [normalized] the audio after normalisation and [ranges] what
    [detect_nonsilent] finds in it for a minimum silence of 500 ms and a
    threshold of -40 dB: when [ranges] is empty the exported audio is
    [normalized] itself and the warning is printed; otherwise it is the
    slice of [normalized] from the start of the first range to the end of
    the last one, which for positions inside the audio is the contiguous
    run of its milliseconds between them, and no warning is printed. *)
Theorem prepare_audio_trims_silence input output (w : world) a :
  from_file input w = (Return a, w) →
  let normalized := normalize (set_frame_rate 22050 (set_channels 1 a)) in
  let ranges := detect_nonsilent normalized 500 (-40) in
  ∃ out w' a' log,
    prepare_audio input output w = (Return (Some out), w')
    ∧ files w' !! key out = Some (Wav a')
    ∧ stdout w' = stdout w ++ log
    ∧ match ranges with
      | [] => a' = normalized ∧ WarnNoNonSilent ∈ log
      | r0 :: _ =>
          let s := r0.1 in
          let e := (List.last ranges r0).2 in
          a' = getitem_slice normalized (Some s) (Some e)
          ∧ fmt a' = fmt normalized
          ∧ (WarnNoNonSilent ∉ log)
          ∧ (0 ≤ s → s ≤ e → e ≤ Z.of_nat (len normalized) →
             data a' = take (Z.to_nat (e - s))
                            (drop (Z.to_nat s) (data normalized)))
      end.
Proof.
  intros Hload normalized ranges.
  destruct (prepare_audio_run input output w a Hload) as (out & _ & Hrun).
  eexists out, _, (pipeline a), (prepare_log input out a).
  split; [exact Hrun|]. cbn [files stdout].
  split; [apply lookup_insert_eq|]. split; [done|].
  unfold pipeline, trim_silence, prepare_log.
  fold normalized. fold ranges.
  destruct ranges as [|r0 rs]; cbn zeta.
  - split; [done|]. rewrite list_elem_of_In, !in_app_iff. simpl. intuition.
  - split; [done|]. split; [done|]. split.
    + rewrite list_elem_of_In, !in_app_iff.
      destruct (1 <? channels a);
        destruct (negb (frame_rate (set_channels 1 a) =? 22050));
        simpl; intuition discriminate.
    + apply getitem_slice_in_range.
Qed.

(** ** One run of [combine_samples] *)

Lemma load_result_Some (w : world) sample a :
  load_result w sample = Some a ↔ from_wav sample w = (Return a, w).
Proof.
  unfold load_result. pose proof (from_file_state sample w) as Hst.
  unfold from_wav in *. destruct (from_file sample w) as [[b|e|c] w0];
    simpl in Hst; subst w0; split; intros E; by simplify_eq.
Qed.

Lemma load_failure_Some (w : world) sample e :
  load_failure w sample = Some e ↔ from_wav sample w = (Raise e, w).
Proof.
  unfold load_failure. pose proof (from_file_state sample w) as Hst.
  unfold from_wav in *. destruct (from_file sample w) as [[b|e'|c] w0];
    simpl in Hst; subst w0; split; intros E; by simplify_eq.
Qed.








(** ** What the loop prints *)



(** ** The sample paths *)


Lemma sample_paths_elem_of (w : world) dir k :
  k ∈ sample_paths w dir ↔ is_Some (files w !! k) ∧ sample_of dir k.
Proof.
  unfold sample_paths, sorted. rewrite merge_sort_Permutation.
  rewrite list_elem_of_filter, list_elem_of_fmap. split.
  - intros [Hs [[k' f] [-> Hin]]]. apply elem_of_map_to_list in Hin. eauto.
  - intros [[f Hf] Hs]. split; [done|]. exists (k, f). split; [done|].
    by apply elem_of_map_to_list.
Qed.


(** ** Length and content of the concatenation *)










(** ** The claims about [combine_samples] *)



End proofs.

(** ** The theorems at the demonstration world *)

#[local] Existing Instance Demo.amplitude_kernels.



Lemma prepare_audio_trims_silence_witness :
  from_file "voices/my_voice/sample_1.wav" Demo.demo_world
  = (Return Demo.take_a, Demo.demo_world)
  ∧ ∃ out w' a' log,
      prepare_audio "voices/my_voice/sample_1.wav" None Demo.demo_world
      = (Return (Some out), w')
      ∧ files w' !! key out = Some (Wav a')
      ∧ stdout w' = stdout Demo.demo_world ++ log
      ∧ a' = getitem_slice
               (normalize (set_frame_rate 22050 (set_channels 1 Demo.take_a)))
               (Some 2) (Some 6)
      ∧ data a' = [7; 9; 0; 3].
Proof.
  split; [vm_compute; reflexivity|].
  destruct (prepare_audio_trims_silence
              "voices/my_voice/sample_1.wav" None Demo.demo_world Demo.take_a)
    as (out & w' & a' & log & Hrun & Hfile & Hout & Ha & _ & _ & Hdata);
    [vm_compute; reflexivity|].
  exists out, w', a', log. repeat split; try assumption.
  rewrite Hdata; [reflexivity | vm_compute; discriminate..].
Defined.



End PrepareAudioProofs.

(* ===================================================================== *)
(** * Properties of src/voice_cloner.py *)
(* ===================================================================== *)

Module VoiceClonerProofs.
Import Pathlib Host VoiceCloner.

(** ** Whitespace *)

Lemma only_whitespace_nil : PyStr.only_whitespace "".
Proof. constructor. Qed.

Lemma only_whitespace_cons c s :
  PyStr.only_whitespace (String c s)
  ↔ PyStr.isspace c = true ∧ PyStr.only_whitespace s.
Proof.
  unfold PyStr.only_whitespace. simpl. rewrite Forall_cons.
  by rewrite Is_true_true.
Qed.

Lemma lstrip_empty_iff s : PyStr.lstrip s = "" ↔ PyStr.only_whitespace s.
Proof.
  induction s as [|c s IH]; simpl.
  - split; [intros _; apply only_whitespace_nil | done].
  - rewrite only_whitespace_cons. destruct (PyStr.isspace c).
    + rewrite IH. tauto.
    + split; [done | by intros [? _]].
Qed.

Lemma lstrip_head s c r :
  PyStr.lstrip s = String c r → PyStr.isspace c = false.
Proof.
  induction s as [|a s IH]; simpl; [done|].
  destruct (PyStr.isspace a) eqn:Ha; [done|]. by intros [= <- _].
Qed.

Lemma rstrip_empty_iff s : PyStr.rstrip s = "" ↔ PyStr.only_whitespace s.
Proof.
  induction s as [|c s IH]; simpl.
  - split; [intros _; apply only_whitespace_nil | done].
  - rewrite only_whitespace_cons, <- IH.
    destruct (PyStr.rstrip s); destruct (PyStr.isspace c); split;
      try done; by intros [? ?].
Qed.

(** The test [not text or not text.strip()] holds exactly of the texts
    that are empty or whitespace only. *)
Lemma blank_test text :
  negb (PyStr.truthy text) || negb (PyStr.truthy (PyStr.strip text)) = true
  ↔ PyStr.only_whitespace text.
Proof.
  assert (Ht : ∀ s, negb (PyStr.truthy s) = true ↔ s = "").
  { intros []; simpl; split; done. }
  rewrite orb_true_iff, !Ht. unfold PyStr.strip.
  rewrite rstrip_empty_iff. split.
  - intros [->|Hw]; [apply only_whitespace_nil|].
    apply lstrip_empty_iff.
    destruct (PyStr.lstrip text) as [|c r] eqn:Hl; [done|].
    apply only_whitespace_cons in Hw as [Hc _].
    by rewrite (lstrip_head _ _ _ Hl) in Hc.
  - intros Hw. right. apply lstrip_empty_iff in Hw. rewrite Hw.
    apply only_whitespace_nil.
Qed.

Lemma blank_test_false text :
  negb (PyStr.truthy text) || negb (PyStr.truthy (PyStr.strip text)) = false
  ↔ ¬ PyStr.only_whitespace text.
Proof. rewrite <- blank_test. by destruct (_ || _). Qed.

Section proofs.
Context `{Oracles}.

(** ** Path validation *)

Lemma within_take (r a : PurePath) :
  root r = true → root a = true →
  within r a
  ↔ take (length (abs_parts a)) (abs_parts r) = abs_parts a.
Proof.
  intros Hr Ha. unfold within, abs_parts. rewrite Hr, Ha. simpl.
  split.
  - intros [_ [below ->]]. by rewrite take_app_length.
  - intros [= Ht]. split; [done|].
    exists (drop (length (parts a)) (parts r)).
    rewrite <- Ht at 1. by rewrite take_drop.
Qed.

Lemma relative_to_within (r a : PurePath) :
  root r = true → root a = true →
  relative_to r a
  = if decide (within r a)
    then Return {| root := false;
                   parts := drop (length (abs_parts a)) (abs_parts r) |}
    else Raise ValueError.
Proof.
  intros Hr Ha. unfold relative_to.
  rewrite bool_decide_false by (unfold abs_parts; rewrite Ha; done).
  pose proof (within_take r a Hr Ha) as Hw.
  case_bool_decide; case_decide; simpl; tauto || done.
Qed.

(** C3. With [r] and [a] the resolved (hence absolute) forms of the path
    and of the allowed parent: when [r] is [a] or lies inside it,
    [validate_path] returns [r]; in every other case it raises
    [ValueError].  Containment compares whole components. *)
Theorem validate_path_containment path allowed_parent (r a : PurePath) t :
  path_resolve (Path path) = inr r →
  path_resolve (Path allowed_parent) = inr a →
  root r = true → root a = true →
  (within r a → validate_path path allowed_parent t = (Return r, t))
  ∧ (¬ within r a →
     validate_path path allowed_parent t = (Raise ValueError, t)).
Proof.
  intros Hr Ha Hrr Hra.
  unfold validate_path, try_except, bind, resolve, lift, ret, raise.
  rewrite Hr, Ha, (relative_to_within r a Hrr Hra).
  split; intros Hw; case_decide; done.
Qed.

(** When resolving raises: a [RuntimeError] becomes a [ValueError], any
    other exception passes through. *)
Lemma validate_path_resolve_raises path allowed_parent e t :
  path_resolve (Path path) = inl e →
  validate_path path allowed_parent t
  = (Raise (if bool_decide (e = ValueError ∨ e = RuntimeError)
            then ValueError else e), t).
Proof.
  intros Hr. unfold validate_path, try_except, bind, resolve, lift, raise.
  rewrite Hr. by case_bool_decide.
Qed.

(** ** One call of [clone_voice] *)

Lemma clone_voice_run text reference_audio output_path language t :
  clone_voice text reference_audio output_path language t
  = if negb (os_path_exists reference_audio) then (Raise FileNotFoundError, t)
    else if negb (PyStr.truthy text) || negb (PyStr.truthy (PyStr.strip text))
    then (Raise ValueError, t)
    else
      let t' := t ++ generation_events text reference_audio output_path
                                       language in
      match tts_to_file text output_path reference_audio language with
      | None => (Return output_path, t' ++ [Print (AudioSavedTo output_path)])
      | Some e =>
          (Raise e,
           if is_Exception e then t' ++ [Print (ErrorGeneratingAudio e)]
           else t')
      end.
Proof.
  unfold clone_voice, generation_events.
  destruct (negb (os_path_exists reference_audio)); [done|].
  destruct (negb (PyStr.truthy text)
            || negb (PyStr.truthy (PyStr.strip text))); [done|].
  unfold try_except, call_tts_to_file, bind, mkdir, print, emit, ret, raise.
  simpl. destruct (tts_to_file text output_path reference_audio language)
    as [e|]; [destruct (is_Exception e)|];
    simpl; rewrite <- ?app_assoc; reflexivity.
Qed.

(** C8, as the code has it.  A missing reference audio raises
    [FileNotFoundError] whatever the text; with the reference present, a
    text that is empty or whitespace only raises [ValueError]; in both
    cases nothing has happened yet, neither the directory creation nor
    the synthesis call.  A call that returns has made the synthesis call
    and returns the output path it was given. *)
Theorem clone_voice_validates_inputs text reference_audio output_path
    language t :
  (os_path_exists reference_audio = false →
   clone_voice text reference_audio output_path language t
   = (Raise FileNotFoundError, t))
  ∧ (os_path_exists reference_audio = true → PyStr.only_whitespace text →
     clone_voice text reference_audio output_path language t
     = (Raise ValueError, t))
  ∧ (os_path_exists reference_audio = true → ¬ PyStr.only_whitespace text →
     tts_to_file text output_path reference_audio language = None →
     ∃ t', clone_voice text reference_audio output_path language t
           = (Return output_path, t')
           ∧ tts_calls t'
             = tts_calls t
               ++ [(text, output_path, reference_audio, language)])
  ∧ (∀ p t', clone_voice text reference_audio output_path language t
             = (Return p, t') → p = output_path).
Proof.
  rewrite clone_voice_run. repeat split.
  - by intros ->.
  - intros -> Hw%blank_test. simpl. by rewrite Hw.
  - intros -> Hw%blank_test_false Htts. simpl. rewrite Hw, Htts.
    eexists. split; [done|].
    unfold tts_calls, generation_events. rewrite !omap_app. simpl.
    by rewrite app_nil_r.
  - intros p t'. destruct (negb _); [done|]. destruct (_ || _); [done|].
    cbn zeta. destruct (tts_to_file _ _ _ _); [done|]. by intros [= -> _].
Qed.

End proofs.

(** ** The theorems at the demonstration host *)

Lemma validate_path_containment_witness :
  let r := mkPath true ["srv"; "app"; "voices"; "my_voice"; "combined.wav"] in
  let a := mkPath true ["srv"; "app"; "voices"] in
  @path_resolve Demo.demo_host (Path "voices/my_voice/../my_voice/combined.wav")
  = inr r
  ∧ @path_resolve Demo.demo_host (Path "voices") = inr a
  ∧ within r a
  ∧ @validate_path Demo.demo_host
      "voices/my_voice/../my_voice/combined.wav" "voices" []
    = (Return r, []).
Proof.
  intros r a.
  assert (Hw : within r a).
  { split; [reflexivity|]. by exists ["my_voice"; "combined.wav"]. }
  split; [reflexivity|]. split; [reflexivity|]. split; [exact Hw|].
  apply (@validate_path_containment Demo.demo_host
           "voices/my_voice/../my_voice/combined.wav" "voices" r a []);
    try reflexivity.
  exact Hw.
Defined.

(** A sibling directory whose name extends the allowed one passes a
    comparison of the path strings and is rejected by [validate_path]. *)
Lemma validate_path_not_a_string_prefix :
  let r := mkPath true ["srv"; "app"; "voices_evil"; "x.wav"] in
  let a := mkPath true ["srv"; "app"; "voices"] in
  str_prefix_check r a = true
  ∧ @validate_path Demo.demo_host "voices_evil/x.wav" "voices" []
    = (Raise ValueError, []).
Proof. split; vm_compute; reflexivity. Qed.

Lemma clone_voice_validates_inputs_witness :
  @os_path_exists Demo.demo_host "voices/my_voice/combined.wav" = true
  ∧ PyStr.only_whitespace "   "
  ∧ @clone_voice Demo.demo_host "   " "voices/my_voice/combined.wav"
      "outputs/a.wav" "en" []
    = (Raise ValueError, []).
Proof.
  assert (Hw : PyStr.only_whitespace "   ").
  { repeat (apply only_whitespace_cons; split; [reflexivity|]).
    apply only_whitespace_nil. }
  split; [reflexivity|]. split; [exact Hw|].
  apply (@clone_voice_validates_inputs Demo.demo_host "   "
           "voices/my_voice/combined.wav" "outputs/a.wav" "en" []);
    [reflexivity | exact Hw].
Defined.

(** C8 as stated fails: an empty text with a missing reference audio
    raises [FileNotFoundError], not [ValueError]. *)
Lemma clone_voice_empty_text_missing_reference :
  PyStr.only_whitespace ""
  ∧ @clone_voice Demo.bare_host "" "voices/nobody/combined.wav"
      "outputs/a.wav" "en" []
    = (Raise FileNotFoundError, [])
  ∧ ¬ (∀ (host : Oracles) text reference_audio output_path language t,
         PyStr.only_whitespace text →
         (@clone_voice host text reference_audio output_path language t).1
         = Raise ValueError).
Proof.
  split; [apply only_whitespace_nil|]. split; [reflexivity|].
  intros Hclaim.
  specialize (Hclaim Demo.bare_host "" "voices/nobody/combined.wav"
                "outputs/a.wav" "en" [] only_whitespace_nil).
  discriminate Hclaim.
Qed.

End VoiceClonerProofs.

(* ===================================================================== *)
(** * Rules for the trace judgements *)
(* ===================================================================== *)

Module HostProofs.
Import Pathlib Host VoiceCloner.

Section rules.
Context (Q : event → Prop).

Lemma emits_ret {A} (a : A) (R : A → Prop) : R a → emits Q (ret a) R.
Proof.
  intros Ha t. exists []. rewrite app_nil_r.
  split; [done|]. split; [constructor|]. by intros ? [= <-].
Qed.

Lemma emits_raise {A} e (R : A → Prop) : emits Q (raise e) R.
Proof. intros t. exists []. rewrite app_nil_r. by split; [|split]. Qed.

Lemma emits_sys_exit {A} code (R : A → Prop) : emits Q (sys_exit code) R.
Proof. intros t. exists []. rewrite app_nil_r. by split; [|split]. Qed.

Lemma emits_lift {A} (o : outcome A) (R : A → Prop) :
  (∀ a, o = Return a → R a) → emits Q (lift o) R.
Proof. intros Ho t. exists []. rewrite app_nil_r. by split; [|split]. Qed.

Lemma emits_emit e (R : unit → Prop) : Q e → R tt → emits Q (emit e) R.
Proof.
  intros He Hr t. exists [e]. split; [done|].
  split; [by constructor|]. by intros [] _.
Qed.

Lemma emits_print m (R : unit → Prop) :
  Q (Print m) → R tt → emits Q (print m) R.
Proof. apply emits_emit. Qed.

Lemma emits_bind {A B} (c : M trace A) (k : A → M trace B)
    (R1 : A → Prop) (R2 : B → Prop) :
  emits Q c R1 → (∀ a, R1 a → emits Q (k a) R2) → emits Q (bind c k) R2.
Proof.
  intros Hc Hk t. destruct (Hc t) as (new1 & Ht1 & Hq1 & Hr1).
  unfold bind. destruct (c t) as [[a|e|code] t1]; simpl in *; subst t1.
  - destruct (Hk a (Hr1 a eq_refl) (t ++ new1)) as (new2 & Ht2 & Hq2 & Hr2).
    exists (new1 ++ new2). rewrite app_assoc.
    split; [done|]. split; [by apply Forall_app|done].
  - by exists new1.
  - by exists new1.
Qed.

Lemma emits_try_except {A} (c : M trace A) caught (h : exn → M trace A)
    (R : A → Prop) :
  emits Q c R → (∀ e, caught e = true → emits Q (h e) R) →
  emits Q (try_except c caught h) R.
Proof.
  intros Hc Hh t. destruct (Hc t) as (new1 & Ht1 & Hq1 & Hr1).
  unfold try_except. destruct (c t) as [[a|e|code] t1]; simpl in *; subst t1.
  - by exists new1.
  - destruct (caught e) eqn:He; [|by exists new1].
    destruct (Hh e He (t ++ new1)) as (new2 & Ht2 & Hq2 & Hr2).
    exists (new1 ++ new2). rewrite app_assoc.
    split; [done|]. split; [by apply Forall_app|done].
  - by exists new1.
Qed.

Lemma emits_weaken {A} (c : M trace A) (R R' : A → Prop) :
  emits Q c R → (∀ a, R a → R' a) → emits Q c R'.
Proof.
  intros Hc HR t. destruct (Hc t) as (new & ? & ? & ?).
  exists new. naive_solver.
Qed.

Section with_host.
Context `{Oracles}.

Lemma emits_mkdir p (R : unit → Prop) :
  Q (Mkdir p) → R tt → emits Q (mkdir p) R.
Proof. apply emits_emit. Qed.

Lemma emits_now_timestamp (R : string → Prop) :
  (∀ s, R s) → emits Q now_timestamp R.
Proof.
  intros Hr t. exists []. rewrite app_nil_r. by split; [|split].
Qed.

Lemma emits_run_ffplay file (R : Z → Prop) :
  Q (Ffplay file) → (∀ returncode, R returncode) →
  emits Q (run_ffplay file) R.
Proof.
  intros Hq Hr. unfold run_ffplay.
  eapply emits_bind with (R1 := any_value); [by apply emits_emit|].
  intros _ _. destruct (ffplay file); [apply emits_raise | by apply emits_ret].
Qed.

Lemma emits_init (R : unit → Prop) :
  Q (Print ClonerInitialized) → R tt → emits Q init R.
Proof.
  intros. unfold init. destruct tts_load; [apply emits_raise|].
  by apply emits_print.
Qed.

Lemma emits_resolve p (R : PurePath → Prop) :
  (∀ r, R r) → emits Q (resolve p) R.
Proof.
  intros Hr. unfold resolve.
  destruct (path_resolve p); [apply emits_raise | by apply emits_ret].
Qed.

Lemma emits_validate_path path allowed_parent (R : PurePath → Prop) :
  (∀ p, R p) → emits Q (validate_path path allowed_parent) R.
Proof.
  intros Hr. unfold validate_path. apply emits_try_except.
  - eapply emits_bind; [by apply (emits_resolve _ any_value)|intros r _].
    eapply emits_bind; [by apply (emits_resolve _ any_value)|intros a _].
    eapply emits_bind; [by apply (emits_lift _ any_value)|intros ? _].
    by apply emits_ret.
  - intros. apply emits_raise.
Qed.

End with_host.
End rules.

(** The first event of a sequence that begins by emitting it. *)
Lemma starts_with_emit e {A} (k : unit → M trace A) :
  (∀ u, emits any_event (k u) any_value) → starts_with e (bind (emit e) k).
Proof.
  intros Hk t. unfold bind, emit.
  destruct (Hk tt (t ++ [e])) as (new & Ht & _).
  exists new. rewrite Ht, <- app_assoc. done.
Qed.

Lemma starts_with_bind e {A B} (c : M trace A) (k : A → M trace B) :
  starts_with e c → (∀ a, emits any_event (k a) any_value) →
  starts_with e (bind c k).
Proof.
  intros Hc Hk t. destruct (Hc t) as (rest & Ht). unfold bind.
  destruct (c t) as [[a|x|code] t1]; simpl in *; subst t1; [|by eauto..].
  destruct (Hk a (t ++ e :: rest)) as (new & Ht2 & _).
  exists (rest ++ new). rewrite Ht2, <- app_assoc. done.
Qed.

Lemma starts_with_try_except e {A} (c : M trace A) caught
    (h : exn → M trace A) :
  starts_with e c → (∀ x, emits any_event (h x) any_value) →
  starts_with e (try_except c caught h).
Proof.
  intros Hc Hh t. destruct (Hc t) as (rest & Ht). unfold try_except.
  destruct (c t) as [[a|x|code] t1]; simpl in *; subst t1; [by eauto| |by eauto].
  destruct (caught x); [|by eauto].
  destruct (Hh x (t ++ e :: rest)) as (new & Ht2 & _).
  exists (rest ++ new). rewrite Ht2, <- app_assoc. done.
Qed.

Lemma Forall_any_event (t : trace) : Forall any_event t.
Proof. by apply Forall_forall. Qed.

Lemma tts_calls_app (t new : trace) :
  tts_calls (t ++ new) = tts_calls t ++ tts_calls new.
Proof. apply omap_app. Qed.

Lemma not_printing_Forall m (new : trace) :
  Forall (not_printing m) new ↔ Print m ∉ new.
Proof.
  rewrite Forall_forall. unfold not_printing. split.
  - intros Hall Hin. by apply (Hall _ Hin).
  - intros Hnin e Hin ->. done.
Qed.

End HostProofs.

(* ===================================================================== *)
(** * Properties of the front ends *)
(* ===================================================================== *)

Module FrontEndProofs.
Import Pathlib Host VoiceCloner HostProofs.

(** One step of a derivation of [emits]: the rule for the head of the
    computation, or a case distinction on what it branches on. *)
Ltac emits_step :=
  lazymatch goal with
  | |- emits _ (bind _ _) _ =>
      eapply emits_bind with (R1 := any_value); [|intros ? _]
  | |- emits _ (ret _) _ => apply emits_ret
  | |- emits _ (raise _) _ => apply emits_raise
  | |- emits _ (sys_exit _) _ => apply emits_sys_exit
  | |- emits _ (print _) _ => apply emits_print
  | |- emits _ (emit _) _ => apply emits_emit
  | |- emits _ (mkdir _) _ => apply emits_mkdir
  | |- emits _ now_timestamp _ => apply emits_now_timestamp
  | |- emits _ init _ => apply emits_init
  | |- emits _ (run_ffplay _) _ => apply emits_run_ffplay
  | |- emits _ (lift _) _ => apply emits_lift
  | |- emits _ (try_except _ _ _) _ =>
      apply emits_try_except; [|intros ? _]
  | |- emits _ (validate_path _ _) _ => apply emits_validate_path
  | |- emits _ (if ?b then _ else _) _ => destruct b eqn:?
  | |- emits _ (match ?x with _ => _ end) _ => destruct x eqn:?
  end.

Section proofs.
Context `{Oracles}.

Lemma emits_clone_voice Q text reference_audio output_path language
    (R : string → Prop) :
  Forall Q (generation_events text reference_audio output_path language) →
  Q (Print (AudioSavedTo output_path)) →
  (∀ e, Q (Print (ErrorGeneratingAudio e))) →
  R output_path →
  emits Q (clone_voice text reference_audio output_path language) R.
Proof.
  intros Hgen Hsaved Herr Hr t.
  rewrite VoiceClonerProofs.clone_voice_run.
  destruct (negb _); [exists []; rewrite app_nil_r; by split; [|split]|].
  destruct (_ || _); [exists []; rewrite app_nil_r; by split; [|split]|].
  cbn zeta.
  destruct (tts_to_file _ _ _ _) as [e|]; [destruct (is_Exception e)|].
  - exists (generation_events text reference_audio output_path language
            ++ [Print (ErrorGeneratingAudio e)]).
    rewrite app_assoc. split; [done|]. split; [|done].
    apply Forall_app. split; [done|]. by constructor.
  - by exists (generation_events text reference_audio output_path language).
  - exists (generation_events text reference_audio output_path language
            ++ [Print (AudioSavedTo output_path)]).
    rewrite app_assoc. split; [done|]. split.
    + apply Forall_app. split; [done|]. by constructor.
    + by intros ? [= <-].
Qed.

Lemma emits_find_voice_file Q voice_name (R : option PurePath → Prop) :
  (∀ p, R p) → emits Q (Cli.find_voice_file voice_name) R.
Proof.
  intros Hr. unfold Cli.find_voice_file.
  repeat emits_step; done.
Qed.

(** Looking for the voice file has no effect. *)
Lemma find_voice_file_trace voice_name t :
  (Cli.find_voice_file voice_name t).2 = t.
Proof.
  destruct (emits_find_voice_file (λ _, False) voice_name any_value
              (λ _, I) t) as (new & -> & Hnew & _).
  destruct new as [|e new]; [by rewrite app_nil_r|].
  by apply Forall_cons in Hnew as [[] _].
Qed.

(** ** The default reference audio *)


Lemma tts_calls_print t m : tts_calls (t ++ [Print m]) = tts_calls t.
Proof. rewrite tts_calls_app. apply app_nil_r. Qed.


(** ** The text limit *)

Lemma validate_path_no_exit path allowed_parent t code :
  (validate_path path allowed_parent t).1 ≠ SysExit code.
Proof.
  unfold validate_path, try_except, bind, resolve, lift, ret, raise.
  destruct (path_resolve (Path path)) as [e|r]; [by case_bool_decide|].
  destruct (path_resolve (Path allowed_parent)) as [e|a];
    [by case_bool_decide|].
  unfold relative_to. destruct (if bool_decide _ then _ else _); [|done].
  by case_bool_decide.
Qed.

Lemma find_voice_file_no_exit voice_name t code :
  (Cli.find_voice_file voice_name t).1 ≠ SysExit code.
Proof.
  unfold Cli.find_voice_file. unfold bind at 1.
  destruct (_ && _).
  - unfold try_except, bind at 1.
    pose proof (validate_path_no_exit voice_name "voices" t) as Hv.
    destruct (validate_path voice_name "voices" t) as [[p|e|c] t1].
    + done.
    + case_bool_decide; [|done]. unfold ret.
      destruct (path_exists _); [done|]. destruct (_ && _); [|done].
      by destruct (path_glob _ _).
    + by destruct (Hv c).
  - unfold ret. destruct (path_exists _); [done|].
    destruct (_ && _); [|done]. by destruct (path_glob _ _).
Qed.

Lemma cli_long_text_exits (a : Cli.args) keys t text :
  Cli.list_voices_flag a = false → Cli.interactive a = false →
  Cli.text a = Some text →
  10000 < Z.of_nat (String.length text) →
  exits_with_error (Cli.main a keys t).1
  ∧ tts_calls (Cli.main a keys t).2 = tts_calls t.
Proof.
  intros Hlist Hint Htext Hlong.
  assert (Hgt : (Z.of_nat (String.length text) >? Cli.MAX_TEXT_LENGTH) = true).
  { unfold Cli.MAX_TEXT_LENGTH. apply Z.gtb_lt. lia. }
  set (p := Cli.main a keys t).
  assert (Hp : p = Cli.main a keys t) by done. clearbody p.
  unfold Cli.main in Hp. rewrite Hlist, Hint, Htext in Hp.
  unfold bind at 1 in Hp.
  pose proof (find_voice_file_trace (Cli.voice a) t) as Ht1.
  pose proof (find_voice_file_no_exit (Cli.voice a) t) as Hne.
  destruct (Cli.find_voice_file (Cli.voice a) t) as [[found|e|code] t1];
    simpl in Ht1; subst t1;
    [|by subst p|by destruct (Hne code)].
  destruct found as [voice_file|].
  - destruct text as [|c s]; [simpl in Hlong; lia|]. rewrite Hgt in Hp.
    unfold bind, try_except, init, Host.print, emit, sys_exit, raise in Hp.
    cbn [fst snd] in Hp.
    destruct tts_load as [e|]; [destruct (is_Exception e)|];
      subst p; cbn [fst snd exits_with_error]; rewrite ?tts_calls_print; done.
  - unfold Cli.list_voices, bind, Host.print, emit, sys_exit in Hp.
    subst p. cbn [fst snd exits_with_error]. by rewrite !tts_calls_print.
Qed.

Lemma cli_short_text_passes (a : Cli.args) keys text :
  Cli.list_voices_flag a = false → Cli.interactive a = false →
  Cli.text a = Some text →
  Z.of_nat (String.length text) ≤ 10000 →
  emits (not_printing (TextExceedsMaximum 10000)) (Cli.main a keys) any_value.
Proof.
  intros Hlist Hint Htext Hshort.
  assert (Hgt : (Z.of_nat (String.length text) >? Cli.MAX_TEXT_LENGTH) = false).
  { unfold Cli.MAX_TEXT_LENGTH. rewrite Z.gtb_ltb. apply Z.ltb_ge. lia. }
  unfold Cli.main. rewrite Hlist, Hint, Htext.
  eapply emits_bind with (R1 := any_value);
    [by apply emits_find_voice_file|intros found _].
  destruct found as [voice_file|];
    [|unfold Cli.list_voices; repeat emits_step; done].
  destruct text as [|c s]; [repeat emits_step; done|]. rewrite Hgt.
  repeat emits_step; try done.
  apply emits_clone_voice; try done.
  unfold generation_events. repeat constructor; done.
Qed.

Lemma quick_long_text_exits script_dir argv t :
  10000 < Z.of_nat (String.length (PyStr.join " " (drop 1 argv))) →
  (QuickClone.main script_dir argv t).1 = SysExit 1
  ∧ tts_calls (QuickClone.main script_dir argv t).2 = tts_calls t.
Proof.
  intros Hlong. unfold QuickClone.main, QuickClone.print_usage. cbn zeta.
  assert ((Z.of_nat (String.length (PyStr.join " " (drop 1 argv)))
           >? QuickClone.MAX_TEXT_LENGTH) = true) as ->.
  { unfold QuickClone.MAX_TEXT_LENGTH. apply Z.gtb_lt. lia. }
  destruct (_ <? _)%nat; [|destruct (negb _)];
    unfold bind, Host.print, emit, sys_exit; cbn [fst snd];
    by rewrite ?tts_calls_print.
Qed.

Lemma quick_short_text_passes script_dir argv :
  Z.of_nat (String.length (PyStr.join " " (drop 1 argv))) ≤ 10000 →
  emits (not_printing (TextExceedsMaximum 10000))
        (QuickClone.main script_dir argv) any_value.
Proof.
  intros Hshort. unfold QuickClone.main, QuickClone.print_usage. cbn zeta.
  assert ((Z.of_nat (String.length (PyStr.join " " (drop 1 argv)))
           >? QuickClone.MAX_TEXT_LENGTH) = false) as ->.
  { unfold QuickClone.MAX_TEXT_LENGTH. rewrite Z.gtb_ltb. apply Z.ltb_ge. lia. }
  repeat emits_step; try done.
  apply emits_clone_voice; try done.
  unfold generation_events. repeat constructor; done.
Qed.

Lemma web_long_text_refused text voice_file language t :
  10000 < Z.of_nat (String.length text) →
  ∃ st, WebUi.generate_speech text voice_file language t
        = (Return (None, st), t)
        ∧ (st = WebUi.PleaseEnterText ∨ st = WebUi.TextTooLong 10000).
Proof.
  intros Hlong. unfold WebUi.generate_speech. cbn zeta.
  assert ((Z.of_nat (String.length text) >? 10000) = true) as ->
    by (apply Z.gtb_lt; lia).
  destruct (_ || _); eexists; (split; [reflexivity|]); auto.
Qed.

Lemma web_short_text_passes text voice_file language :
  Z.of_nat (String.length text) ≤ 10000 →
  emits any_event (WebUi.generate_speech text voice_file language)
        (λ r, ∀ n, r.2 ≠ WebUi.TextTooLong n).
Proof.
  intros Hshort. unfold WebUi.generate_speech. cbn zeta.
  assert ((Z.of_nat (String.length text) >? 10000) = false) as ->
    by (rewrite Z.gtb_ltb; apply Z.ltb_ge; lia).
  destruct (_ || _); [by apply emits_ret|].
  destruct voice_file as [[|c s]|]; [by apply emits_ret| |by apply emits_ret].
  apply emits_bind
    with (R1 := λ checked, ∀ st, checked = Some st →
                             ∀ n, st ≠ WebUi.TextTooLong n).
  - repeat emits_step; try done; by intros ? [= <-].
  - intros [failure|] Hchecked; [apply emits_ret; by apply Hchecked|].
    repeat emits_step; try done.
    apply emits_clone_voice; try done. apply Forall_any_event.
Qed.

(** With the voice found and the model loaded, the CLI reports the
    overlong text and stops. *)
Lemma cli_long_text_message (a : Cli.args) keys t text voice_file :
  Cli.list_voices_flag a = false → Cli.interactive a = false →
  Cli.text a = Some text →
  10000 < Z.of_nat (String.length text) →
  Cli.find_voice_file (Cli.voice a) t = (Return (Some voice_file), t) →
  tts_load = None →
  Cli.main a keys t
  = (SysExit 1,
     t ++ [Print (UsingVoice (str voice_file)); Print ClonerInitialized;
           Print (TextExceedsMaximum 10000)]).
Proof.
  intros Hlist Hint Htext Hlong Hfound Hload.
  assert (Hgt : (Z.of_nat (String.length text) >? Cli.MAX_TEXT_LENGTH) = true).
  { unfold Cli.MAX_TEXT_LENGTH. apply Z.gtb_lt. lia. }
  unfold Cli.main. rewrite Hlist, Hint, Htext. unfold bind at 1.
  rewrite Hfound.
  destruct text as [|c s]; [simpl in Hlong; lia|]. rewrite Hgt.
  unfold bind, try_except, init, Host.print, emit, sys_exit, raise.
  rewrite Hload. cbn [fst snd]. by rewrite <- !app_assoc.
Qed.

(** A text that is not blank and too long meets the length check of
    [quick_clone.py] and nothing else. *)
Lemma quick_long_text_message script_dir argv t :
  10000 < Z.of_nat (String.length (PyStr.join " " (drop 1 argv))) →
  ¬ PyStr.only_whitespace (PyStr.join " " (drop 1 argv)) →
  QuickClone.main script_dir argv t
  = (SysExit 1, t ++ [Print (TextExceedsMaximum 10000)]).
Proof.
  intros Hlong Hblank%VoiceClonerProofs.blank_test_false.
  apply orb_false_iff in Hblank as [_ Hstrip].
  unfold QuickClone.main. cbn zeta. rewrite Hstrip.
  assert ((Z.of_nat (String.length (PyStr.join " " (drop 1 argv)))
           >? QuickClone.MAX_TEXT_LENGTH) = true) as ->.
  { unfold QuickClone.MAX_TEXT_LENGTH. apply Z.gtb_lt. lia. }
  destruct argv as [|script [|word words]]; [simpl in Hlong; lia..|].
  reflexivity.
Qed.

(** The same for the web handler. *)
Lemma web_long_text_message text voice_file language t :
  10000 < Z.of_nat (String.length text) →
  ¬ PyStr.only_whitespace text →
  WebUi.generate_speech text voice_file language t
  = (Return (None, WebUi.TextTooLong 10000), t).
Proof.
  intros Hlong Hblank%VoiceClonerProofs.blank_test_false.
  unfold WebUi.generate_speech. cbn zeta. rewrite Hblank.
  assert ((Z.of_nat (String.length text) >? 10000) = true) as ->
    by (apply Z.gtb_lt; lia).
  reflexivity.
Qed.

(** C9. The three front ends use the same limit of 10000 characters.  In
    the single-generation mode of the CLI and in [quick_clone.py] a longer
    text ends the run with an error and without a synthesis call, and the
    web handler returns no audio and an error status, leaving everything
    as it was; where nothing else stops the run first (the voice is found
    and the model loads, the text is not blank) it is the length error
    that is reported.  A text of at most 10000 characters never meets the
    length error in any of the three. *)
Theorem text_limit_enforced_by_every_front_end :
  Cli.MAX_TEXT_LENGTH = 10000 ∧ QuickClone.MAX_TEXT_LENGTH = 10000
  ∧ (∀ (a : Cli.args) keys t text,
       Cli.list_voices_flag a = false → Cli.interactive a = false →
       Cli.text a = Some text →
       (10000 < Z.of_nat (String.length text) →
        exits_with_error (Cli.main a keys t).1
        ∧ tts_calls (Cli.main a keys t).2 = tts_calls t
        ∧ ∀ voice_file,
            Cli.find_voice_file (Cli.voice a) t
            = (Return (Some voice_file), t) →
            tts_load = None →
            Cli.main a keys t
            = (SysExit 1,
               t ++ [Print (UsingVoice (str voice_file));
                     Print ClonerInitialized;
                     Print (TextExceedsMaximum 10000)]))
       ∧ (Z.of_nat (String.length text) ≤ 10000 →
          ∃ new, (Cli.main a keys t).2 = t ++ new
                 ∧ Print (TextExceedsMaximum 10000) ∉ new))
  ∧ (∀ script_dir argv t,
       let text := PyStr.join " " (drop 1 argv) in
       (10000 < Z.of_nat (String.length text) →
        (QuickClone.main script_dir argv t).1 = SysExit 1
        ∧ tts_calls (QuickClone.main script_dir argv t).2 = tts_calls t
        ∧ (¬ PyStr.only_whitespace text →
           QuickClone.main script_dir argv t
           = (SysExit 1, t ++ [Print (TextExceedsMaximum 10000)])))
       ∧ (Z.of_nat (String.length text) ≤ 10000 →
          ∃ new, (QuickClone.main script_dir argv t).2 = t ++ new
                 ∧ Print (TextExceedsMaximum 10000) ∉ new))
  ∧ (∀ text voice_file language t,
       (10000 < Z.of_nat (String.length text) →
        (∃ st, WebUi.generate_speech text voice_file language t
               = (Return (None, st), t)
               ∧ (st = WebUi.PleaseEnterText
                  ∨ st = WebUi.TextTooLong 10000))
        ∧ (¬ PyStr.only_whitespace text →
           WebUi.generate_speech text voice_file language t
           = (Return (None, WebUi.TextTooLong 10000), t)))
       ∧ (Z.of_nat (String.length text) ≤ 10000 →
          ∀ r t', WebUi.generate_speech text voice_file language t
                  = (Return r, t') →
                  ∀ n, r.2 ≠ WebUi.TextTooLong n)).
Proof.
  split; [done|]. split; [done|]. split; [|split].
  - intros a keys t text Hlist Hint Htext. split.
    + intros Hlong.
      destruct (cli_long_text_exits a keys t text Hlist Hint Htext Hlong).
      repeat split; try done.
      intros voice_file Hfound Hload.
      by apply (cli_long_text_message a keys t text voice_file).
    + intros Hshort.
      destruct (cli_short_text_passes a keys text Hlist Hint Htext Hshort t)
        as (new & Ht & Hnew & _).
      exists new. split; [done|]. by apply not_printing_Forall.
  - intros script_dir argv t text. split.
    + intros Hlong.
      destruct (quick_long_text_exits script_dir argv t Hlong).
      repeat split; try done.
      by apply quick_long_text_message.
    + intros Hshort.
      destruct (quick_short_text_passes script_dir argv Hshort t)
        as (new & Ht & Hnew & _).
      exists new. split; [done|]. by apply not_printing_Forall.
  - intros text voice_file language t. split.
    + intros Hlong. split; [by apply web_long_text_refused|].
      by apply web_long_text_message.
    + intros Hshort r t' Hrun.
      destruct (web_short_text_passes text voice_file language Hshort t)
        as (new & _ & _ & Hr).
      apply Hr. by rewrite Hrun.
Qed.

(** ** The interactive session *)

Section session.
(** A property [Q] of events that holds of everything but prompts and
    synthesis calls, and of those when their language satisfies [L];
    every supported language satisfies [L]. *)
Variables (Q : event → Prop) (L : string → Prop).
Hypothesis Q_print : ∀ m, Q (Print m).
Hypothesis Q_mkdir : ∀ p, Q (Mkdir p).
Hypothesis Q_ffplay : ∀ f, Q (Ffplay f).
Hypothesis Q_prompt : ∀ n language, L language → Q (Prompt n language).
Hypothesis Q_tts : ∀ text file_path speaker_wav language,
  L language → Q (TtsToFile text file_path speaker_wav language).
Hypothesis L_supported : ∀ language,
  language ∈ get_supported_languages → L language.

Lemma emits_iteration voice_file output_dir (l : Cli.locals) k :
  L (Cli.current_language l) →
  emits Q (Cli.iteration voice_file output_dir l k)
        (λ r, L (Cli.current_language r.2)).
Proof.
  intros Hl. unfold Cli.iteration, Cli.input.
  repeat emits_step; try done; auto.
  - apply L_supported. simpl. eapply bool_decide_eq_true_1. eassumption.
  - apply emits_clone_voice; try done.
    unfold generation_events. repeat constructor; auto.
Qed.

Lemma emits_interactive_loop voice_file output_dir keys :
  ∀ l : Cli.locals,
    L (Cli.current_language l) →
    emits Q (Cli.interactive_loop voice_file output_dir keys l)
          (λ l', L (Cli.current_language l')).
Proof.
  induction keys as [|k keys IH]; intros l Hl; cbn [Cli.interactive_loop].
  - eapply emits_bind; [by apply emits_iteration|].
    intros r Hr. by apply emits_ret.
  - eapply emits_bind; [by apply emits_iteration|].
    intros r Hr. destruct r.1; [by apply IH | by apply emits_ret].
Qed.

Lemma emits_interactive_mode voice_file keys :
  emits Q (Cli.interactive_mode voice_file keys)
        (λ l', L (Cli.current_language l')).
Proof.
  unfold Cli.interactive_mode.
  eapply emits_bind with (R1 := any_value); [by apply emits_print|].
  intros _ _. cbn zeta.
  eapply emits_bind with (R1 := any_value); [by apply emits_mkdir|].
  intros _ _. apply emits_interactive_loop.
  apply L_supported. unfold get_supported_languages. apply list_elem_of_here.
Qed.

End session.

Lemma starts_with_iteration voice_file output_dir (l : Cli.locals) k :
  starts_with (Prompt (Cli.counter l) (Cli.current_language l))
              (Cli.iteration voice_file output_dir l k).
Proof.
  unfold Cli.iteration. apply starts_with_try_except.
  - apply starts_with_bind.
    + unfold Cli.input. apply starts_with_emit.
      intros _. destruct k; repeat emits_step; done.
    + intros raw. repeat emits_step; try done.
      apply emits_clone_voice; try done. apply Forall_any_event.
  - intros x. repeat emits_step; done.
Qed.

Lemma starts_with_interactive_loop voice_file output_dir keys
    (l : Cli.locals) :
  starts_with (Prompt (Cli.counter l) (Cli.current_language l))
              (Cli.interactive_loop voice_file output_dir keys l).
Proof.
  destruct keys as [|k keys]; cbn [Cli.interactive_loop];
    (apply starts_with_bind; [apply starts_with_iteration|]);
    intros r; [by apply emits_ret|].
  destruct r.1; [|by apply emits_ret].
  eapply emits_weaken;
    [by apply (emits_interactive_loop any_event any_value)|done].
Qed.

(** ** The [lang] command *)

Lemma startswith_lang s :
  PyStr.startswith s "lang " = true →
  ∃ r, s = String "l" (String "a" (String "n" (String "g" (String " " r)))).
Proof.
  unfold PyStr.startswith.
  destruct s as [|c1 [|c2 [|c3 [|c4 [|c5 r]]]]];
    cbn [String.prefix]; try done;
    repeat (destruct (Ascii.ascii_dec _ _) as [<-|];
            cbn [String.prefix]; try done).
  intros _. by eexists.
Qed.

Lemma lower_truthy s : PyStr.truthy (PyStr.lower s) = PyStr.truthy s.
Proof. by destruct s. Qed.

(** A line that begins with [lang ] is none of the other commands. *)
Lemma lang_command_dispatch user_input :
  PyStr.startswith (PyStr.lower user_input) "lang " = true →
  negb (PyStr.truthy user_input) = false
  ∧ bool_decide (PyStr.lower user_input ∈ ["quit"; "exit"; "q"]) = false
  ∧ bool_decide (PyStr.lower user_input = "help") = false.
Proof.
  intros [r Hr]%startswith_lang. split; [|split].
  - rewrite <- lower_truthy, Hr. done.
  - apply bool_decide_eq_false. rewrite Hr, !elem_of_cons, elem_of_nil.
    intros [E|[E|[E|[]]]]; discriminate E.
  - apply bool_decide_eq_false. rewrite Hr. discriminate.
Qed.

Lemma lang_command_step voice_file output_dir (l : Cli.locals) raw code t :
  let user_input := PyStr.strip raw in
  PyStr.startswith (PyStr.lower user_input) "lang " = true →
  PyStr.split user_input !! 1%nat = Some code →
  Cli.iteration voice_file output_dir l (Cli.Line raw) t
  = if bool_decide (PyStr.lower code ∈ get_supported_languages)
    then (Return (Cli.Continue,
                  {| Cli.counter := Cli.counter l;
                     Cli.current_language := PyStr.lower code |}),
          t ++ [Prompt (Cli.counter l) (Cli.current_language l);
                Print (LanguageChanged (PyStr.lower code))])
    else (Return (Cli.Continue, l),
          t ++ [Prompt (Cli.counter l) (Cli.current_language l);
                Print (UnsupportedLanguage (PyStr.lower code));
                Print (SupportedLanguages get_supported_languages)]).
Proof.
  intros user_input Hlang Hcode.
  destruct (lang_command_dispatch user_input Hlang) as (Ht & Hq & Hh).
  unfold Cli.iteration, Cli.input.
  cbv beta iota zeta delta [try_except bind emit ret lift fst snd].
  fold user_input. rewrite Ht, Hq, Hh, Hlang. unfold PyStr.item.
  rewrite Hcode. cbv beta iota.
  destruct (bool_decide (PyStr.lower code ∈ get_supported_languages));
    cbv beta iota zeta delta [Host.print bind emit ret fst snd];
    cbn [Cli.current_language]; by rewrite <- ?app_assoc.
Qed.

(** C10, as the code has it.  The session starts with the language [en]:
    after the banner the first prompt shows it.  Every prompt shown and
    every synthesis call made during the session carries a language of
    the list of [get_supported_languages], and so does the language the
    session ends with.  A [lang <code>] command compares the lower-cased
    code with the list: when it is in the list it becomes the current
    language, otherwise the language is left as it is and the error
    messages are printed. *)
Theorem interactive_language_stays_supported voice_file keys t :
  (∃ rest, (Cli.interactive_mode voice_file keys t).2
           = t ++ [Print InteractiveBanner; Mkdir (Path "outputs");
                   Prompt 1 "en"] ++ rest)
  ∧ (∃ new, (Cli.interactive_mode voice_file keys t).2 = t ++ new
            ∧ Forall Cli.event_lang_ok new
            ∧ ∀ l, (Cli.interactive_mode voice_file keys t).1 = Return l →
                   Cli.current_language l ∈ get_supported_languages)
  ∧ (∀ output_dir (l : Cli.locals) raw code t0,
       PyStr.startswith (PyStr.lower (PyStr.strip raw)) "lang " = true →
       PyStr.split (PyStr.strip raw) !! 1%nat = Some code →
       (PyStr.lower code ∈ get_supported_languages →
        Cli.iteration voice_file output_dir l (Cli.Line raw) t0
        = (Return (Cli.Continue,
                   {| Cli.counter := Cli.counter l;
                      Cli.current_language := PyStr.lower code |}),
           t0 ++ [Prompt (Cli.counter l) (Cli.current_language l);
                  Print (LanguageChanged (PyStr.lower code))]))
       ∧ (PyStr.lower code ∉ get_supported_languages →
          Cli.iteration voice_file output_dir l (Cli.Line raw) t0
          = (Return (Cli.Continue, l),
             t0 ++ [Prompt (Cli.counter l) (Cli.current_language l);
                    Print (UnsupportedLanguage (PyStr.lower code));
                    Print (SupportedLanguages get_supported_languages)]))).
Proof.
  split; [|split].
  - unfold Cli.interactive_mode.
    cbv beta iota zeta delta [bind Host.print mkdir emit].
    destruct (starts_with_interactive_loop voice_file (Path "outputs") keys
                (Cli.mkLocals 1 "en")
                ((t ++ [Print InteractiveBanner]) ++ [Mkdir (Path "outputs")]))
      as (rest & Hrest).
    exists rest. cbn [Cli.counter Cli.current_language] in Hrest.
    rewrite Hrest, <- !app_assoc. done.
  - apply (emits_interactive_mode Cli.event_lang_ok
             (λ language, language ∈ get_supported_languages)); done.
  - intros output_dir l raw code t0 Hlang Hcode.
    pose proof (lang_command_step voice_file output_dir l raw code t0
                  Hlang Hcode) as Hstep.
    split; intros Hin; rewrite Hstep;
      [by rewrite bool_decide_true | by rewrite bool_decide_false].
Qed.

End proofs.

(** ** The theorems at the demonstration host *)


Lemma text_limit_enforced_by_every_front_end_witness :
  10000 < Z.of_nat (String.length
                      (PyStr.join " " (drop 1 ["quick_clone.py";
                                               Demo.long_text])))
  ∧ (@QuickClone.main Demo.demo_host (Path "/srv/app")
       ["quick_clone.py"; Demo.long_text] []).1 = SysExit 1
  ∧ tts_calls (@QuickClone.main Demo.demo_host (Path "/srv/app")
                 ["quick_clone.py"; Demo.long_text] []).2 = [].
Proof.
  assert (Hlong : 10000 < Z.of_nat (String.length
                    (PyStr.join " " (drop 1 ["quick_clone.py";
                                             Demo.long_text])))).
  { vm_compute. reflexivity. }
  split; [exact Hlong|].
  destruct (@text_limit_enforced_by_every_front_end Demo.demo_host)
    as (_ & _ & _ & Hquick & _).
  destruct (Hquick (Path "/srv/app") ["quick_clone.py"; Demo.long_text] [])
    as [Hexit _].
  destruct (Hexit Hlong) as (Hcode & Hcalls & _). by split.
Defined.

Lemma interactive_language_stays_supported_witness :
  PyStr.startswith (PyStr.lower (PyStr.strip "  Lang FR ")) "lang " = true
  ∧ PyStr.split (PyStr.strip "  Lang FR ") !! 1%nat = Some "FR"
  ∧ PyStr.lower "FR" ∈ get_supported_languages
  ∧ @Cli.iteration Demo.demo_host
      (Path "voices/my_voice/combined.wav") (Path "outputs")
      (Cli.mkLocals 1 "en") (Cli.Line "  Lang FR ") []
    = (Return (Cli.Continue, Cli.mkLocals 1 "fr"),
       [Prompt 1 "en"; Print (LanguageChanged "fr")]).
Proof.
  assert (Hin : PyStr.lower "FR" ∈ get_supported_languages).
  { apply (bool_decide_eq_true_1 _). vm_compute. reflexivity. }
  split; [reflexivity|]. split; [reflexivity|]. split; [exact Hin|].
  destruct (@interactive_language_stays_supported Demo.demo_host
              (Path "voices/my_voice/combined.wav") [] [])
    as (_ & _ & Hlang).
  destruct (Hlang (Path "outputs") (Cli.mkLocals 1 "en") "  Lang FR " "FR" []
              eq_refl eq_refl) as [Hset _].
  exact (Hset Hin).
Defined.

(** C10 as stated fails: [ES] is not in the list, yet [lang ES] changes
    the language, to [es]. *)
Lemma lang_command_accepts_upper_case :
  ("ES" ∉ get_supported_languages)
  ∧ @Cli.iteration Demo.demo_host
      (Path "voices/my_voice/combined.wav") (Path "outputs")
      (Cli.mkLocals 1 "en") (Cli.Line "lang ES") []
    = (Return (Cli.Continue, Cli.mkLocals 1 "es"),
       [Prompt 1 "en"; Print (LanguageChanged "es")])
  ∧ ¬ (∀ (host : Oracles) voice_file output_dir (l : Cli.locals) code t r,
         code ∉ get_supported_languages →
         (@Cli.iteration host voice_file output_dir l
            (Cli.Line ("lang " +:+ code)) t).1 = Return r →
         Cli.current_language r.2 = Cli.current_language l).
Proof.
  assert (Hout : "ES" ∉ get_supported_languages).
  { apply (bool_decide_eq_false_1 _). vm_compute. reflexivity. }
  split; [exact Hout|]. split; [vm_compute; reflexivity|].
  intros Hclaim.
  specialize (Hclaim Demo.demo_host (Path "voices/my_voice/combined.wav")
                (Path "outputs") (Cli.mkLocals 1 "en") "ES" []
                (Cli.Continue, Cli.mkLocals 1 "es") Hout).
  assert (Hrun : (@Cli.iteration Demo.demo_host
                    (Path "voices/my_voice/combined.wav") (Path "outputs")
                    (Cli.mkLocals 1 "en") (Cli.Line ("lang " +:+ "ES")) []).1
                 = Return (Cli.Continue, Cli.mkLocals 1 "es")).
  { vm_compute. reflexivity. }
  specialize (Hclaim Hrun). discriminate Hclaim.
Qed.

End FrontEndProofs.

(* ===================================================================== *)
(** * Facts about strings and paths *)
(* ===================================================================== *)

Module StringFacts.
Import PyStr Pathlib.

Lemma sapp_cons (c : ascii) (s t : string) :
  String c s +:+ t = String c (s +:+ t).
Proof. reflexivity. Qed.

Lemma sapp_nil_l (s : string) : "" +:+ s = s.
Proof. reflexivity. Qed.

Ltac string_simpl :=
  rewrite ?sapp_cons, ?sapp_nil_l; simpl; rewrite ?sapp_cons, ?sapp_nil_l.

Lemma sapp_nil_r (s : string) : s +:+ "" = s.
Proof. induction s as [|c s IH]; string_simpl; [done | by f_equal]. Qed.

Lemma sapp_assoc (a b c : string) : (a +:+ b) +:+ c = a +:+ b +:+ c.
Proof. induction a as [|x a IH]; string_simpl; [done | by f_equal]. Qed.

Lemma slength_app (a b : string) :
  String.length (a +:+ b) = (String.length a + String.length b)%nat.
Proof. induction a as [|x a IH]; string_simpl; [done | by f_equal]. Qed.

Lemma soa_app (l k : list ascii) :
  String.string_of_list_ascii (l ++ k)
  = String.string_of_list_ascii l +:+ String.string_of_list_ascii k.
Proof. induction l as [|x l IH]; string_simpl; [done | by f_equal]. Qed.

Lemma prefix_app (p s : string) : String.prefix p (p +:+ s) = true.
Proof.
  induction p as [|c p IH]; string_simpl; [by destruct s |].
  destruct (Ascii.ascii_dec c c); [done | congruence].
Qed.

Lemma prefix_app_r (p a b : string) :
  String.prefix p a = true → String.prefix p (a +:+ b) = true.
Proof.
  revert a. induction p as [|c p IH]; intros a; [by destruct (a +:+ b) |].
  destruct a as [|x a]; string_simpl; [done |].
  destruct (Ascii.ascii_dec c x); [apply IH | done].
Qed.

Lemma prefix_inv (p s : string) :
  String.prefix p s = true → ∃ r, s = p +:+ r.
Proof.
  revert s. induction p as [|c p IH]; intros s; [by exists s |].
  destruct s as [|x s]; simpl; [done |].
  destruct (Ascii.ascii_dec c x) as [->|]; [|done].
  intros [r ->]%IH. by exists r.
Qed.

(** ** Substrings *)

Lemma substring_all (s : string) : String.substring 0 (String.length s) s = s.
Proof. induction s as [|c s IH]; simpl; [done | by f_equal]. Qed.

Lemma substring_app_l (a b : string) :
  String.substring 0 (String.length a) (a +:+ b) = a.
Proof.
  induction a as [|c a IH]; string_simpl; [by destruct b | by rewrite IH].
Qed.

Lemma substring_app_r (a b : string) (m : nat) :
  String.substring (String.length a) m (a +:+ b) = String.substring 0 m b.
Proof. induction a as [|c a IH]; string_simpl; done. Qed.

Lemma substring_split (s : string) (i : nat) :
  (i ≤ String.length s)%nat →
  s = String.substring 0 i s
      +:+ String.substring i (String.length s - i) s.
Proof.
  revert i. induction s as [|c s IH]; intros [|i] Hi; simpl in *.
  - done.
  - lia.
  - by rewrite sapp_nil_l, substring_all.
  - rewrite sapp_cons. f_equal. apply IH. lia.
Qed.

Lemma length_substring (s : string) (i m : nat) :
  (i + m ≤ String.length s)%nat →
  String.length (String.substring i m s) = m.
Proof.
  revert i m. induction s as [|c s IH]; intros [|i] [|m] Hi; simpl in *;
    try done; try lia.
  - f_equal. apply (IH 0%nat). lia.
  - apply IH. lia.
  - apply IH. lia.
Qed.

(** [endswith] finds a suffix, and a suffix is found. *)
Lemma endswith_inv (s suf : string) :
  endswith s suf = true →
  ∃ a, s = a +:+ suf
       ∧ a = String.substring 0 (String.length s - String.length suf) s.
Proof.
  unfold endswith. intros [Hle Heq]%andb_prop.
  apply Nat.leb_le in Hle. apply bool_decide_eq_true_1 in Heq.
  eexists. split; [|done].
  etrans;
    [apply (substring_split s (String.length s - String.length suf)); lia|].
  f_equal.
  replace (String.length s - (String.length s - String.length suf))%nat
    with (String.length suf) by lia.
  exact Heq.
Qed.

Lemma endswith_app (a suf : string) : endswith (a +:+ suf) suf = true.
Proof.
  unfold endswith. rewrite slength_app. apply andb_true_intro. split.
  - apply Nat.leb_le. lia.
  - apply bool_decide_eq_true_2.
    replace (String.length a + String.length suf - String.length suf)%nat
      with (String.length a) by lia.
    by rewrite substring_app_r, substring_all.
Qed.

(** ** The last occurrence of a character *)

Lemma rfind_app_sep (c : ascii) (a b : string) :
  rfind c b = None → rfind c (a +:+ String c b) = Some (String.length a).
Proof.
  intros Hb. induction a as [|x a IH]; string_simpl.
  - rewrite Hb. by rewrite bool_decide_eq_true_2.
  - by rewrite IH.
Qed.

Lemma rfind_Some (c : ascii) (s : string) (i : nat) :
  rfind c s = Some i →
  ∃ a b, s = a +:+ String c b ∧ String.length a = i ∧ rfind c b = None.
Proof.
  revert i. induction s as [|x s IH]; intros i; simpl; [done |].
  destruct (rfind c s) as [j|] eqn:Hj.
  - intros [= <-]. destruct (IH j eq_refl) as (a & b & -> & <- & Hb).
    by exists (String x a), b.
  - case_bool_decide as Hx; [|done]. intros [= <-]. subst x.
    by exists "", s.
Qed.

End StringFacts.

Module PathFacts.
Import PyStr Pathlib Normal StringFacts.

Lemma free_of_nil c : free_of c "".
Proof. unfold free_of. simpl. apply not_elem_of_nil. Qed.

Lemma free_of_cons c x s : free_of c (String x s) ↔ c ≠ x ∧ free_of c s.
Proof. unfold free_of. simpl. apply not_elem_of_cons. Qed.

Lemma free_of_app c a b : free_of c (a +:+ b) ↔ free_of c a ∧ free_of c b.
Proof.
  induction a as [|x a IH]; string_simpl.
  - split; [intros ?; split; [apply free_of_nil | done] | by intros [_ ?]].
  - rewrite !free_of_cons, IH. tauto.
Qed.

Lemma free_of_soa c l : free_of c (String.string_of_list_ascii l) ↔ (c ∉ l).
Proof. unfold free_of. by rewrite String.list_ascii_of_string_of_list_ascii. Qed.

Lemma rfind_None c s : rfind c s = None ↔ free_of c s.
Proof.
  induction s as [|x s IH]; simpl.
  - split; [intros _; apply free_of_nil | done].
  - rewrite free_of_cons, <- IH. destruct (rfind c s).
    + split; [done | by intros [_ ?]].
    + case_bool_decide as Hx; (split; [try done | try done]).
      intros [? _]. congruence.
Qed.

Lemma free_of_substring c s i m :
  free_of c s → free_of c (String.substring i m s).
Proof.
  revert i m. induction s as [|x s IH]; intros [|i] [|m]; simpl;
    try (intros; apply free_of_nil).
  - rewrite !free_of_cons. intros [? ?]. split; [done | by apply IH].
  - rewrite free_of_cons. intros [? ?]. by apply IH.
  - rewrite free_of_cons. intros [? ?]. by apply IH.
Qed.

(** ** Splitting and joining *)

Lemma split_on_from_free sep acc s :
  free_of sep s →
  split_on_from sep acc s = [String.string_of_list_ascii (rev acc) +:+ s].
Proof.
  revert acc. induction s as [|x s IH]; intros acc; simpl.
  - intros _. by rewrite sapp_nil_r.
  - rewrite free_of_cons. intros [Hx Hs].
    rewrite bool_decide_eq_false_2 by done.
    rewrite IH by done. simpl. by rewrite soa_app, sapp_assoc.
Qed.

Lemma split_on_from_app sep acc a b :
  free_of sep a →
  split_on_from sep acc (a +:+ String sep b)
  = (String.string_of_list_ascii (rev acc) +:+ a) :: split_on_from sep [] b.
Proof.
  revert acc. induction a as [|x a IH]; intros acc; string_simpl.
  - intros _. rewrite bool_decide_eq_true_2 by done. by rewrite sapp_nil_r.
  - rewrite free_of_cons. intros [Hx Hs].
    rewrite bool_decide_eq_false_2 by done.
    rewrite IH by done. simpl. by rewrite soa_app, sapp_assoc.
Qed.

Lemma split_on_join sep ps :
  ps ≠ [] → Forall (free_of sep) ps →
  split_on sep (join (String sep "") ps) = ps.
Proof.
  unfold split_on. induction ps as [|x ps IH]; [done |]. intros _ Hall.
  apply Forall_cons in Hall as [Hx Hps].
  destruct ps as [|y ps]; simpl.
  - by rewrite split_on_from_free.
  - string_simpl. rewrite split_on_from_app by done. simpl. f_equal.
    by apply IH.
Qed.

Lemma split_on_from_free_of sep acc s :
  (sep ∉ acc) → Forall (free_of sep) (split_on_from sep acc s).
Proof.
  revert acc. induction s as [|x s IH]; intros acc Hacc; simpl.
  - apply Forall_singleton, free_of_soa. by rewrite list_elem_of_In, <- in_rev, <- list_elem_of_In.
  - case_bool_decide as Hx.
    + apply Forall_cons. split.
      * apply free_of_soa. by rewrite list_elem_of_In, <- in_rev, <- list_elem_of_In.
      * apply IH, not_elem_of_nil.
    + apply IH. rewrite not_elem_of_cons. split; [congruence | done].
Qed.

Lemma join_last sep x ps :
  ∃ a, join sep (x :: ps) = a +:+ List.last (x :: ps) "".
Proof.
  revert x. induction ps as [|y ps IH]; intros x.
  - by exists "".
  - destruct (IH y) as [a Ha]. exists (x +:+ sep +:+ a).
    change (join sep (x :: y :: ps)) with (x +:+ sep +:+ join sep (y :: ps)).
    rewrite Ha. change (List.last (x :: y :: ps) "")
      with (List.last (y :: ps) "").
    by rewrite !sapp_assoc.
Qed.

(** ** Paths *)

Lemma well_formed_Path s : well_formed (Path s).
Proof.
  unfold well_formed, Path. simpl. apply Forall_forall.
  intros c [Hk Hc]%list_elem_of_filter. split; [done |]. clear Hk.
  revert c Hc. apply Forall_forall, split_on_from_free_of, not_elem_of_nil.
Qed.

Lemma filter_keep_part ps :
  Forall (λ c, Is_true (keep_part c) ∧ free_of "/" c) ps →
  filter (λ c, Is_true (keep_part c)) ps = ps.
Proof.
  induction 1 as [|c ps [Hc _] _ IH]; [done |].
  rewrite filter_cons_True by done. by f_equal.
Qed.

Lemma Path_str p : well_formed p → Path (str p) = p.
Proof.
  destruct p as [r ps]. unfold well_formed, Path, str. cbn [root parts].
  intros Hwf.
  destruct ps as [|x ps].
  { by destruct r. }
  assert (Hsplit : split_on "/" (join "/" (x :: ps)) = x :: ps).
  { apply split_on_join; [done |]. eapply Forall_impl; [exact Hwf |].
    by intros c [_ ?]. }
  destruct r.
  - rewrite sapp_cons, sapp_nil_l.
    remember (join "/" (x :: ps)) as J eqn:HJ.
    unfold startswith. unfold split_on in *. simpl.
    rewrite Hsplit, filter_cons_False by (simpl; tauto).
    rewrite filter_keep_part by done. f_equal. by destruct J.
  - rewrite sapp_nil_l, Hsplit, filter_keep_part by done. f_equal.
    apply Forall_cons in Hwf as [[Hk Hx] _].
    destruct (join_last "/" x ps) as [a Ha].
    unfold startswith.
    destruct x as [|c x]; [done |].
    apply free_of_cons in Hx as [Hc _].
    destruct ps as [|y ps]; cbn [join]; rewrite ?sapp_cons;
      cbn [String.prefix]; by destruct (Ascii.ascii_dec "/" c).
Qed.


Lemma str_inj p q : well_formed p → well_formed q → str p = str q → p = q.
Proof. intros Hp Hq Heq. by rewrite <- (Path_str p), <- (Path_str q), Heq. Qed.

(** ** Names and suffixes *)

Lemma name_elem_of p : name p ≠ "" → name p ∈ parts p.
Proof.
  unfold name. destruct (parts p) as [|x ps]; [done |]. intros _.
  revert x. induction ps as [|y ps IH]; intros x.
  - apply elem_of_cons. by left.
  - apply elem_of_cons. right. apply (IH y).
Qed.

Lemma name_snoc r ps x : name {| root := r; parts := ps ++ [x] |} = x.
Proof. unfold name. simpl. apply last_last. Qed.

Lemma parent_snoc r ps x :
  parent {| root := r; parts := ps ++ [x] |} = {| root := r; parts := ps |}.
Proof. unfold parent. simpl. by rewrite removelast_last. Qed.

Lemma parts_name p :
  parts p ≠ [] → parts p = removelast (parts p) ++ [name p].
Proof. intros Hp. by apply app_removelast_last. Qed.

(** The suffix of a name is empty, or it is what follows the stem: a dot
    and a non-empty rest without a dot. *)
Lemma name_suffix_cases n :
  name_suffix n = ""
  ∨ ∃ a b, n = a +:+ String "." b ∧ name_suffix n = String "." b
           ∧ free_of "." b ∧ a ≠ "" ∧ b ≠ "".
Proof.
  unfold name_suffix. destruct (rfind "." n) as [i|] eqn:Hi; [|by left].
  destruct (rfind_Some _ _ _ Hi) as (a & b & -> & <- & Hb).
  rewrite slength_app. cbn [String.length].
  destruct (0 <? String.length a)%nat eqn:Ha; [|by left].
  destruct (String.length a <? String.length a + S (String.length b) - 1)%nat
    eqn:Hlt; [|by left].
  right. exists a, b. apply Nat.ltb_lt in Ha, Hlt. split; [done |]. split.
  { unfold andb.
    replace (String.length a + S (String.length b) - String.length a)%nat
      with (String.length (String "." b)) by (simpl; lia).
    by rewrite substring_app_r, substring_all. }
  split; [by apply rfind_None |]. split.
  - intros ->. simpl in Ha. lia.
  - intros ->. simpl in Hlt. lia.
Qed.

(** The path [with_suffix] builds: the stem of the name, followed by the
    new suffix, in the same directory. *)
Lemma with_suffix_run p suf :
  name p ≠ "" →
  ∃ stem,
    with_suffix p suf
    = Return {| root := root p;
                parts := removelast (parts p) ++ [stem +:+ suf] |}
    ∧ (name p = stem
       ∨ ∃ b, name p = stem +:+ String "." b ∧ free_of "." b ∧ stem ≠ "").
Proof.
  intros Hn. unfold with_suffix. rewrite bool_decide_eq_false_2 by done.
  destruct (name_suffix_cases (name p)) as [->|(a & b & Hab & -> & Hb & Ha & _)].
  - exists (name p). cbn [String.length]. rewrite Nat.sub_0_r, substring_all.
    split; [done | by left].
  - exists a. rewrite Hab at 1 2. rewrite slength_app.
    replace (String.length a + String.length (String "." b)
             - String.length (String "." b))%nat
      with (String.length a) by lia.
    rewrite substring_app_l. split; [done |]. right. by exists b.
Qed.

Lemma keep_part_long c : (2 ≤ String.length c)%nat → Is_true (keep_part c).
Proof.
  intros Hc. unfold keep_part.
  rewrite !bool_decide_eq_false_2; [done | |]; intros ->; simpl in Hc; lia.
Qed.

Lemma well_formed_with_suffix p suf q :
  well_formed p → free_of "/" suf → (2 ≤ String.length suf)%nat →
  with_suffix p suf = Return q → well_formed q.
Proof.
  intros Hwf Hsuf Hlen Hq.
  assert (Hn : name p ≠ "").
  { unfold with_suffix in Hq. by case_bool_decide. }
  destruct (with_suffix_run p suf Hn) as (stem & Hrun & Hstem).
  rewrite Hrun in Hq. injection Hq as <-.
  pose proof (name_elem_of p Hn) as Hin.
  assert (Hp : parts p ≠ []) by (intros E; rewrite E in Hin; inversion Hin).
  unfold well_formed in *. cbn [parts].
  rewrite (parts_name p Hp) in Hwf. apply Forall_app in Hwf as [Hfront Hlast].
  apply Forall_app. split; [done |].
  apply Forall_singleton. apply Forall_singleton in Hlast as [_ Hfree].
  split.
  - apply keep_part_long. rewrite slength_app. lia.
  - apply free_of_app. split; [|done].
    destruct Hstem as [<-|(b & Hb & _)]; [done |].
    rewrite Hb in Hfree. by apply free_of_app in Hfree as [? _].
Qed.

End PathFacts.

(* ===================================================================== *)
(** * Further properties of the audio preparation *)
(* ===================================================================== *)

Module PrepareAudioFacts.
Import PyStr Pathlib Pydub PrepareAudio Normal StringFacts PathFacts.
Import PrepareAudioProofs.

(** ** Substring tests *)

Lemma contains_prefix sub s :
  String.prefix sub s = true → PrepareAudioMain.contains sub s = true.
Proof.
  intros Hp. destruct s; cbn [PrepareAudioMain.contains]; by rewrite Hp.
Qed.

Lemma contains_app_r sub a b :
  PrepareAudioMain.contains sub b = true →
  PrepareAudioMain.contains sub (a +:+ b) = true.
Proof.
  intros Hb. induction a as [|x a IH]; [done |].
  rewrite sapp_cons. cbn [PrepareAudioMain.contains]. rewrite IH.
  apply orb_true_r.
Qed.

Lemma prefix_app_inv p a b :
  String.prefix p (a +:+ b) = true → (String.length p ≤ String.length a)%nat →
  String.prefix p a = true.
Proof.
  revert a. induction p as [|c p IH]; intros a; [by destruct a |].
  destruct a as [|x a]; [simpl; lia |].
  rewrite sapp_cons. cbn [String.prefix String.length].
  destruct (Ascii.ascii_dec c x); [|done]. intros Hp Hl. apply IH; [done | lia].
Qed.

(** ** Names with a suffix *)

Lemma name_suffix_app a b :
  a ≠ "" → b ≠ "" → free_of "." b →
  name_suffix (a +:+ String "." b) = String "." b.
Proof.
  intros Ha Hb Hfree. unfold name_suffix.
  rewrite rfind_app_sep by by apply rfind_None.
  rewrite slength_app. cbn [String.length].
  assert (0 < String.length a)%nat by (destruct a; [done | simpl; lia]).
  assert (0 < String.length b)%nat by (destruct b; [done | simpl; lia]).
  rewrite (proj2 (Nat.ltb_lt _ _)) by lia.
  rewrite (proj2 (Nat.ltb_lt _ _)) by lia. unfold andb.
  replace (String.length a + S (String.length b) - String.length a)%nat
    with (String.length (String "." b)) by (simpl; lia).
  by rewrite substring_app_r, substring_all.
Qed.

Lemma with_suffix_app p a b suf :
  name p = a +:+ String "." b → a ≠ "" → b ≠ "" → free_of "." b →
  with_suffix p suf
  = Return {| root := root p;
              parts := removelast (parts p) ++ [a +:+ suf] |}.
Proof.
  intros Hn Ha Hb Hfree. unfold with_suffix.
  rewrite bool_decide_eq_false_2 by (rewrite Hn; by destruct a).
  rewrite Hn, name_suffix_app, slength_app by done.
  replace (String.length a + String.length (String "." b)
           - String.length (String "." b))%nat
    with (String.length a) by lia.
  by rewrite substring_app_l.
Qed.

Lemma str_parts p :
  parts p ≠ [] →
  str p = (if root p then "/" else "") +:+ join "/" (parts p).
Proof. destruct p as [r [|x ps]]; [done |]. by destruct r. Qed.

Lemma key_str p : well_formed p → key (str p) = str p.
Proof. intros Hp. unfold key. by rewrite Path_str. Qed.

Lemma snoc_not_nil {A} (l : list A) x : l ++ [x] ≠ [].
Proof. by destruct l. Qed.

Lemma join_snoc sep ps x : ∃ a, join sep (ps ++ [x]) = a +:+ x.
Proof.
  induction ps as [|y ps [a IH]]; [by exists "" |].
  exists (y +:+ sep +:+ a). rewrite <- app_comm_cons.
  destruct (ps ++ [x]) as [|z l] eqn:Hl; [by destruct (snoc_not_nil ps x) |].
  cbn [join]. cbn [join] in IH. rewrite IH. by rewrite !sapp_assoc.
Qed.

Ltac free_of_solve :=
  unfold free_of; rewrite list_elem_of_In; simpl; intuition discriminate.

(** The default output lies next to the input and is not the input. *)
Lemma processed_path input q :
  with_suffix (Path input) ".processed.wav" = Return q →
  well_formed q ∧ parent q = parent (Path input)
  ∧ q ≠ Path input
  ∧ PrepareAudioMain.contains ".processed" (str q) = true.
Proof.
  intros Hq. pose proof Hq as Hwf.
  apply well_formed_with_suffix in Hwf;
    [| apply well_formed_Path | free_of_solve | simpl; lia].
  split; [done |].
  assert (Hn : name (Path input) ≠ "").
  { unfold with_suffix in Hq. by case_bool_decide. }
  destruct (with_suffix_run (Path input) ".processed.wav" Hn)
    as (stem & Hrun & Hstem).
  rewrite Hrun in Hq. injection Hq as <-. split; [apply parent_snoc |]. split.
  - intros Heq. apply (f_equal name) in Heq. rewrite name_snoc in Heq.
    destruct Hstem as [Hs|(b & Hs & Hb & _)]; rewrite Hs in Heq.
    + apply (f_equal String.length) in Heq. rewrite slength_app in Heq.
      simpl in Heq. lia.
    + apply String.app_inj in Heq. injection Heq as <-.
      revert Hb. free_of_solve.
  - rewrite str_parts by apply snoc_not_nil. cbn [root parts].
    apply contains_app_r.
    match goal with
    | |- context [join "/" (?l ++ [?x])] =>
        destruct (join_snoc "/" l x) as [a ->]
    end.
    apply contains_app_r, contains_app_r. reflexivity.
Qed.

Section proofs.
Context `{Kernels}.

(** ** Inputs that do not load *)

Lemma load_result_None (w : world) input :
  load_result w input = None ↔ ∃ e, load_failure w input = Some e.
Proof.
  unfold load_result, load_failure, from_wav.
  destruct (from_file input w) as [[a|e|code] w0] eqn:Hl.
  - split; [done | by intros [? ?]].
  - split; [by eauto | done].
  - by destruct (from_file_no_exit _ _ _ _ Hl).
Qed.

Lemma prepare_audio_unloadable input output (w : world) e :
  load_failure w input = Some e →
  prepare_audio input output w
  = (Return None,
     {| files := files w;
        stdout := stdout w ++ [Processing (name (Path input));
                               ErrorLoadingAudio e] |}).
Proof.
  intros Hl%load_failure_Some. unfold from_wav in Hl.
  unfold prepare_audio.
  unfold bind at 1. unfold print at 1. unfold bind at 1, try_except at 1.
  unfold bind at 1. rewrite from_file_stdout, Hl. cbn [fst].
  rewrite (from_file_is_Exception _ _ _ _ Hl).
  unfold bind, print, ret. simpl. by rewrite <- app_assoc.
Qed.



(** ** Processed copies among the samples *)

Lemma sample_of_processed dir sample q :
  sample_of dir sample →
  with_suffix (Path sample) ".processed.wav" = Return q →
  sample_of dir (str q).
Proof.
  intros (Hdir & Hparts & Hmatch) Hq.
  destruct (processed_path sample q Hq) as (Hwf & Hparent & _ & _).
  apply andb_prop_elim in Hmatch as [Hmatch Hlen].
  apply andb_prop_elim in Hmatch as [Hpre Hsuf].
  apply Is_true_true in Hpre, Hsuf, Hlen. apply Nat.leb_le in Hlen.
  destruct (endswith_inv _ _ Hsuf) as (a & Ha & _).
  assert (Hla : (7 ≤ String.length a)%nat).
  { apply (f_equal String.length) in Ha. rewrite slength_app in Ha.
    simpl in *. lia. }
  assert (Hrun := with_suffix_app (Path sample) a "wav" ".processed.wav" Ha).
  rewrite Hrun in Hq;
    [| intros ->; simpl in Hla; lia | done | free_of_solve].
  injection Hq as <-.
  unfold sample_of. rewrite Path_str by done. rewrite parent_snoc, name_snoc.
  split; [by rewrite <- Hdir |]. split; [apply snoc_not_nil |].
  unfold fnmatch_star. apply Is_true_true. rewrite !andb_true_iff.
  split; [split |].
  - unfold startswith in *. apply prefix_app_r.
    rewrite Ha in Hpre. by apply prefix_app_inv in Hpre.
  - change ".processed.wav" with (".processed" +:+ ".wav").
    rewrite <- sapp_assoc. apply endswith_app.
  - apply Nat.leb_le. rewrite slength_app. simpl. lia.
Qed.

(** X3. The copy that [prepare_audio] writes for a sample of a voice
    directory matches [sample_*.wav] in that directory as well: it is
    one of the samples that [combine_samples] will find there, next to the
    sample it was made from. *)
Theorem processed_copy_is_a_sample dir sample (w : world) a :
  sample_of dir sample →
  from_file sample w = (Return a, w) →
  ∃ out w',
    prepare_audio sample None w = (Return (Some out), w')
    ∧ PrepareAudioMain.contains ".processed" out = true
    ∧ out ∈ sample_paths w' dir
    ∧ key sample ≠ out
    ∧ (sample ∈ sample_paths w dir → sample ∈ sample_paths w' dir).
Proof.
  intros Hs Hload.
  destruct (prepare_audio_run sample None w a Hload)
    as (out & (q & Hq & ->) & Hrun).
  destruct (processed_path sample q Hq) as (Hwf & _ & Hne & Hc).
  eexists (str q), _. split; [exact Hrun |]. split; [done |].
  rewrite key_str by done. split; [|split].
  - apply sample_paths_elem_of. cbn [files]. rewrite lookup_insert_eq.
    split; [by eexists | by eapply sample_of_processed].
  - unfold key. intros Heq. apply Hne.
    by apply str_inj; [| apply well_formed_Path |].
  - rewrite !sample_paths_elem_of. cbn [files]. intros [[f Hf] Hsample].
    split; [|done].
    destruct (decide (str q = sample)) as [->|Hd].
    + rewrite lookup_insert_eq. by eexists.
    + rewrite lookup_insert_ne by done. by eexists.
Qed.

(** ** Samples that all fail to load *)


End proofs.

#[local] Existing Instance Demo.amplitude_kernels.



Lemma processed_copy_is_a_sample_witness :
  sample_of (Path "voices/my_voice") "voices/my_voice/sample_1.wav"
  ∧ from_file "voices/my_voice/sample_1.wav" Demo.demo_world
    = (Return Demo.take_a, Demo.demo_world)
  ∧ ∃ out w',
      prepare_audio "voices/my_voice/sample_1.wav" None Demo.demo_world
      = (Return (Some out), w')
      ∧ PrepareAudioMain.contains ".processed" out = true
      ∧ out ∈ sample_paths w' (Path "voices/my_voice")
      ∧ key "voices/my_voice/sample_1.wav" ≠ out
      ∧ ("voices/my_voice/sample_1.wav"
           ∈ sample_paths Demo.demo_world (Path "voices/my_voice") →
         "voices/my_voice/sample_1.wav"
           ∈ sample_paths w' (Path "voices/my_voice")).
Proof.
  split; [vm_compute; done |]. split; [vm_compute; reflexivity |].
  apply (processed_copy_is_a_sample (Path "voices/my_voice")
           "voices/my_voice/sample_1.wav" Demo.demo_world Demo.take_a).
  - vm_compute; done.
  - vm_compute; reflexivity.
Defined.


End PrepareAudioFacts.

(* ===================================================================== *)
(** * Properties of the command line of the audio preparation *)
(* ===================================================================== *)

Module PrepareAudioMainFacts.
Import PyStr Pathlib Pydub PrepareAudio PrepareAudioMain.
Import Normal Footprint StringFacts PathFacts.
Import PrepareAudioProofs PrepareAudioFacts.

Section proofs.
Context `{Kernels}.





(** [prepare_audio] always returns. *)
Lemma prepare_audio_returns input output (w : world) :
  ∃ r w', prepare_audio input output w = (Return r, w')
    ∧ (files w' = files w
       ∨ ∃ out a, saved_as input output out
                  ∧ files w' = <[key out := Wav a]> (files w)).
Proof.
  destruct (load_result w input) as [a|] eqn:Hl.
  - apply load_result_Some in Hl.
    destruct (prepare_audio_run input output w a Hl) as (out & Hs & Hrun).
    eexists _, _. split; [exact Hrun |]. right. by exists out, (pipeline a).
  - apply load_result_None in Hl as [e He].
    eexists _, _. split; [by apply prepare_audio_unloadable |]. by left.
Qed.




Lemma well_formed_truediv p q :
  well_formed p → well_formed q → well_formed (truediv p q).
Proof.
  intros Hp Hq. unfold truediv. destruct (root q); [done |].
  unfold well_formed. cbn [parts]. by apply Forall_app.
Qed.


(** X5. Without the voice directory the script stops at once: it prints
    the notice and neither processes the file named by [--input] nor
    writes any other file. *)
Theorem main_missing_voice_dir (a : args) (s : state) :
  str (Path (voice_dir a)) ∉ dirs s →
  disk s !! str (Path (voice_dir a)) = None →
  main a s
  = (Return tt,
     {| disk := disk s; dirs := dirs s;
        console :=
          console s ++ [Notice (VoiceDirNotFound
                                  (str (Path (voice_dir a))))] |}).
Proof.
  intros Hdir Hfile. unfold main, bind at 1, exists_.
  rewrite bool_decide_eq_false_2 by done.
  rewrite bool_decide_eq_false_2 by (rewrite Hfile; by intros [? ?]).
  reflexivity.
Qed.

(** X6. With [--input] the script is one call of [prepare_audio] on that
    file with the [--output] given: whatever [--process-all] says, the
    samples of the voice directory are not processed and no combined
    file is made. *)
Theorem main_single_file (a : args) (s : state) input_path :
  str (Path (voice_dir a)) ∈ dirs s →
  input a = Some input_path → input_path ≠ "" →
  ∃ r w',
    prepare_audio input_path (output a) {| files := disk s; stdout := [] |}
    = (Return r, w')
    ∧ main a s
      = (Return tt,
         {| disk := files w'; dirs := dirs s;
            console := console s ++ Notice ProcessingSingleFile
                                    :: (Output <$> stdout w') |}).
Proof.
  intros Hdir Hin Hne.
  destruct (prepare_audio_returns input_path (output a)
              {| files := disk s; stdout := [] |}) as (r & w' & Hrun & _).
  exists r, w'. split; [done |].
  unfold main, bind at 1, exists_.
  rewrite bool_decide_eq_true_2 by done. cbn [orb negb]. rewrite Hin.
  destruct input_path as [|c i]; [done |].
  unfold bind, say, call, ret. cbn [disk dirs console]. rewrite Hrun.
  cbn [fst snd]. by rewrite <- app_assoc.
Qed.


End proofs.

#[local] Existing Instance Demo.amplitude_kernels.

Lemma main_missing_voice_dir_witness :
  let a := mkArgs (Some "voices/my_voice/sample_1.wav") None
                  "voices/other" false in
  (str (Path (voice_dir a)) ∉ dirs Scenarios.studio)
  ∧ disk Scenarios.studio !! str (Path (voice_dir a)) = None
  ∧ main a Scenarios.studio
    = (Return tt,
       {| disk := disk Scenarios.studio; dirs := dirs Scenarios.studio;
          console :=
            console Scenarios.studio
            ++ [Notice (VoiceDirNotFound (str (Path (voice_dir a))))] |}).
Proof.
  intros a.
  assert (Hd : str (Path (voice_dir a)) ∉ dirs Scenarios.studio)
    by (apply (bool_decide_unpack _); vm_compute; exact I).
  assert (Hf : disk Scenarios.studio !! str (Path (voice_dir a)) = None)
    by (vm_compute; reflexivity).
  split; [exact Hd |]. split; [exact Hf |].
  exact (main_missing_voice_dir a Scenarios.studio Hd Hf).
Defined.

Lemma main_single_file_witness :
  let a := mkArgs (Some "voices/my_voice/sample_1.wav") None
                  "voices/my_voice" true in
  str (Path (voice_dir a)) ∈ dirs Scenarios.studio
  ∧ input a = Some "voices/my_voice/sample_1.wav"
  ∧ "voices/my_voice/sample_1.wav" ≠ ""
  ∧ ∃ r w',
      prepare_audio "voices/my_voice/sample_1.wav" (output a)
        {| files := disk Scenarios.studio; stdout := [] |}
      = (Return r, w')
      ∧ main a Scenarios.studio
        = (Return tt,
           {| disk := files w'; dirs := dirs Scenarios.studio;
              console := console Scenarios.studio
                         ++ Notice ProcessingSingleFile
                            :: (Output <$> stdout w') |}).
Proof.
  intros a.
  assert (Hd : str (Path (voice_dir a)) ∈ dirs Scenarios.studio)
    by (apply (bool_decide_unpack _); vm_compute; exact I).
  split; [exact Hd |]. split; [reflexivity |]. split; [discriminate |].
  apply (main_single_file a Scenarios.studio
           "voices/my_voice/sample_1.wav" Hd);
    [reflexivity | discriminate].
Defined.


End PrepareAudioMainFacts.

(* ===================================================================== *)
(** * Combining twice *)
(* ===================================================================== *)

Module CombineAgain.
Import PyStr Pathlib Pydub PrepareAudio.
Import Normal StringFacts PathFacts PrepareAudioProofs PrepareAudioFacts.
Import PrepareAudioMainFacts.

Section proofs.
Context `{Kernels}.





End proofs.

#[local] Existing Instance Demo.amplitude_kernels.


End CombineAgain.

(* ===================================================================== *)
(** * Properties of the interactive session *)
(* ===================================================================== *)

Module SessionFacts.
Import Pathlib Host VoiceCloner HostProofs FrontEndProofs Session.

(** ** Whitespace and letter case *)

Lemma isspace_lower_char c : PyStr.isspace (PyStr.lower_char c) = PyStr.isspace c.
Proof. by destruct c as [[] [] [] [] [] [] [] []]. Qed.

Lemma rstrip_no_trailing v :
  ∀ a w, PyStr.rstrip v = a +:+ w → PyStr.only_whitespace w → w = "".
Proof.
  induction v as [|c v IH]; intros a w; simpl.
  - destruct a, w; done.
  - destruct (PyStr.rstrip v) as [|x r] eqn:Hr.
    + destruct (PyStr.isspace c) eqn:Hc.
      * destruct a, w; done.
      * destruct a as [|y a]; [|destruct a, w; done].
        rewrite StringFacts.sapp_nil_l. intros <-.
        intros [Hs _]%VoiceClonerProofs.only_whitespace_cons. congruence.
    + destruct a as [|y a].
      * rewrite StringFacts.sapp_nil_l. intros <-.
        intros [_ Hw]%VoiceClonerProofs.only_whitespace_cons.
        by specialize (IH "" (String x r) eq_refl Hw).
      * rewrite StringFacts.sapp_cons. intros [= <- Hrest] Hw.
        by apply (IH a w).
Qed.

Lemma split_from_acc acc s : acc ≠ [] → PyStr.split_from acc s ≠ [].
Proof.
  revert acc. induction s as [|c s IH]; intros acc Hacc; simpl.
  - by destruct acc.
  - destruct (PyStr.isspace c); [by destruct acc | by apply IH].
Qed.

Lemma split_from_nonblank acc s :
  ¬ PyStr.only_whitespace s → PyStr.split_from acc s ≠ [].
Proof.
  revert acc. induction s as [|c s IH]; intros acc Hs; simpl.
  - destruct Hs. apply VoiceClonerProofs.only_whitespace_nil.
  - destruct (PyStr.isspace c) eqn:Hc; [|by apply split_from_acc].
    intros Heq. apply app_eq_nil in Heq as [_ Heq]. revert Heq. apply IH.
    intros Hw. apply Hs, VoiceClonerProofs.only_whitespace_cons. by split.
Qed.

(** A stripped line that begins with [lang ] has a second word. *)
Lemma lang_has_code raw :
  PyStr.startswith (PyStr.lower (PyStr.strip raw)) "lang " = true →
  ∃ code, PyStr.split (PyStr.strip raw) !! 1%nat = Some code.
Proof.
  intros [r Hr]%startswith_lang.
  destruct (PyStr.strip raw) as [|c1 [|c2 [|c3 [|c4 [|c5 u]]]]] eqn:Hu;
    try discriminate Hr.
  cbn [PyStr.lower] in Hr. injection Hr as H1 H2 H3 H4 H5 _.
  assert (Hs : ∀ c x, PyStr.lower_char c = x → PyStr.isspace c = PyStr.isspace x).
  { intros c x <-. by rewrite isspace_lower_char. }
  apply Hs in H1, H2, H3, H4, H5.
  assert (Hu' : ¬ PyStr.only_whitespace u).
  { intros Hw. unfold PyStr.strip in Hu.
    assert (String c5 u = "") as Habs; [|done].
    apply (rstrip_no_trailing (PyStr.lstrip raw)
             (String c1 (String c2 (String c3 (String c4 ""))))).
    - by rewrite Hu.
    - apply VoiceClonerProofs.only_whitespace_cons. by split. }
  unfold PyStr.split. cbn [PyStr.split_from]. rewrite H1, H2, H3, H4, H5.
  cbn [PyStr.isspace]. change (PyStr.isspace " ") with true.
  change (PyStr.isspace "l") with false. change (PyStr.isspace "a") with false.
  change (PyStr.isspace "n") with false. change (PyStr.isspace "g") with false.
  cbv iota. unfold PyStr.flush at 1. cbn [app lookup list_lookup].
  pose proof (split_from_nonblank [] u Hu') as Hne.
  destruct (PyStr.split_from [] u) as [|code rest]; [done |]. by exists code.
Qed.

Section proofs.
Context `{Oracles}.

(** ** One pass of the loop *)

Ltac finish_pass :=
  cbv beta iota zeta delta [is_Exception];
  rewrite ?bool_decide_eq_true_2 by (by left);
  eexists _, _, _; split;
  [ unfold generation_events; rewrite <- ?app_assoc; cbn [app]; reflexivity
  | split; [repeat constructor | simpl; lia] ].

(** A pass shows the prompt, returns, and advances the counter by the
    number of files it reports as saved. *)
Lemma iteration_run voice_file output_dir (l : Cli.locals) k t :
  ∃ c l' new,
    Cli.iteration voice_file output_dir l k t
    = (Return (c, l'),
       t ++ Prompt (Cli.counter l) (Cli.current_language l) :: new)
    ∧ Forall not_prompt new
    ∧ Cli.counter l' = (Cli.counter l + length (saved_names new))%nat.
Proof.
  unfold Cli.iteration, Cli.input.
  destruct k as [raw| |].
  2,3: cbv beta iota zeta delta [try_except bind emit ret raise Host.print];
       cbn [fst snd bool_decide]; finish_pass.
  cbv beta iota zeta delta [try_except bind emit ret raise lift Host.print
                            now_timestamp run_ffplay fst snd].
  destruct (negb (PyStr.truthy (PyStr.strip raw))); [finish_pass |].
  destruct (bool_decide (_ ∈ _)); [finish_pass |].
  destruct (bool_decide (_ = "help")); [finish_pass |].
  destruct (PyStr.startswith _ _) eqn:Hlang.
  { destruct (lang_has_code raw Hlang) as [code Hcode].
    unfold PyStr.item. rewrite Hcode.
    destruct (bool_decide (_ ∈ _)); finish_pass. }
  rewrite VoiceClonerProofs.clone_voice_run.
  destruct (negb (os_path_exists _)); [finish_pass |].
  destruct (_ || _); [finish_pass |].
  cbv zeta.
  destruct (tts_to_file _ _ _ _) as [e|].
  - destruct e; finish_pass.
  - destruct (ffplay _) as [e|code]; finish_pass.
Qed.

(** ** The loop *)

Lemma saved_names_app (t1 t2 : trace) :
  saved_names (t1 ++ t2) = saved_names t1 ++ saved_names t2.
Proof. apply omap_app. Qed.

Lemma prompts_numbered_quiet n (new : trace) :
  Forall not_prompt new → prompts_numbered n new.
Proof.
  intros Hnew. revert n. induction Hnew as [|e new He _ IH]; intros n; [done |].
  destruct e as [[]| | | |]; simpl; try done; apply IH.
Qed.

Lemma prompts_numbered_app n (t1 t2 : trace) :
  prompts_numbered n t1 →
  prompts_numbered (n + length (saved_names t1)) t2 →
  prompts_numbered n (t1 ++ t2).
Proof.
  revert n. induction t1 as [|e t1 IH]; intros n H1 H2.
  - simpl in *. by rewrite Nat.add_0_r in H2.
  - assert (Hstep : ∀ m, prompts_numbered m t1 →
                         prompts_numbered (m + length (saved_names t1)) t2 →
                         prompts_numbered m (t1 ++ t2)) by (intros; by apply IH).
    destruct e as [[]| | | |]; simpl in *; try (by apply Hstep).
    + apply Hstep; [done |]. by rewrite Nat.add_succ_comm.
    + destruct H1 as [-> H1]. split; [done | by apply Hstep].
Qed.

Lemma interactive_loop_run voice_file output_dir keys :
  ∀ (l : Cli.locals) t,
    ∃ l' new,
      Cli.interactive_loop voice_file output_dir keys l t
      = (Return l', t ++ new)
      ∧ prompts_numbered (Cli.counter l) new
      ∧ Cli.counter l' = (Cli.counter l + length (saved_names new))%nat.
Proof.
  induction keys as [|k keys IH]; intros l t; cbn [Cli.interactive_loop];
    unfold bind at 1.
  - destruct (iteration_run voice_file output_dir l Cli.EndOfInput t)
      as (c & l' & new & -> & Hq & Hc).
    exists l', (Prompt (Cli.counter l) (Cli.current_language l) :: new).
    split; [done |]. split; [|done]. split; [done |].
    by apply prompts_numbered_quiet.
  - destruct (iteration_run voice_file output_dir l k t)
      as (c & l' & new & -> & Hq & Hc).
    assert (Hpass : prompts_numbered (Cli.counter l)
                      (Prompt (Cli.counter l) (Cli.current_language l) :: new)).
    { split; [done |]. by apply prompts_numbered_quiet. }
    destruct c; cbn [fst snd].
    + destruct (IH l' (t ++ Prompt (Cli.counter l) (Cli.current_language l)
                         :: new)) as (l2 & new2 & -> & Hn2 & Hc2).
      exists l2, ((Prompt (Cli.counter l) (Cli.current_language l) :: new)
                  ++ new2).
      split; [by rewrite <- app_assoc |]. split.
      * apply prompts_numbered_app; [done |]. cbn [saved_names omap list_omap].
        fold (saved_names new). by rewrite <- Hc.
      * rewrite saved_names_app, length_app. cbn [saved_names omap list_omap].
        fold (saved_names new). lia.
    + exists l', (Prompt (Cli.counter l) (Cli.current_language l) :: new).
      split; [done |]. by split.
Qed.

Lemma interactive_mode_run voice_file keys t :
  ∃ l new,
    Cli.interactive_mode voice_file keys t = (Return l, t ++ new)
    ∧ prompts_numbered 1 new
    ∧ Cli.counter l = S (length (saved_names new)).
Proof.
  unfold Cli.interactive_mode.
  cbv beta iota zeta delta [bind Host.print mkdir emit].
  destruct (interactive_loop_run voice_file (Path "outputs") keys
              (Cli.mkLocals 1 "en")
              ((t ++ [Print InteractiveBanner]) ++ [Mkdir (Path "outputs")]))
    as (l & new & -> & Hn & Hc).
  exists l, ([Print InteractiveBanner; Mkdir (Path "outputs")] ++ new).
  split; [by rewrite <- !app_assoc |]. split; [exact Hn | exact Hc].
Qed.


(** X10. The number shown in a prompt is one more than the number of
    files the session has reported as saved up to then, and the counter
    the session ends with is one more than their total: only a
    generation that succeeds advances it. *)
Theorem prompt_counts_saved_files voice_file keys t :
  ∃ new,
    (Cli.interactive_mode voice_file keys t).2 = t ++ new
    ∧ prompts_numbered 1 new
    ∧ ∀ l, (Cli.interactive_mode voice_file keys t).1 = Return l →
           Cli.counter l = S (length (saved_names new)).
Proof.
  destruct (interactive_mode_run voice_file keys t) as (l & new & -> & Hn & Hc).
  exists new. split; [done |]. split; [done |]. by intros ? [= <-].
Qed.

(** ** Lines that are not spoken *)

Lemma strip_blank raw : PyStr.only_whitespace raw → PyStr.strip raw = "".
Proof.
  intros Hw%VoiceClonerProofs.lstrip_empty_iff. unfold PyStr.strip.
  by rewrite Hw.
Qed.

(** X11. A line that is empty or holds only whitespace is skipped: the
    prompt is shown again with the same number and language, and nothing
    is printed or synthesised. *)
Theorem blank_line_is_skipped voice_file output_dir raw keys
    (l : Cli.locals) t :
  PyStr.only_whitespace raw →
  Cli.interactive_loop voice_file output_dir (Cli.Line raw :: keys) l t
  = Cli.interactive_loop voice_file output_dir keys l
      (t ++ [Prompt (Cli.counter l) (Cli.current_language l)]).
Proof.
  intros Hraw%strip_blank. cbn [Cli.interactive_loop].
  unfold bind at 1, Cli.iteration, Cli.input.
  cbv beta iota zeta delta [try_except bind emit ret].
  rewrite Hraw. reflexivity.
Qed.

(** X12. [quit], [exit] and [q], in any letter case and with spaces
    around, end the session at once: the farewell is printed, nothing is
    synthesised, and the lines that follow are not read. *)
Theorem quit_ends_session voice_file output_dir raw keys (l : Cli.locals) t :
  PyStr.lower (PyStr.strip raw) ∈ ["quit"; "exit"; "q"] →
  Cli.interactive_loop voice_file output_dir (Cli.Line raw :: keys) l t
  = (Return l,
     t ++ [Prompt (Cli.counter l) (Cli.current_language l); Print Goodbye]).
Proof.
  intros Hquit. cbn [Cli.interactive_loop].
  unfold bind at 1, Cli.iteration, Cli.input.
  cbv beta iota zeta delta [try_except bind emit ret Host.print].
  assert (negb (PyStr.truthy (PyStr.strip raw)) = false) as ->.
  { destruct (PyStr.strip raw); [|done]. cbn [PyStr.lower] in Hquit.
    apply list_elem_of_In in Hquit. simpl in Hquit. intuition discriminate. }
  rewrite bool_decide_eq_true_2 by done. cbn [fst snd].
  by rewrite <- app_assoc.
Qed.

End proofs.

Lemma blank_line_is_skipped_witness :
  PyStr.only_whitespace "  "
  ∧ @Cli.interactive_loop Demo.demo_host
      (Path "voices/my_voice/combined.wav") (Path "outputs")
      [Cli.Line "  "; Cli.Line "q"] (Cli.mkLocals 1 "en") []
    = @Cli.interactive_loop Demo.demo_host
        (Path "voices/my_voice/combined.wav") (Path "outputs")
        [Cli.Line "q"] (Cli.mkLocals 1 "en") [Prompt 1 "en"].
Proof.
  assert (Hw : PyStr.only_whitespace "  ").
  { repeat (apply VoiceClonerProofs.only_whitespace_cons; split;
            [reflexivity |]).
    apply VoiceClonerProofs.only_whitespace_nil. }
  split; [exact Hw |].
  exact (@blank_line_is_skipped Demo.demo_host
           (Path "voices/my_voice/combined.wav") (Path "outputs") "  "
           [Cli.Line "q"] (Cli.mkLocals 1 "en") [] Hw).
Defined.

Lemma quit_ends_session_witness :
  PyStr.lower (PyStr.strip " QUIT ") ∈ ["quit"; "exit"; "q"]
  ∧ @Cli.interactive_loop Demo.demo_host
      (Path "voices/my_voice/combined.wav") (Path "outputs")
      [Cli.Line " QUIT "; Cli.Line "hello"] (Cli.mkLocals 1 "en") []
    = (Return (Cli.mkLocals 1 "en"), [Prompt 1 "en"; Print Goodbye]).
Proof.
  assert (Hq : PyStr.lower (PyStr.strip " QUIT ") ∈ ["quit"; "exit"; "q"]).
  { apply (bool_decide_eq_true_1 _). vm_compute. reflexivity. }
  split; [exact Hq |].
  exact (@quit_ends_session Demo.demo_host
           (Path "voices/my_voice/combined.wav") (Path "outputs") " QUIT "
           [Cli.Line "hello"] (Cli.mkLocals 1 "en") [] Hq).
Defined.

End SessionFacts.

(* ===================================================================== *)
(** * What the front ends pass to the synthesiser *)
(* ===================================================================== *)

Module RequestFacts.
Import Pathlib Host VoiceCloner HostProofs FrontEndProofs Requests.

Section proofs.
Context `{Oracles}.

(** Validation does not look at the trace. *)
Lemma validate_path_pure path allowed_parent t :
  validate_path path allowed_parent t
  = ((validate_path path allowed_parent []).1, t).
Proof.
  unfold validate_path, try_except, bind, resolve, lift, ret, raise.
  destruct (path_resolve (Path path)) as [e|r]; [by case_bool_decide |].
  destruct (path_resolve (Path allowed_parent)) as [e|a];
    [by case_bool_decide |].
  destruct (relative_to r a) as [rel|e|code]; [done | | done].
  by case_bool_decide.
Qed.

Lemma emits_validated Q path allowed_parent :
  emits Q (validate_path path allowed_parent)
        (validated path allowed_parent).
Proof.
  intros t. exists []. rewrite app_nil_r, validate_path_pure.
  split; [done |]. split; [constructor |]. cbn [fst].
  intros r Hr. unfold validated.
  rewrite (validate_path_pure path allowed_parent []). by rewrite Hr.
Qed.

(** X13. The web handler synthesises only requests it has checked: the
    text is not blank and has at most 10000 characters, the voice is
    selected, passes [validate_path] against [voices] and exists, and the
    audio goes to a fresh [web_ui_*.wav] under [outputs].  It hands back
    an audio path exactly when it reports success. *)
Theorem web_synthesises_checked_requests text voice_file language t :
  ∃ new,
    (WebUi.generate_speech text voice_file language t).2 = t ++ new
    ∧ Forall (web_request_ok text voice_file language) new
    ∧ ∀ r, (WebUi.generate_speech text voice_file language t).1 = Return r →
           (is_Some r.1 ↔ r.2 = WebUi.GeneratedSuccessfully).
Proof.
  revert t.
  change (emits (web_request_ok text voice_file language)
            (WebUi.generate_speech text voice_file language)
            (λ r, is_Some r.1 ↔ r.2 = WebUi.GeneratedSuccessfully)).
  assert (Hno : ∀ st, st ≠ WebUi.GeneratedSuccessfully →
                      is_Some (@None string) ↔ st = WebUi.GeneratedSuccessfully).
  { intros st Hst. split; [by intros [? ?] | done]. }
  unfold WebUi.generate_speech. cbn zeta.
  destruct (_ || _) eqn:Hblank; [by apply emits_ret, Hno |].
  apply VoiceClonerProofs.blank_test_false in Hblank.
  destruct (_ >? _) eqn:Hlong; [by apply emits_ret, Hno |].
  assert (Hlen : Z.of_nat (String.length text) ≤ 10000).
  { rewrite Z.gtb_ltb in Hlong. by apply Z.ltb_ge in Hlong. }
  destruct voice_file as [[|c voice]|];
    [by apply emits_ret, Hno | | by apply emits_ret, Hno].
  set (voice_file := String c voice).
  apply emits_bind
    with (R1 := λ checked,
            match checked with
            | Some st => st ≠ WebUi.GeneratedSuccessfully
            | None => ∃ voice_path, validated voice_file "voices" voice_path
                                    ∧ path_exists voice_path = true
            end).
  - apply emits_try_except.
    + eapply emits_bind; [apply emits_validated |].
      intros voice_path Hv. cbv beta.
      destruct (path_exists voice_path) eqn:He; apply emits_ret; [|done].
      by exists voice_path.
    + intros e _. by apply emits_ret.
  - intros [failure|] Hchecked; [by apply emits_ret, Hno |].
    eapply emits_bind with (R1 := any_value); [by apply emits_mkdir |].
    intros _ _.
    eapply emits_bind with (R1 := any_value);
      [by apply emits_now_timestamp |].
    intros timestamp _. apply emits_try_except.
    + eapply emits_bind with (R1 := any_value).
      * apply emits_clone_voice; try done.
        unfold generation_events.
        repeat (apply Forall_cons; split; [exact I |]).
        apply Forall_singleton. cbn [web_request_ok].
        repeat split; try done. by exists timestamp.
      * intros _ _. apply emits_ret. cbn [fst snd]. split; [done |].
        intros _. by eexists.
    + intros e _. by apply emits_ret, Hno.
Qed.

(** X14. In single-generation mode [cli.py] synthesises the [--text] it
    was given, if it has at most 10000 characters, in the [--language]
    given, and writes where it should: with [--output] to the path that
    [validate_path] returned for it against [outputs], and without it to
    a fresh [output_*.wav] under [outputs]. *)
Theorem cli_synthesises_checked_requests (a : Cli.args) keys t :
  Cli.interactive a = false →
  ∃ new,
    (Cli.main a keys t).2 = t ++ new ∧ Forall (cli_request_ok a) new.
Proof.
  intros Hint.
  enough (Hemits : emits (cli_request_ok a) (Cli.main a keys) any_value).
  { destruct (Hemits t) as (new & Ht & Hnew & _). by exists new. }
  unfold Cli.main, Cli.list_voices. rewrite Hint.
  destruct (Cli.list_voices_flag a); [by apply emits_print |].
  eapply emits_bind with (R1 := any_value);
    [by apply emits_find_voice_file |].
  intros [voice_file|] _; [|repeat emits_step; done].
  eapply emits_bind with (R1 := any_value); [by apply emits_print |].
  intros _ _.
  eapply emits_bind with (R1 := any_value); [repeat emits_step; done |].
  intros _ _.
  destruct (Cli.text a) as [[|c text]|] eqn:Htext;
    [repeat emits_step; done | | repeat emits_step; done].
  destruct (_ >? _) eqn:Hlong; [repeat emits_step; done |].
  assert (Hlen : Z.of_nat (String.length (String c text)) ≤ 10000).
  { unfold Cli.MAX_TEXT_LENGTH in Hlong. rewrite Z.gtb_ltb in Hlong.
    by apply Z.ltb_ge in Hlong. }
  eapply emits_bind
    with (R1 := λ output_path, cli_writes_to (Cli.output a) (str output_path)).
  - destruct (Cli.output a) as [[|c' out]|] eqn:Hout.
    + eapply emits_bind with (R1 := any_value); [by apply emits_mkdir |].
      intros _ _.
      eapply emits_bind with (R1 := any_value);
        [by apply emits_now_timestamp |].
      intros timestamp _. apply emits_ret. by exists timestamp.
    + apply emits_try_except.
      * eapply emits_weaken; [apply emits_validated |].
        intros r Hr. by exists r.
      * intros e _. repeat emits_step; done.
    + eapply emits_bind with (R1 := any_value); [by apply emits_mkdir |].
      intros _ _.
      eapply emits_bind with (R1 := any_value);
        [by apply emits_now_timestamp |].
      intros timestamp _. apply emits_ret. by exists timestamp.
  - intros output_path Hpath.
    eapply emits_bind with (R1 := any_value); [by apply emits_mkdir |].
    intros _ _. apply emits_try_except; [|intros e _; repeat emits_step; done].
    eapply emits_bind with (R1 := any_value); [|intros; by apply emits_print].
    apply emits_clone_voice; try done.
    unfold generation_events.
    repeat (apply Forall_cons; split; [exact I |]).
    apply Forall_singleton. cbn [cli_request_ok]. by repeat split.
Qed.

End proofs.

Lemma cli_synthesises_checked_requests_witness :
  let a := Cli.mkArgs (Some "Hello") "my_voice" (Some "outputs/a.wav") "en"
                      false false in
  Cli.interactive a = false
  ∧ ∃ new,
      (@Cli.main Demo.demo_host a [] []).2 = [] ++ new
      ∧ Forall (@cli_request_ok Demo.demo_host a) new.
Proof.
  intros a. split; [reflexivity |].
  exact (@cli_synthesises_checked_requests Demo.demo_host a [] [] eq_refl).
Defined.

End RequestFacts.

(* ===================================================================== *)
(** * Exit statuses *)
(* ===================================================================== *)

Module ScriptFacts.
Import Pathlib Host VoiceCloner HostProofs FrontEndProofs Requests.
Import RequestFacts SessionFacts Scripts.

Ltac count_calls :=
  rewrite !tts_calls_app; unfold generation_events;
  cbn [tts_calls omap list_omap app]; rewrite ?app_nil_r; reflexivity.

Ltac find_event :=
  apply list_elem_of_In; rewrite !in_app_iff; cbn [In]; tauto.


Section proofs.
Context `{Oracles}.

(** How [main] of [quick_clone.py] can end. *)
Lemma quick_clone_main_ends script_dir argv t o t' :
  QuickClone.main script_dir argv t = (o, t') →
  match o with
  | Return _ =>
      ∃ timestamp,
        let text := PyStr.join " " (drop 1 argv) in
        let voice := str (QuickClone.DEFAULT_VOICE script_dir) in
        let out := str (truediv (QuickClone.OUTPUT_DIR script_dir)
                          (Path ("cloned_" +:+ timestamp +:+ ".wav"))) in
        tts_calls t' = tts_calls t ++ [(text, out, voice, "en")]
        ∧ tts_to_file text out voice "en" = None
        ∧ Print (Success out) ∈ t'
  | SysExit code => code = 1
  | Raise _ => True
  end.
Proof.
  unfold QuickClone.main, QuickClone.print_usage. cbn zeta.
  destruct (_ <? _)%nat; [by intros [= <- <-] |].
  destruct (negb (PyStr.truthy _)); [by intros [= <- <-] |].
  destruct (_ >? _); [by intros [= <- <-] |].
  destruct (negb (path_exists _)); [by intros [= <- <-] |].
  cbv beta iota zeta delta [try_except bind emit ret raise sys_exit Host.print
                            init mkdir now_timestamp run_ffplay fst snd].
  destruct tts_load as [e|]; [destruct (is_Exception e); by intros [= <- <-] |].
  rewrite VoiceClonerProofs.clone_voice_run.
  destruct (negb (os_path_exists _)); [by intros [= <- <-] |].
  destruct (_ || _); [by intros [= <- <-] |].
  cbv zeta.
  destruct (tts_to_file _ _ _ _) as [e|] eqn:Htts;
    [destruct (is_Exception e); by intros [= <- <-] |].
  destruct (ffplay _) as [e|returncode];
    [case_bool_decide; [|by intros [= <- <-]] |
     destruct (negb (returncode =? 0))];
    intros [= <- <-]; eexists; cbv zeta;
    (split; [|split; [exact Htts |]]);
    [ count_calls | find_event | count_calls | find_event
    | count_calls | find_event ].
Qed.


(** X15. [quick_clone.py] ends with status 0 or 1.  Status 0 means
    that the text of the command line was synthesised, once, with the
    default voice and in English, that the synthesis succeeded and that
    the success message was printed; every failure, Ctrl-C and every
    exception that escapes [main] give status 1. *)
Theorem quick_clone_exit_status script_dir argv :
  let run := Scripts.quick_clone script_dir argv in
  (status run = 0 ∨ status run = 1)
  ∧ (status run = 0 →
     ∃ timestamp,
       let text := PyStr.join " " (drop 1 argv) in
       let voice := str (QuickClone.DEFAULT_VOICE script_dir) in
       let out := str (truediv (QuickClone.OUTPUT_DIR script_dir)
                         (Path ("cloned_" +:+ timestamp +:+ ".wav"))) in
       tts_calls (events run) = [(text, out, voice, "en")]
       ∧ tts_to_file text out voice "en" = None
       ∧ Print (Success out) ∈ events run
       ∧ closing run = Quiet).
Proof.
  unfold Scripts.quick_clone.
  pose proof (quick_clone_main_ends script_dir argv []) as Hends.
  destruct (QuickClone.main script_dir argv []) as [[u|e|code] t'];
    specialize (Hends _ _ eq_refl); cbv beta iota in Hends; cbv zeta.
  - split; [by left |]. intros _. destruct Hends as (timestamp & Hcalls & ? & ?).
    exists timestamp. by repeat split.
  - case_bool_decide; [|destruct (is_Exception e)]; (split; [by right | done]).
  - subst code. split; [by right | done].
Qed.


End proofs.

(** A host on which the model loads and every synthesis succeeds runs
    both scripts to status 0. *)
Lemma quick_clone_exit_status_witness :
  let run := @Scripts.quick_clone Demo.demo_host (Path "/srv/app")
               ["quick_clone.py"; "Hello"; "there"] in
  status run = 0
  ∧ ∃ timestamp,
      let out := str (truediv (@QuickClone.OUTPUT_DIR (Path "/srv/app"))
                        (Path ("cloned_" +:+ timestamp +:+ ".wav"))) in
      tts_calls (events run)
      = [("Hello there", out,
          str (@QuickClone.DEFAULT_VOICE (Path "/srv/app")), "en")]
      ∧ Print (Success out) ∈ events run.
Proof.
  intros run.
  assert (Hs : status run = 0) by (vm_compute; reflexivity).
  split; [exact Hs |].
  destruct (@quick_clone_exit_status Demo.demo_host (Path "/srv/app")
              ["quick_clone.py"; "Hello"; "there"]) as [_ Hok].
  destruct (Hok Hs) as (timestamp & Hcalls & _ & Hin & _).
  exists timestamp. split; [exact Hcalls | exact Hin].
Defined.


End ScriptFacts.

(* ===================================================================== *)
(** * Failures *)
(* ===================================================================== *)

Module FailureFacts.
Import Pathlib Host VoiceCloner HostProofs FrontEndProofs Requests.
Import RequestFacts.

Section proofs.
Context `{Oracles}.

(** X17. When the synthesis raises, [clone_voice] raises the same
    exception: by then the output directory has been created and the
    progress lines printed, the error line follows if the exception is
    an [Exception], and no line reports the audio as saved. *)
Theorem clone_voice_reports_failure text reference_audio output_path
    language e t :
  os_path_exists reference_audio = true →
  ¬ PyStr.only_whitespace text →
  tts_to_file text output_path reference_audio language = Some e →
  clone_voice text reference_audio output_path language t
  = (Raise e,
     t ++ generation_events text reference_audio output_path language
       ++ (if is_Exception e then [Print (ErrorGeneratingAudio e)] else [])).
Proof.
  intros Href Htext%VoiceClonerProofs.blank_test_false Htts.
  rewrite VoiceClonerProofs.clone_voice_run, Href, Htext, Htts.
  cbn [negb]. cbv zeta.
  destruct (is_Exception e); by rewrite <- ?app_assoc, ?app_nil_r.
Qed.



End proofs.

Lemma clone_voice_reports_failure_witness :
  @os_path_exists Scenarios.failing_host "voices/my_voice/combined.wav" = true
  ∧ ¬ PyStr.only_whitespace "Hello"
  ∧ @clone_voice Scenarios.failing_host "Hello"
      "voices/my_voice/combined.wav" "outputs/a.wav" "en" []
    = (Raise TTSError,
       [] ++ generation_events "Hello" "voices/my_voice/combined.wav"
               "outputs/a.wav" "en"
          ++ [Print (ErrorGeneratingAudio TTSError)]).
Proof.
  assert (Ht : ¬ PyStr.only_whitespace "Hello").
  { intros [Hh _]%VoiceClonerProofs.only_whitespace_cons. discriminate Hh. }
  split; [reflexivity |]. split; [exact Ht |].
  exact (@clone_voice_reports_failure Scenarios.failing_host "Hello"
           "voices/my_voice/combined.wav" "outputs/a.wav" "en" TTSError []
           eq_refl Ht eq_refl).
Defined.

End FailureFacts.

(* ===================================================================== *)
(** * Properties of the recording script *)
(* ===================================================================== *)

Module RecordVoiceFacts.
Import Pathlib RecordVoice Recordings.
Import Normal StringFacts PathFacts PrepareAudioFacts.

Section proofs.
Context `{Devices}.
Variable project_dir : PurePath.

Ltac quiet_events :=
  cbn [app];
  repeat (apply Forall_cons; split; [first [exact I | by repeat split] |]);
  try apply Forall_nil.

Ltac run_ends :=
  eexists; split; [rewrite <- ?app_assoc; reflexivity |];
  split; [quiet_events |].

Ltac run_fails e :=
  destruct e; cbv beta iota zeta delta [is_Exception]; run_ends; done.

(** One run of [record_audio]. *)
Lemma record_audio_run duration_seconds output_path device t :
  ∃ new,
    (record_audio project_dir duration_seconds output_path device t).2
    = t ++ new
    ∧ Forall (recorded duration_seconds device) new
    ∧ record_result project_dir duration_seconds output_path device
        (record_audio project_dir duration_seconds output_path device t).1.
Proof.
  unfold record_audio. cbn [for_each].
  destruct output_path as [given|];
    cbv beta iota zeta delta [try_except bind emit print ret raise rec wait
                              quiet write now_timestamp fst snd];
    unfold SAMPLE_RATE, CHANNELS;
    (destruct (sd_rec _ _ _ _) as [e|audio] eqn:Hrec; [run_fails e |]);
    (destruct (sd_wait _) as [e|]; [run_fails e |]);
    (destruct (is_quiet _) as [e|[]] eqn:Hquiet;
     [run_fails e | run_ends; done |]);
    (destruct (sf_write _ _ _) as [e|] eqn:Hwrite; [run_fails e |]);
    run_ends; try exact I;
    (split; [first [done | by eexists] | by exists audio]).
Qed.


Lemma admitted_recorded (a : args) answer (new : trace) :
  list_devices a = false → 5 ≤ duration a →
  (600 < duration a →
   ∃ response, answer = Cli.Line response ∧ PyStr.lower response = "y") →
  Forall (recorded (duration a) (device a)) new →
  Forall (admitted a answer) new.
Proof.
  intros Hl Hd Ha Hnew. eapply Forall_impl; [exact Hnew |].
  intros [] He; by cbn.
Qed.

(** The part of [main] that records. *)
Lemma main_records (a : args) answer t :
  list_devices a = false → 5 ≤ duration a →
  (600 < duration a →
   ∃ response, answer = Cli.Line response ∧ PyStr.lower response = "y") →
  ∃ new,
    (bind (record_audio project_dir (duration a) (output a) (device a))
          (λ output_path, match output_path with
                          | Some _ => print Success
                          | None => ret tt
                          end) t).2 = t ++ new
    ∧ Forall (admitted a answer) new.
Proof.
  intros Hl Hd Ha.
  destruct (record_audio_run (duration a) (output a) (device a) t)
    as (new & Ht & Hnew & _).
  apply (admitted_recorded a answer new Hl Hd Ha) in Hnew.
  unfold bind.
  destruct (record_audio project_dir (duration a) (output a) (device a) t)
    as [[[p|]|e|code] t1]; cbn [fst snd] in *; subst t1.
  - exists (new ++ [Print Success]). rewrite app_assoc. split; [done |].
    apply Forall_app. split; [done |]. by apply Forall_singleton.
  - by exists new.
  - by exists new.
  - by exists new.
Qed.

(** X20. [main] lets a recording start only for a duration of at least
    5 seconds, and for more than 600 seconds only after the answer [y]
    or [Y] to its question; with [--list-devices], a shorter duration or
    another answer nothing is recorded, created or written.  What is
    recorded is as [record_audio] makes it for the duration and device
    of the command line. *)
Theorem main_admits_checked_durations (a : args) answer t :
  ∃ new,
    (main project_dir a answer t).2 = t ++ new
    ∧ Forall (admitted a answer) new.
Proof.
  unfold main, list_audio_devices.
  destruct (list_devices a) eqn:Hl.
  { exists [Print AvailableDevices]. split; [done |]. by apply Forall_singleton. }
  destruct (Z.ltb_spec (duration a) 5) as [Hshort|Hd].
  { exists [Print DurationTooShort]. split; [done |]. by apply Forall_singleton. }
  destruct (duration a >? 600) eqn:Hlong.
  - unfold bind at 1. unfold bind at 1. unfold print at 1, emit at 1.
    unfold bind at 1. unfold input, bind at 1, emit at 1.
    destruct answer as [response| |]; cbn [fst snd ret raise].
    + case_bool_decide as Hy; cbn [negb].
      * unfold ret at 1.
        destruct (main_records a (Cli.Line response)
                    ((t ++ [Print LongRecordingWarning])
                     ++ [Input "Continue? [y/N]: "]) Hl Hd)
          as (new & Ht & Hnew); [by intros _; exists response |].
        exists ([Print LongRecordingWarning; Input "Continue? [y/N]: "]
                ++ new).
        rewrite Ht, <- !app_assoc. split; [done |].
        apply Forall_app. split; [|done]. by repeat constructor.
      * exists [Print LongRecordingWarning; Input "Continue? [y/N]: ";
                Print Cancelled].
        unfold bind, print, emit, ret. cbn [fst snd].
        rewrite <- !app_assoc. split; [done |]. by repeat constructor.
    + exists [Print LongRecordingWarning; Input "Continue? [y/N]: "].
      rewrite <- !app_assoc. split; [done |]. by repeat constructor.
    + exists [Print LongRecordingWarning; Input "Continue? [y/N]: "].
      rewrite <- !app_assoc. split; [done |]. by repeat constructor.
  - unfold bind at 1, ret at 1.
    apply (main_records a answer t Hl Hd).
    intros Hgt. rewrite Z.gtb_ltb in Hlong. apply Z.ltb_ge in Hlong. lia.
Qed.

(** ** The default file name *)

Lemma Path_single n :
  free_of "/" n → Is_true (keep_part n) → Path n = mkPath false [n].
Proof.
  intros Hfree Hkeep. unfold Path, PyStr.split_on.
  rewrite split_on_from_free by done. cbn [rev String.string_of_list_ascii].
  rewrite sapp_nil_l, filter_cons_True, filter_nil by done. f_equal.
  destruct n as [|c n]; [done |]. apply free_of_cons in Hfree as [Hc _].
  unfold PyStr.startswith. cbn [String.prefix].
  by destruct (Ascii.ascii_dec "/" c).
Qed.

Lemma sample_name_matches timestamp :
  Is_true (PrepareAudio.fnmatch_star "sample_" ".wav"
             ("sample_" +:+ timestamp +:+ ".wav")).
Proof.
  unfold PrepareAudio.fnmatch_star. apply Is_true_true.
  rewrite !andb_true_iff. split; [split |].
  - apply prefix_app.
  - rewrite <- sapp_assoc. apply endswith_app.
  - apply Nat.leb_le. rewrite !slength_app. simpl. lia.
Qed.

Lemma default_recording_is_a_sample timestamp :
  well_formed project_dir → free_of "/" timestamp →
  PrepareAudio.sample_of (voices_dir project_dir)
    (str (truediv (voices_dir project_dir)
            (Path ("sample_" +:+ timestamp +:+ ".wav")))).
Proof.
  intros Hwf Hts.
  set (n := "sample_" +:+ timestamp +:+ ".wav").
  assert (Hfree : free_of "/" n).
  { unfold n. rewrite !free_of_app. split; [free_of_solve |].
    split; [done | free_of_solve]. }
  assert (Hkeep : Is_true (keep_part n)).
  { apply keep_part_long. unfold n. rewrite !slength_app. simpl. lia. }
  rewrite (Path_single n Hfree Hkeep).
  assert (Hvd : well_formed (voices_dir project_dir)).
  { unfold voices_dir.
    repeat apply PrepareAudioMainFacts.well_formed_truediv;
      [done | apply well_formed_Path..]. }
  destruct (voices_dir project_dir) as [r ps] eqn:Hdir.
  unfold truediv. cbn [root parts].
  assert (Hp : well_formed {| root := r; parts := ps ++ [n] |}).
  { unfold well_formed in *. cbn [parts] in *. apply Forall_app.
    split; [done |]. by apply Forall_singleton. }
  unfold PrepareAudio.sample_of. rewrite Path_str by done.
  rewrite parent_snoc, name_snoc.
  split; [done |]. split; [apply snoc_not_nil | apply sample_name_matches].
Qed.

(** X21. A recording saved under its default name is a sample of the
    default voice directory: its name matches [sample_*.wav] there, so
    [combine_samples] will pick it up. *)
Theorem saved_recording_is_a_sample duration_seconds device t p :
  well_formed project_dir →
  (∀ n, free_of "/" (clock n)) →
  (record_audio project_dir duration_seconds None device t).1
  = Return (Some p) →
  PrepareAudio.sample_of (voices_dir project_dir) (str p).
Proof.
  intros Hwf Hclock Hrun.
  unfold record_audio in Hrun.
  cbv beta iota zeta delta [try_except bind emit print ret raise rec wait
                            quiet write now_timestamp for_each fst snd]
    in Hrun.
  destruct (sd_rec _ _ _ _) as [e|audio]; [by destruct e |].
  destruct (sd_wait _) as [e|]; [by destruct e |].
  destruct (is_quiet _) as [e|[]]; [by destruct e | done |].
  destruct (sf_write _ _ _) as [e|]; [by destruct e |].
  injection Hrun as <-.
  by apply default_recording_is_a_sample.
Qed.

End proofs.

Lemma saved_recording_is_a_sample_witness :
  let p := Path "/srv/app/voices/my_voice/sample_20240101_120000.wav" in
  well_formed (Path "/srv/app")
  ∧ (∀ n, free_of "/" (@clock Scenarios.microphone n))
  ∧ (@record_audio Scenarios.microphone (Path "/srv/app") 5 None None []).1
    = Return (Some p)
  ∧ PrepareAudio.sample_of (voices_dir (Path "/srv/app")) (str p).
Proof.
  intros p.
  assert (Hwf : well_formed (Path "/srv/app")) by apply well_formed_Path.
  assert (Hclock : ∀ n, free_of "/" (@clock Scenarios.microphone n)).
  { intros n. cbn [clock Scenarios.microphone]. free_of_solve. }
  assert (Hrun : (@record_audio Scenarios.microphone (Path "/srv/app") 5
                    None None []).1 = Return (Some p))
    by (vm_compute; reflexivity).
  split; [exact Hwf |]. split; [exact Hclock |]. split; [exact Hrun |].
  exact (@saved_recording_is_a_sample Scenarios.microphone (Path "/srv/app")
           5 None [] p Hwf Hclock Hrun).
Defined.

End RecordVoiceFacts.

(* ===================================================================== *)
(** * Properties of the voices on offer *)
(* ===================================================================== *)

Module WebVoicesFacts.
Import Pathlib Host VoiceCloner Requests WebVoices.
Import Normal StringFacts PathFacts PrepareAudioFacts RequestFacts.

(** Without [..] nothing collapses. *)
Lemma collapse_clean ps :
  ∀ above, (".." ∉ ps) → Demo.collapse above ps = rev above ++ ps.
Proof.
  induction ps as [|p ps IH]; intros above Hps; cbn [Demo.collapse].
  - by rewrite app_nil_r.
  - apply not_elem_of_cons in Hps as [Hp Hps].
    rewrite bool_decide_eq_false_2 by done. rewrite IH by done.
    cbn [rev]. by rewrite <- app_assoc.
Qed.

Lemma well_formed_child p n :
  well_formed p → entry_name n → well_formed (child p n).
Proof.
  intros Hp (Hfree & Hne & Hdot & _). unfold well_formed, child in *.
  cbn [parts]. apply Forall_app. split; [done |]. apply Forall_singleton.
  split; [|done]. unfold keep_part.
  by rewrite !bool_decide_eq_false_2.
Qed.

Section proofs.
Context `{Oracles} `{Directory}.

Lemma elem_of_sorted_paths p ps : p ∈ sorted_paths ps ↔ p ∈ ps.
Proof. unfold sorted_paths. by rewrite merge_sort_Permutation. Qed.

(** Where the paths on offer come from. *)
Lemma list_voice_files_entries display path :
  (display, path) ∈ list_voice_files →
  ∃ n, n ∈ listdir (Path "voices")
       ∧ (path = str (child (child (Path "voices") n) "combined.wav")
          ∨ ∃ w, w ∈ path_glob (child (Path "voices") n) "sample_*.wav"
                 ∧ path = str w).
Proof.
  unfold list_voice_files. cbv zeta.
  destruct (negb (path_exists (Path "voices"))); [by intros ?%elem_of_nil |].
  intros Hin%list_elem_of_In.
  apply in_concat in Hin as (entries & Hentries%list_elem_of_In
                             & Hin%list_elem_of_In).
  apply list_elem_of_fmap in Hentries as (voice_dir & -> & Hdir).
  rewrite elem_of_sorted_paths in Hdir. unfold iterdir in Hdir.
  apply list_elem_of_fmap in Hdir as (n & -> & Hn).
  exists n. split; [done |]. unfold voice_entries in Hin.
  destruct (_ && _); [|by apply elem_of_nil in Hin].
  cbv zeta in Hin. apply elem_of_app in Hin as [Hin|Hin].
  - left. destruct (path_exists _); [|by apply elem_of_nil in Hin].
    apply list_elem_of_singleton in Hin. by injection Hin as _ ->.
  - right. apply list_elem_of_fmap in Hin as (w & Hw & Hin).
    rewrite elem_of_sorted_paths in Hin. exists w. split; [done |].
    by injection Hw as _ ->.
Qed.

(** On a host without links a relative path without [..] below [voices]
    passes the validation. *)
Lemma validated_below_voices cwd below :
  no_links cwd → below ≠ [] →
  Forall entry_name below →
  validated (str (mkPath false ("voices" :: below))) "voices"
            (mkPath true (cwd ++ "voices" :: below)).
Proof.
  intros [Hcwd Hres] Hne Hbelow.
  assert (Hwf : well_formed (mkPath false ("voices" :: below))).
  { unfold well_formed. cbn [parts]. apply Forall_cons. split.
    - split; [done | free_of_solve].
    - eapply Forall_impl; [exact Hbelow |].
      intros n (Hfree & He & Hd & _). split; [|done]. unfold keep_part.
      by rewrite !bool_decide_eq_false_2. }
  assert (Hclean : ".." ∉ cwd ++ "voices" :: below).
  { rewrite not_elem_of_app, not_elem_of_cons. split; [done |].
    split; [done |]. intros Hin.
    by destruct (proj1 (Forall_forall _ _) Hbelow _ Hin) as (_ & _ & _ & ?). }
  unfold validated, validate_path, try_except, bind, resolve, lift, ret.
  rewrite !Hres, Path_str by done.
  unfold Demo.resolve_from. cbn [root parts].
  change (Path "voices") with (mkPath false ["voices"]). cbn [root parts].
  assert (Hvoices : ".." ∉ cwd ++ ["voices"]).
  { rewrite not_elem_of_app, not_elem_of_cons. split; [done |].
    split; [done | apply not_elem_of_nil]. }
  rewrite (collapse_clean _ [] Hclean), (collapse_clean _ [] Hvoices).
  cbn [rev app].
  rewrite VoiceClonerProofs.relative_to_within by done.
  rewrite decide_True; [done |].
  split; [done |]. cbn [parts]. exists below. by rewrite <- app_assoc.
Qed.

(** X22. On a host where resolving meets no symbolic link, every voice
    that [list_voice_files] offers is one that the handler accepts:
    its path passes [validate_path] against [voices]. *)
Theorem offered_voices_pass_validation cwd display path :
  no_links cwd → lists_entries →
  (display, path) ∈ list_voice_files →
  ∃ resolved, validated path "voices" resolved.
Proof.
  intros Hhost [Hnames Hglob] Hin.
  destruct (list_voice_files_entries display path Hin)
    as (n & Hn%Hnames & [-> | (w & Hw & ->)]).
  - eexists.
    apply (validated_below_voices cwd [n; "combined.wav"] Hhost); [done |].
    apply Forall_cons. split; [done |]. apply Forall_singleton.
    split; [free_of_solve | done].
  - apply Hglob in Hw as (f & -> & Hf). eexists.
    apply (validated_below_voices cwd [n; f] Hhost); [done |].
    apply Forall_cons. split; [done |]. by apply Forall_singleton.
Qed.

End proofs.

#[local] Existing Instance Demo.demo_host.
#[local] Existing Instance Scenarios.demo_listing.

Lemma offered_voices_pass_validation_witness :
  no_links Demo.cwd ∧ lists_entries
  ∧ ("my_voice/combined.wav", "voices/my_voice/combined.wav") ∈ list_voice_files
  ∧ ∃ resolved, validated "voices/my_voice/combined.wav" "voices" resolved.
Proof.
  assert (Hhost : no_links Demo.cwd).
  { split; [|done]. apply (bool_decide_unpack _). vm_compute. exact I. }
  assert (Hlists : lists_entries).
  { split.
    - intros d n. cbn [listdir Scenarios.demo_listing].
      case_bool_decide; [|by intros ?%elem_of_nil].
      rewrite !elem_of_cons, elem_of_nil.
      intros [->|[->|[->|[]]]]; (split; [free_of_solve | done]).
    - intros d pattern w. cbn [path_glob Demo.demo_host].
      case_bool_decide; [|by intros ?%elem_of_nil].
      intros ->%list_elem_of_singleton. exists "take.wav".
      split; [done |]. split; [free_of_solve | done]. }
  assert (Hin : ("my_voice/combined.wav", "voices/my_voice/combined.wav")
                ∈ list_voice_files).
  { apply (bool_decide_unpack _). vm_compute. exact I. }
  split; [exact Hhost |]. split; [exact Hlists |]. split; [exact Hin |].
  exact (offered_voices_pass_validation Demo.cwd "my_voice/combined.wav"
           "voices/my_voice/combined.wav" Hhost Hlists Hin).
Defined.

End WebVoicesFacts.
